(** * JA4 fingerprinting of a TLS ClientHello: the EdgeWorker of
    [src/util.js] and [src/main.js], embedded in Rocq.

    Numbers are [Z]; the handshake buffer (a [Uint8Array]) is a list of
    bytes; JavaScript strings are [string]; the [TLS_MAPPER] object is a
    [gmap], the [GREASE_VALUES] set a [gset]; an exception is the [Throw]
    outcome of a small error monad. *)

From Stdlib Require Import ZArith Ascii String List Lia Strings.Byte.
From Stdlib Require Import Sorting.Sorted Sorting.Permutation.
From stdpp Require Import gmap strings list sorting.

Local Open Scope string_scope.
Local Open Scope list_scope.
Local Open Scope Z_scope.

(** ** Exceptions and the error monad *)

(** [RangeError] is what a [DataView] accessor throws for an offset outside
    the buffer; [TypeError] is a method call on [undefined];
    [InvalidCharacterError] is what [atob] throws; [OutOfFuel] is not a
    JavaScript exception: it marks a loop of the model that was given too
    few iterations, and is shown never to occur. *)
Inductive exn : Set :=
  | RangeError
  | TypeError
  | InvalidCharacterError
  | OutOfFuel.

Inductive result (A : Type) : Type :=
  | Return (a : A)
  | Throw (e : exn).
Arguments Return {A} a.
Arguments Throw {A} e.

Definition bind {A B : Type} (m : result A) (k : A -> result B) : result B :=
  match m with
  | Return a => k a
  | Throw e => Throw e
  end.

Notation "'let*' x ':=' m 'in' k" := (bind m (fun x => k))
  (at level 10, x name, m at level 100, k at level 200).

(** ** Number formatting: [toString], [padStart], [join] *)

Definition digitChar (d : Z) : ascii :=
  ascii_of_N (Z.to_N (if d <? 10 then 48 + d else 87 + d)).

(** [n.toString(radix)] for a non-negative integer [n]; [fuel] bounds the
    number of digits. *)
Fixpoint toDigits (fuel : nat) (radix n : Z) (acc : string) : string :=
  match fuel with
  | O => acc
  | S fuel' =>
      let acc' := String (digitChar (n mod radix)) acc in
      if n / radix =? 0 then acc' else toDigits fuel' radix (n / radix) acc'
  end.

Definition toString (radix n : Z) : string :=
  toDigits (S (Z.to_nat (Z.log2 n))) radix n "".

Fixpoint repeatChar (n : nat) (c : ascii) : string :=
  match n with
  | O => ""
  | S n' => String c (repeatChar n' c)
  end.

(** [s.padStart(width, c)]: pads on the left, never truncates. *)
Definition padStart (width : nat) (c : ascii) (s : string) : string :=
  repeatChar (width - String.length s) c +:+ s.

Definition hex4 (v : Z) : string := padStart 4 "0" (toString 16 v).

(** [xs.join(',')] *)
Fixpoint join (sep : string) (xs : list string) : string :=
  match xs with
  | [] => ""
  | [x] => x
  | x :: rest => x +:+ sep +:+ join sep rest
  end.

(** ** SHA-256 (FIPS 180-4), the digest behind [crypto.subtle.digest]

    Words are 32-bit integers held in [Z]; every addition is reduced
    modulo 2^32. *)
Module SHA256.

Definition w32 (x : Z) : Z := x mod 4294967296.

Definition rotr (n x : Z) : Z :=
  w32 (Z.lor (Z.shiftr x n) (Z.shiftl x (32 - n))).

Definition Ch (x y z : Z) : Z :=
  Z.lxor (Z.land x y) (Z.land (Z.lxor x 4294967295) z).

Definition Maj (x y z : Z) : Z :=
  Z.lxor (Z.lxor (Z.land x y) (Z.land x z)) (Z.land y z).

Definition Sigma0 (x : Z) : Z := Z.lxor (Z.lxor (rotr 2 x) (rotr 13 x)) (rotr 22 x).
Definition Sigma1 (x : Z) : Z := Z.lxor (Z.lxor (rotr 6 x) (rotr 11 x)) (rotr 25 x).
Definition sigma0 (x : Z) : Z := Z.lxor (Z.lxor (rotr 7 x) (rotr 18 x)) (Z.shiftr x 3).
Definition sigma1 (x : Z) : Z := Z.lxor (Z.lxor (rotr 17 x) (rotr 19 x)) (Z.shiftr x 10).

(** The round constants are the first 32 bits of the fractional parts of
    the cube roots of the first 64 primes, the initial hash value those of
    the square roots of the first 8. *)
Definition isPrime (n : Z) : bool :=
  (1 <? n)
  && forallb (fun d => (n <? d * d) || negb (n mod d =? 0))
       (map Z.of_nat (seq 2 (Z.to_nat n - 2))).

Definition primes : list Z := List.filter isPrime (map Z.of_nat (seq 2 310)).

(** The largest [r] below [2 ^ bits] with [r ^ k <= n], found bit by bit. *)
Fixpoint iroot (k : Z) (bits : nat) (n r : Z) : Z :=
  match bits with
  | O => r
  | S bits' =>
      let candidate := r + 2 ^ Z.of_nat bits' in
      iroot k bits' n (if candidate ^ k <=? n then candidate else r)
  end.

Definition K : list Z :=
  map (fun p => w32 (iroot 3 40 (p * 2 ^ 96) 0)) primes.

Definition H0 : list Z :=
  map (fun p => w32 (iroot 2 40 (p * 2 ^ 64) 0)) (take 8 primes).

(** The message with its padding: a [0x80] byte, zero bytes up to 56 modulo
    64, then the bit length as a 64-bit big-endian integer. *)
Definition bigEndian (width : nat) (x : Z) : list Z :=
  map (fun i => Z.shiftr x (8 * Z.of_nat (width - 1 - i)) mod 256) (seq 0 width).

Definition pad (msg : list Z) : list Z :=
  let len := Z.of_nat (length msg) in
  let zeros := Z.to_nat ((55 - len) mod 64) in
  msg ++ [128] ++ repeat 0 zeros ++ bigEndian 8 (8 * len).

Fixpoint wordsOf (bytes : list Z) : list Z :=
  match bytes with
  | b0 :: b1 :: b2 :: b3 :: rest =>
      (b0 * 16777216 + b1 * 65536 + b2 * 256 + b3) :: wordsOf rest
  | _ => []
  end.

Fixpoint chunks (n : nat) (fuel : nat) (ws : list Z) : list (list Z) :=
  match fuel with
  | O => []
  | S fuel' =>
      match ws with
      | [] => []
      | _ => take n ws :: chunks n fuel' (drop n ws)
      end
  end.

Record regs : Set := Regs { ra : Z; rb : Z; rc : Z; rd : Z; re : Z; rf : Z; rg : Z; rh : Z }.

(** One round; the schedule is a window of the sixteen latest words, whose
    head is the word of the current round. *)
Definition round (st : regs * list Z) (k : Z) : regs * list Z :=
  let '(r, w) := st in
  let wt := nth 0 w 0 in
  let next := w32 (sigma1 (nth 14 w 0) + nth 9 w 0 + sigma0 (nth 1 w 0) + wt) in
  let t1 := w32 (rh r + Sigma1 (re r) + Ch (re r) (rf r) (rg r) + k + wt) in
  let t2 := w32 (Sigma0 (ra r) + Maj (ra r) (rb r) (rc r)) in
  (Regs (w32 (t1 + t2)) (ra r) (rb r) (rc r) (w32 (rd r + t1)) (re r) (rf r) (rg r),
   tl w ++ [next]).

Definition compress (h : list Z) (block : list Z) : list Z :=
  let r0 := Regs (nth 0 h 0) (nth 1 h 0) (nth 2 h 0) (nth 3 h 0)
                 (nth 4 h 0) (nth 5 h 0) (nth 6 h 0) (nth 7 h 0) in
  let r := fst (fold_left round K (r0, block)) in
  zip_with (fun x y => w32 (x + y)) h
    [ra r; rb r; rc r; rd r; re r; rf r; rg r; rh r].

Definition digest (msg : list Z) : list Z :=
  let ws := wordsOf (pad msg) in
  let h := fold_left compress (chunks 16 (length ws) ws) H0 in
  concat (map (bigEndian 4) h).

End SHA256.

(** ** [truncatedHash] *)

Definition byteZ (b : byte) : Z := Z.of_N (Byte.to_N b).

(** [new TextEncoder().encode(data)]: UTF-8 of a string whose code units
    are below 256. *)
Definition utf8 (c : ascii) : list Z :=
  let n := Z.of_N (N_of_ascii c) in
  if n <? 128 then [n] else [Z.lor 192 (Z.shiftr n 6); Z.lor 128 (Z.land n 63)].

Definition encode (data : string) : list Z :=
  concat (map utf8 (list_ascii_of_string data)).

Definition truncatedHash (data : string) : string :=
  let encoded := encode data in
  let hashArray := SHA256.digest encoded in
  String.substring 0 12
    (join "" (map (fun b => padStart 2 "0" (toString 16 b)) hashArray)).

(** ** The tables of [src/util.js] *)

Definition DEBUG_MODE : bool := false.

Definition TLS_MAPPER : gmap string string :=
  list_to_map
    [ ("0x0002", "s2"); ("0x0300", "s3"); ("0x0301", "10");
      ("0x0302", "11"); ("0x0303", "12"); ("0x0304", "13") ].

Definition GREASE_VALUES : gset Z :=
  list_to_set
    [ 0x0a0a; 0x1a1a; 0x2a2a; 0x3a3a; 0x4a4a; 0x5a5a; 0x6a6a;
      0x7a7a; 0x8a8a; 0x9a9a; 0xaaaa; 0xbaba; 0xcaca; 0xdada;
      0xeaea; 0xfafa ].

(** [GREASE_VALUES.has(v)] *)
Definition has (s : gset Z) (v : Z) : bool := bool_decide (v ∈ s).

(** [x || d] on a string or [undefined]: the empty string is falsy too. *)
Definition orElse (x : option string) (d : string) : string :=
  match x with
  | Some EmptyString | None => d
  | Some v => v
  end.

(** ** [DataView] accessors (big-endian)

    [new DataView(buffer.buffer)] views the whole [ArrayBuffer] behind the
    [Uint8Array]; the array is taken to span it, as the one made by
    [base64toUint8Array] does. An accessor throws [RangeError] unless
    [0 <= byteOffset] and the bytes read end inside the view. *)

Definition getUint8 (buffer : list byte) (byteOffset : Z) : result Z :=
  if (0 <=? byteOffset) && (byteOffset + 1 <=? Z.of_nat (length buffer)) then
    match buffer !! Z.to_nat byteOffset with
    | Some b => Return (byteZ b)
    | None => Throw RangeError
    end
  else Throw RangeError.

Definition getUint16 (buffer : list byte) (byteOffset : Z) : result Z :=
  if (0 <=? byteOffset) && (byteOffset + 2 <=? Z.of_nat (length buffer)) then
    match buffer !! Z.to_nat byteOffset, buffer !! S (Z.to_nat byteOffset) with
    | Some hi, Some lo => Return (byteZ hi * 256 + byteZ lo)
    | _, _ => Throw RangeError
    end
  else Throw RangeError.

Definition isPrintableAscii (charCode : Z) : bool :=
  (0x20 <=? charCode) && (charCode <=? 0x7E).

(** [String.fromCharCode(c)] for a byte. *)
Definition fromCharCode (c : Z) : string :=
  String (ascii_of_N (Z.to_N c)) "".

(** ** The parser of [getJA4Fingerprint] *)

(** The three loops of the shape
    [for (let i = 0; i < len; i += 2) {
       const v = dataView.getUint16(base + i);
       if (!GREASE_VALUES.has(v)) acc.push(f(v)) }];
    [fuel] bounds the iterations, and [len] units of it are enough. *)
Fixpoint collect16 {A : Type} (f : Z -> A) (buffer : list byte) (base len : Z)
    (fuel : nat) (i : Z) (acc : list A) : result (list A) :=
  if i <? len then
    match fuel with
    | O => Throw OutOfFuel
    | S fuel' =>
        let* v := getUint16 buffer (base + i) in
        collect16 f buffer base len fuel' (i + 2)
          (if has GREASE_VALUES v then acc else acc ++ [f v])
    end
  else Return acc.

(** The ALPN branch: the new value of [alpn]. *)
Definition alpnExtension (buffer : list byte) (currentIndex : Z) (alpn : string)
    : result string :=
  let* alpnListLength := getUint16 buffer currentIndex in
  let alpnOffset := currentIndex + 2 in
  let alpnEndOffset := alpnOffset + alpnListLength in
  if alpnOffset <? alpnEndOffset then
    let* protocolLength := getUint8 buffer alpnOffset in
    let alpnOffset := alpnOffset + 1 in
    if 0 <? protocolLength then
      let* firstChar := getUint8 buffer alpnOffset in
      let* lastChar := getUint8 buffer (alpnOffset + protocolLength - 1) in
      if isPrintableAscii firstChar && isPrintableAscii lastChar then
        Return (fromCharCode firstChar +:+ fromCharCode lastChar)
      else
        Return (toString 16 (Z.land (Z.shiftr firstChar 4) 0x0F)
                +:+ toString 16 (Z.land lastChar 0x0F))
    else Return alpn
  else Return alpn.

(** The variables the extension loop updates. *)
Record extensions : Set := Extensions {
  extensionsList : list string;
  sni : string;
  alpn : string;
  signatureAlgorithms : list string;
  supportedVersions : list Z
}.

(** One extension record whose type is not a GREASE value. *)
Definition extension (buffer : list byte) (extType currentIndex : Z) (st : extensions)
    : result extensions :=
  let extTypeHex := hex4 extType in
  let st := Extensions (extensionsList st ++ [extTypeHex]) (sni st) (alpn st)
              (signatureAlgorithms st) (supportedVersions st) in
  if extType =? 0x0000 then
    Return (Extensions (extensionsList st) "d" (alpn st)
              (signatureAlgorithms st) (supportedVersions st))
  else if extType =? 0x0010 then
    let* alpn' := alpnExtension buffer currentIndex (alpn st) in
    Return (Extensions (extensionsList st) (sni st) alpn'
              (signatureAlgorithms st) (supportedVersions st))
  else if extType =? 0x002b then
    let* supportedVersionsLength := getUint8 buffer currentIndex in
    let* versions :=
      collect16 id buffer (currentIndex + 1) supportedVersionsLength
        (Z.to_nat supportedVersionsLength) 0 (supportedVersions st) in
    Return (Extensions (extensionsList st) (sni st) (alpn st)
              (signatureAlgorithms st) versions)
  else if extType =? 0x000d then
    let* sigAlgLength := getUint16 buffer currentIndex in
    let* algs :=
      collect16 hex4 buffer (currentIndex + 2) sigAlgLength
        (Z.to_nat sigAlgLength) 0 (signatureAlgorithms st) in
    Return (Extensions (extensionsList st) (sni st) (alpn st)
              algs (supportedVersions st))
  else Return st.

(** [while (currentIndex < extensionsEndIndex) { ... }] *)
Fixpoint extensionsLoop (fuel : nat) (buffer : list byte) (extensionsEndIndex : Z)
    (currentIndex : Z) (st : extensions) : result extensions :=
  if currentIndex <? extensionsEndIndex then
    match fuel with
    | O => Throw OutOfFuel
    | S fuel' =>
        let* extType := getUint16 buffer currentIndex in
        let* extLength := getUint16 buffer (currentIndex + 2) in
        let currentIndex := currentIndex + 4 in
        let* st :=
          if negb (has GREASE_VALUES extType)
          then extension buffer extType currentIndex st
          else Return st in
        extensionsLoop fuel' buffer extensionsEndIndex (currentIndex + extLength) st
    end
  else Return st.

(** What the parser leaves for the encoder: lines 72 to 159. *)
Record clientHello : Set := ClientHello {
  tlsMappedVersion : string;
  cipherSuites : list string;
  exts : extensions
}.

Definition parseClientHello (buffer : list byte) : result clientHello :=
  let currentIndex := 4 in
  let* legacy := getUint16 buffer currentIndex in
  let tlsVersion := "0x" +:+ hex4 legacy in
  let tlsMappedVersion := orElse (TLS_MAPPER !! tlsVersion) "00" in
  let currentIndex := currentIndex + 34 in
  let* sessionIDLength := getUint8 buffer currentIndex in
  let currentIndex := currentIndex + (1 + sessionIDLength) in
  let* cipherSuitesLength := getUint16 buffer currentIndex in
  let currentIndex := currentIndex + 2 in
  let* cipherSuites :=
    collect16 hex4 buffer currentIndex cipherSuitesLength
      (Z.to_nat cipherSuitesLength) 0 [] in
  let currentIndex := currentIndex + cipherSuitesLength in
  let* compressionMethodsLength := getUint8 buffer currentIndex in
  let currentIndex := currentIndex + (1 + compressionMethodsLength) in
  let* extensionsLength := getUint16 buffer currentIndex in
  let currentIndex := currentIndex + 2 in
  let extensionsEndIndex := currentIndex + extensionsLength in
  let* st :=
    extensionsLoop (Z.to_nat extensionsLength) buffer extensionsEndIndex
      currentIndex (Extensions [] "i" "00" [] []) in
  Return (ClientHello tlsMappedVersion cipherSuites st).

(** ** The encoder of [getJA4Fingerprint]: lines 161 to 189 *)

(** [xs.sort(compareFn)]: [a] stays before [b] when [compareFn a b <= 0]. *)
Definition sortWith (compareFn : Z -> Z -> Z) (xs : list Z) : list Z :=
  @merge_sort Z (fun a b => compareFn a b <= 0)
    (fun a b => decide (compareFn a b <= 0)) xs.

(** [xs.sort()] on strings: by code units, a proper prefix first. *)
Definition sort (xs : list string) : list string :=
  @merge_sort string (fun x y => String.leb x y)
    (fun x y => decide (String.leb x y)) xs.

(** Lines 161 to 165. *)
Definition highestVersion (h : clientHello) : result string :=
  if 0 <? Z.of_nat (length (supportedVersions (exts h))) then
    match sortWith (fun a b => b - a) (supportedVersions (exts h)) !! 0%nat with
    | Some v =>
        let highestSupportedVersion := "0x" +:+ hex4 v in
        Return (orElse (TLS_MAPPER !! highestSupportedVersion) "00")
    | None => Throw TypeError
    end
  else Return (tlsMappedVersion h).

(** [xs.length.toString().padStart(2, '0')] *)
Definition count2 {A : Type} (xs : list A) : string :=
  padStart 2 "0" (toString 10 (Z.of_nat (length xs))).

Definition numCiphers (h : clientHello) : string := count2 (cipherSuites h).
Definition numExtensions (h : clientHello) : string := count2 (extensionsList (exts h)).

Definition cipherSuitesString (h : clientHello) : string :=
  join "," (sort (cipherSuites h)).

Definition ja4CipherHash (h : clientHello) : string :=
  truncatedHash (cipherSuitesString h).

Definition notSniAlpn (ext : string) : bool :=
  negb (String.eqb ext "0000") && negb (String.eqb ext "0010").

Definition hashExtensions (h : clientHello) : list string :=
  sort (List.filter notSniAlpn (extensionsList (exts h))).

Definition extensionHashInput (h : clientHello) : string :=
  let input := join "," (hashExtensions h) in
  if 0 <? Z.of_nat (length (signatureAlgorithms (exts h)))
  then input +:+ "_" +:+ join "," (signatureAlgorithms (exts h))
  else input.

Definition ja4ExtensionHash (h : clientHello) : string :=
  truncatedHash (extensionHashInput h).

Definition ptype (proto : string) : string :=
  if String.eqb proto "quic" then "q" else "t".

Definition ja4Base (h : clientHello) (proto : string) (version : string) : string :=
  ptype proto +:+ version +:+ sni (exts h) +:+ numCiphers h
  +:+ numExtensions h +:+ alpn (exts h).

Inductive logEntry : Set :=
  | LogDebug (message : string)
  | LogInfo (message : string)
  | LogError (context : string) (error : exn).

(** The [DEBUG_MODE] block: the messages for [JA4_ro] and [JA4_o]. *)
Definition debugVariants (h : clientHello) (base : string) : list logEntry :=
  let originalExtensions := List.filter notSniAlpn (extensionsList (exts h)) in
  let sigs := signatureAlgorithms (exts h) in
  let originalExtensionHashInput :=
    join "," originalExtensions
    +:+ (if 0 <? Z.of_nat (length sigs) then "_" +:+ join "," sigs else "") in
  let ja4OriginalExtensionHash := truncatedHash originalExtensionHashInput in
  let ja4_ro :=
    base +:+ "_" +:+ cipherSuitesString h +:+ "_"
    +:+ join "," (extensionsList (exts h)) +:+ "_" +:+ join "," sigs in
  let ja4_o := base +:+ "_" +:+ ja4CipherHash h +:+ "_" +:+ ja4OriginalExtensionHash in
  [LogDebug ("JA4_ro: " +:+ ja4_ro); LogDebug ("JA4_o: " +:+ ja4_o)].

(** The body of the [try] block: the log written and the value returned. *)
Definition tryBlock (buffer : list byte) (proto : string)
    : result (list logEntry * string) :=
  let* h := parseClientHello buffer in
  let* version := highestVersion h in
  let base := ja4Base h proto version in
  let ja4 := base +:+ "_" +:+ ja4CipherHash h +:+ "_" +:+ ja4ExtensionHash h in
  let ja4_r := base +:+ "_" +:+ cipherSuitesString h +:+ "_" +:+ extensionHashInput h in
  Return ([LogDebug ("JA4: " +:+ ja4); LogDebug ("JA4_r: " +:+ ja4_r)]
          ++ (if DEBUG_MODE then debugVariants h base else []),
          ja4).

(** [getJA4Fingerprint]: what it logs, and what it returns or throws. *)
Definition getJA4Fingerprint (buffer : list byte) (proto : string)
    : list logEntry * result string :=
  match tryBlock buffer proto with
  | Return (log, ja4) => (log, Return ja4)
  | Throw error => ([LogError "Error in getJA4Fingerprint: " error], Throw error)
  end.

(** ** [src/main.js] *)

Section Orchestrator.

(** [atob] of the platform's [encoding] module: the decoded binary string,
    or an exception. *)
Variable atob : string -> result string.

Definition base64toUint8Array (base64_string : string) : result (list byte) :=
  let* binary_string := atob base64_string in
  Return (map byte_of_ascii (list_ascii_of_string binary_string)).

(** A string or [undefined] used as a condition. *)
Definition truthy (x : option string) : bool :=
  match x with
  | Some EmptyString | None => false
  | Some _ => true
  end.

(** [onClientRequest]: the request's variables afterwards, the log written,
    and the value returned ([None] is [undefined]) or the exception
    thrown. *)
Definition onClientRequest (request : gmap string string)
    : gmap string string * list logEntry * result (option string) :=
  let client_hello := request !! "PMUSER_TLS_CLIENT_HELLO" in
  if negb (truthy client_hello) then
    (request, [LogInfo "No ClientHello"], Return None)
  else
    match base64toUint8Array (default "" client_hello) with
    | Throw error => (request, [], Throw error)
    | Return buffer =>
        let quic_version := request !! "PMUSER_QUIC_VERSION" in
        let proto := if truthy quic_version then "quic" else "tcp" in
        match getJA4Fingerprint buffer proto with
        | (log, Return JA4_fingerprint) =>
            (<["PMUSER_JA4_FINGERPRINT" := JA4_fingerprint]> request, log,
             Return (Some JA4_fingerprint))
        | (log, Throw error) =>
            (request, log ++ [LogError "Error calculating JA4: " error],
             Return None)
        end
    end.

End Orchestrator.

(** ** A base64 decoder to stand for [atob] in examples

    Whitespace is skipped, up to two [=] of padding are accepted on a
    length that is a multiple of four, anything else outside the alphabet
    throws. *)

Definition b64value (c : ascii) : option Z :=
  let n := Z.of_N (N_of_ascii c) in
  if (65 <=? n) && (n <=? 90) then Some (n - 65)
  else if (97 <=? n) && (n <=? 122) then Some (n - 71)
  else if (48 <=? n) && (n <=? 57) then Some (n + 4)
  else if n =? 43 then Some 62
  else if n =? 47 then Some 63
  else None.

Definition isWhitespace (c : ascii) : bool :=
  let n := Z.of_N (N_of_ascii c) in
  (n =? 9) || (n =? 10) || (n =? 12) || (n =? 13) || (n =? 32).

Definition stripPadding (cs : list ascii) : list ascii :=
  if (length cs mod 4 =? 0)%nat then
    match reverse cs with
    | "="%char :: "="%char :: rest => reverse rest
    | "="%char :: rest => reverse rest
    | _ => cs
    end
  else cs.

Fixpoint sextets (cs : list ascii) : option (list Z) :=
  match cs with
  | [] => Some []
  | c :: rest =>
      match b64value c, sextets rest with
      | Some v, Some vs => Some (v :: vs)
      | _, _ => None
      end
  end.

Fixpoint octets (vs : list Z) : list Z :=
  match vs with
  | a :: b :: c :: d :: rest =>
      let n := a * 262144 + b * 4096 + c * 64 + d in
      n / 65536 :: (n / 256) mod 256 :: n mod 256 :: octets rest
  | [a; b; c] =>
      let n := a * 4096 + b * 64 + c in
      [n / 1024; (n / 4) mod 256]
  | [a; b] => [(a * 64 + b) / 16]
  | _ => []
  end.

Definition atobBase64 (encoded : string) : result string :=
  let cs := stripPadding (List.filter (fun c => negb (isWhitespace c))
                            (list_ascii_of_string encoded)) in
  if (length cs mod 4 =? 1)%nat then Throw InvalidCharacterError
  else
    match sextets cs with
    | Some vs =>
        Return (string_of_list_ascii (map (fun b => ascii_of_N (Z.to_N b)) (octets vs)))
    | None => Throw InvalidCharacterError
    end.

(** * Definitions of the specification

    What the claims are stated with: renderings, orders, the values on
    the wire, the rules of the spec in its own words, and concrete
    handshakes. *)

(** ** Renderings and orders *)

Definition hexDigit (d : Z) : ascii :=
  nth (Z.to_nat d) (list_ascii_of_string "0123456789abcdef") "0"%char.

(** Four lowercase hexadecimal digits, most significant first. *)
Definition fixed4 (v : Z) : string :=
  String (hexDigit (v / 4096)) (String (hexDigit (v / 256 mod 16))
    (String (hexDigit (v / 16 mod 16)) (String (hexDigit (v mod 16)) ""))).

Definition unhexDigit (c : ascii) : Z :=
  let n := Z.of_N (N_of_ascii c) in
  if n <? 58 then n - 48 else n - 87.

Fixpoint unhex (acc : Z) (s : string) : Z :=
  match s with
  | EmptyString => acc
  | String c rest => unhex (16 * acc + unhexDigit c) rest
  end.

(** Two decimal digits, zero-padded. *)
Definition fixed2 (n : Z) : string :=
  String (hexDigit (n / 10)) (String (hexDigit (n mod 10)) "").

(** The order of [sort]: code units compared in turn, a proper prefix
    first. *)
Definition stringLe (x y : string) : Prop := String.leb x y.

(** The order of [sortWith (fun a b => b - a)]: descending. *)
Definition descending (a b : Z) : Prop := b - a <= 0.

(** The largest element, the way the spec words it. *)
Definition maximum (xs : list Z) : option Z :=
  match xs with
  | [] => None
  | x :: rest => Some (fold_left Z.max rest x)
  end.

(** ** Values on the wire *)

(** The 16-bit big-endian value at [offset], and [n] of them in a row. *)
Definition word16 (buffer : list byte) (offset : Z) : Z :=
  match getUint16 buffer offset with
  | Return v => v
  | Throw _ => 0
  end.

Fixpoint wire16 (buffer : list byte) (offset : Z) (n : nat) : list Z :=
  match n with
  | O => []
  | S n' => word16 buffer offset :: wire16 buffer (offset + 2) n'
  end.

Definition notGrease (v : Z) : bool := negb (has GREASE_VALUES v).

(** The number of iterations of [for (i = 0; i < len; i += 2)]. *)
Definition steps16 (len : Z) : nat := Z.to_nat ((len + 1) / 2).

(** A value kept by the GREASE filter, and its rendering. *)
Definition wireValue (v : Z) : Prop := 0 <= v < 65536 /\ v ∉ GREASE_VALUES.
Definition wireHex (s : string) : Prop := exists v, wireValue v /\ s = hex4 v.

(** The state after the extension loop satisfies the GREASE invariant. *)
Definition filtered (st : extensions) : Prop :=
  Forall wireHex (extensionsList st)
  /\ Forall wireHex (signatureAlgorithms st)
  /\ Forall wireValue (supportedVersions st).

(** ** The version and the fingerprint *)

(** The table of the spec, on the 16-bit value itself. *)
Definition versionTable (v : Z) : string :=
  if v =? 0x0002 then "s2"
  else if v =? 0x0300 then "s3"
  else if v =? 0x0301 then "10"
  else if v =? 0x0302 then "11"
  else if v =? 0x0303 then "12"
  else if v =? 0x0304 then "13"
  else "00".

Definition initialExtensions : extensions := Extensions [] "i" "00" [] [].

Definition effectiveVersion (h : clientHello) : string :=
  match maximum (supportedVersions (exts h)) with
  | Some v => versionTable v
  | None => tlsMappedVersion h
  end.

Definition fingerprint (h : clientHello) (proto : string) : string :=
  ja4Base h proto (effectiveVersion h)
  +:+ "_" +:+ ja4CipherHash h +:+ "_" +:+ ja4ExtensionHash h.

(** ** Extension records *)

(** The records the extension loop walks: the type of each and the offset
    of its payload, in wire order. *)
Fixpoint extensionRecords (fuel : nat) (buffer : list byte)
    (extensionsEndIndex currentIndex : Z) : result (list (Z * Z)) :=
  if currentIndex <? extensionsEndIndex then
    match fuel with
    | O => Throw OutOfFuel
    | S fuel' =>
        let* extType := getUint16 buffer currentIndex in
        let* extLength := getUint16 buffer (currentIndex + 2) in
        let* rest := extensionRecords fuel' buffer extensionsEndIndex
                       (currentIndex + 4 + extLength) in
        Return ((extType, currentIndex + 4) :: rest)
    end
  else Return [].

(** The records of the extension block of a ClientHello. *)
Definition extensionBlock (buffer : list byte) : result (list (Z * Z)) :=
  let* sid := getUint8 buffer 38 in
  let* cs := getUint16 buffer (39 + sid) in
  let* comp := getUint8 buffer (41 + sid + cs) in
  let* extLen := getUint16 buffer (42 + sid + cs + comp) in
  extensionRecords (Z.to_nat extLen) buffer (44 + sid + cs + comp + extLen)
    (44 + sid + cs + comp).

(** The loop body applied to each record in turn. *)
Fixpoint handleAll (buffer : list byte) (records : list (Z * Z)) (st : extensions)
    : result extensions :=
  match records with
  | [] => Return st
  | (extType, payload) :: rest =>
      let* st' :=
        if negb (has GREASE_VALUES extType)
        then extension buffer extType payload st
        else Return st in
      handleAll buffer rest st'
  end.

Definition isAlpn (record : Z * Z) : bool := fst record =? 0x0010.

Definition byteAt (buffer : list byte) (offset : Z) : Z :=
  match getUint8 buffer offset with
  | Return v => v
  | Throw _ => 0
  end.

Definition bytesAt (buffer : list byte) (offset : Z) (n : nat) : list Z :=
  map (fun k => byteAt buffer (offset + Z.of_nat k)) (seq 0 n).

(** The first protocol identifier of an ALPN payload at [offset]: a 2-byte
    list length, then a 1-byte length and that many bytes; [None] when the
    list is empty. *)
Definition firstProtocol (buffer : list byte) (offset : Z) : option (list Z) :=
  if word16 buffer offset =? 0 then None
  else Some (bytesAt buffer (offset + 3) (Z.to_nat (byteAt buffer (offset + 2)))).

(** The ALPN rule of the spec. *)
Definition alpnCode (protocol : option (list Z)) : string :=
  match protocol with
  | None | Some [] => "00"
  | Some (first :: rest) =>
      let last := List.last rest first in
      if (0x20 <=? first) && (first <=? 0x7E) && (0x20 <=? last) && (last <=? 0x7E)
      then String (ascii_of_N (Z.to_N first)) (String (ascii_of_N (Z.to_N last)) "")
      else String (hexDigit (first / 16)) (String (hexDigit (last mod 16)) "")
  end.

(** The code after one more ALPN payload: the former code is kept when
    there is no first protocol or it is empty. *)
Definition keepOrCode (former : string) (protocol : option (list Z)) : string :=
  match protocol with
  | Some (first :: rest) => alpnCode (Some (first :: rest))
  | _ => former
  end.

Definition alpnStep (buffer : list byte) (former : string) (record : Z * Z)
    : string :=
  if isAlpn record then keepOrCode former (firstProtocol buffer (snd record))
  else former.

Definition isSupportedVersions (record : Z * Z) : bool := fst record =? 0x002b.

(** The supported versions of a payload at [offset]: a 1-byte length, then
    the 16-bit values, GREASE values removed. *)
Definition supportedVersionsAt (buffer : list byte) (offset : Z) : list Z :=
  List.filter notGrease
    (wire16 buffer (offset + 1) (steps16 (byteAt buffer offset))).

Definition isSignatureAlgorithms (record : Z * Z) : bool := fst record =? 0x000d.

(** The signature algorithms of a payload at [offset]: a 2-byte length,
    then the 16-bit values, GREASE values removed. *)
Definition signatureAlgorithmsAt (buffer : list byte) (offset : Z) : list string :=
  map hex4 (List.filter notGrease
              (wire16 buffer (offset + 2) (steps16 (word16 buffer offset)))).

(** ** The rules of the spec *)

(** The extension-hash input, the way the spec builds it. *)
Definition extensionInput (sorted sigs : list string) : string :=
  match sigs with
  | [] => join "," sorted
  | _ :: _ => join "," sorted +:+ "_" +:+ join "," sigs
  end.

(** The sixteen GREASE values, as the spec lists them. *)
Definition greaseList : list Z :=
  [ 0x0a0a; 0x1a1a; 0x2a2a; 0x3a3a; 0x4a4a; 0x5a5a; 0x6a6a; 0x7a7a;
    0x8a8a; 0x9a9a; 0xaaaa; 0xbaba; 0xcaca; 0xdada; 0xeaea; 0xfafa ].

(** How a count is rendered: two digits up to 99, more beyond. *)
Definition rendered {A : Type} (xs : list A) (s : string) : Prop :=
  ((length xs <= 99)%nat ->
     s = fixed2 (Z.of_nat (length xs)) /\ String.length s = 2%nat)
  /\ ((100 <= length xs)%nat ->
        s = toString 10 (Z.of_nat (length xs)) /\ (3 <= String.length s)%nat).

(** ** Concrete handshakes and requests *)

(** TLS 1.2 legacy version, cipher suites GREASE 0x1a1a, 0x1301, 0x1302,
    0x1303; extensions SNI, ALPN [h2], supported versions 0x0304 0x0303,
    signature algorithms 0x0403 0x0804. *)
Definition browserHello : list byte :=
  [ x01; x00; x00; x00; x03; x03 ]
  ++ repeat x00 32
  ++ [ x00; x00; x08; x1a; x1a; x13; x01; x13; x02; x13; x03; x01; x00; x00; x20 ]
  ++ [ x00; x00; x00; x00 ]
  ++ [ x00; x10; x00; x05; x00; x03; x02; x68; x32 ]
  ++ [ x00; x2b; x00; x05; x04; x03; x04; x03; x03 ]
  ++ [ x00; x0d; x00; x06; x00; x04; x04; x03; x08; x04 ].

Definition browserHelloBase64 : string :=
  "AQAAAAMDAAAAAAAAAAAAAAAAAAAAAAAAAAAAAAAAAAAAAAAAAAAAAAgaGhMBEwITAwEAACAA"
  +:+ "AAAAABAABQADAmgyACsABQQDBAMDAA0ABgAEBAMIBA==".

(** No cipher suite and no extension: 44 zero bytes. *)
Definition emptyHello : list byte := repeat x00 44.

(** One extension of type 0x0015 that declares 65535 bytes of payload and
    has none. *)
Definition overlongExtension : list byte :=
  repeat x00 43 ++ [ x04; x00; x15; xff; xff ].

(** Two ALPN extensions: protocol [h2], then an empty protocol list. *)
Definition twoAlpnHello : list byte :=
  repeat x00 42 ++ [ x00; x0f ]
  ++ [ x00; x10; x00; x05; x00; x03; x02; x68; x32 ]
  ++ [ x00; x10; x00; x02; x00; x00 ].

(** One hundred cipher suites of value 0x0000, no extension. *)
Definition hundredCiphers : list byte :=
  repeat x00 39 ++ [ x00; xc8 ] ++ repeat x00 203.

(** A request that carries only the ClientHello variable. *)
Definition requestWith (client_hello : string) : gmap string string :=
  {[ "PMUSER_TLS_CLIENT_HELLO" := client_hello ]}.

(** ** Predicates of the further properties *)

Definition isLowerHex (c : ascii) : bool :=
  existsb (Ascii.eqb c) (list_ascii_of_string "0123456789abcdef").

(** Every character is one of [0] to [9], [a] to [f]. *)
Definition lowerHex (s : string) : bool :=
  forallb isLowerHex (list_ascii_of_string s).

(** Two lowercase hexadecimal digits. *)
Definition fixedByte (b : Z) : string :=
  String (hexDigit (b / 16)) (String (hexDigit (b mod 16)) "").

Definition isSni (record : Z * Z) : bool := fst record =? 0x0000.

(** The positions the parser has no read for: the handshake header, the
    client random, the session id and the compression methods, the last two
    as long as their length bytes say. *)
Definition unread (buffer : list byte) (i : Z) : bool :=
  let sid := byteAt buffer 38 in
  let cs := word16 buffer (39 + sid) in
  let comp := byteAt buffer (41 + sid + cs) in
  (i <? 4)
  || ((6 <=? i) && (i <? 38))
  || ((39 <=? i) && (i <? 39 + sid))
  || ((42 + sid + cs <=? i) && (i <? 42 + sid + cs + comp)).

(** Two buffers of one length that differ at unread positions only. *)
Definition readSame (b1 b2 : list byte) : Prop :=
  length b1 = length b2
  /\ forall i : nat, unread b1 (Z.of_nat i) = false -> b1 !! i = b2 !! i.

(** The same, as a test. *)
Definition sameByte (x y : option byte) : bool :=
  match x, y with
  | Some a, Some b => Byte.eqb a b
  | None, None => true
  | _, _ => false
  end.

Definition readSameb (b1 b2 : list byte) : bool :=
  (length b1 =? length b2)%nat
  && forallb (fun i => unread b1 (Z.of_nat i) || sameByte (b1 !! i) (b2 !! i))
       (seq 0 (length b1)).

(** Buffers that agree at the positions [P]. *)
Definition agree (P : Z -> Prop) (b1 b2 : list byte) : Prop :=
  length b1 = length b2
  /\ forall i : nat, P (Z.of_nat i) -> b1 !! i = b2 !! i.

(** The signature algorithms and the supported versions of all the records
    of their type, one payload after the other. *)
Definition allSignatureAlgorithms (buffer : list byte) (records : list (Z * Z))
    : list string :=
  concat (map (fun record => signatureAlgorithmsAt buffer (snd record))
            (List.filter isSignatureAlgorithms records)).

Definition allSupportedVersions (buffer : list byte) (records : list (Z * Z))
    : list Z :=
  concat (map (fun record => supportedVersionsAt buffer (snd record))
            (List.filter isSupportedVersions records)).

(** Two signature-algorithms records, 0x0403 then 0x0804, and two
    supported-versions records, 0x0303 then 0x0304; no cipher suite. *)
Definition repeatedExtensions : list byte :=
  repeat x00 42 ++ [ x00; x1e ]
  ++ [ x00; x0d; x00; x04; x00; x02; x04; x03 ]
  ++ [ x00; x0d; x00; x04; x00; x02; x08; x04 ]
  ++ [ x00; x2b; x00; x03; x02; x03; x03 ]
  ++ [ x00; x2b; x00; x03; x02; x03; x04 ].

(** * Properties *)

(** ** Evaluations *)

Example hex4_ff : hex4 255 = "00ff".
Proof. reflexivity. Qed.

Example toString_100 : padStart 2 "0" (toString 10 100) = "100".
Proof. reflexivity. Qed.

Example SHA256_constants :
  length SHA256.K = 64%nat
  /\ SHA256.K !! 0%nat = Some 0x428a2f98
  /\ SHA256.K !! 63%nat = Some 0xc67178f2
  /\ SHA256.H0 !! 0%nat = Some 0x6a09e667
  /\ SHA256.H0 !! 7%nat = Some 0x5be0cd19.
Proof. vm_compute. repeat split; reflexivity. Qed.

Example truncatedHash_empty : truncatedHash "" = "e3b0c44298fc".
Proof. vm_compute. reflexivity. Qed.

Example truncatedHash_abc : truncatedHash "abc" = "ba7816bf8f01".
Proof. vm_compute. reflexivity. Qed.

(** A message of 56 bytes needs a second block for the padding. *)
Example truncatedHash_two_blocks :
  truncatedHash "abcdbcdecdefdefgefghfghighijhijkijkljklmklmnlmnomnopnopq"
  = "248d6a61d206".
Proof. vm_compute. reflexivity. Qed.

Example atobBase64_h2 : atobBase64 "aDI=" = Return "h2".
Proof. reflexivity. Qed.

Example atobBase64_bad : atobBase64 "a*I=" = Throw InvalidCharacterError.
Proof. reflexivity. Qed.

(** ** The error monad *)

Lemma bind_Return {A B : Type} (m : result A) (k : A -> result B) (b : B) :
  bind m k = Return b -> exists a, m = Return a /\ k a = Return b.
Proof. destruct m as [a|e]; simpl; intros H; [eauto | discriminate]. Qed.

Lemma bind_Throw {A B : Type} (m : result A) (k : A -> result B) (e : exn) :
  bind m k = Throw e -> m = Throw e \/ exists a, m = Return a /\ k a = Throw e.
Proof.
  destruct m as [a|e']; simpl; intros H; [right; eauto | left; congruence].
Qed.

(** Invert a hypothesis [bind m k = Return b]. *)
Ltac inv_bind H :=
  let a := fresh "v" in
  let Ha := fresh "Hv" in
  apply bind_Return in H; destruct H as (a & Ha & H).

(** ** The [DataView] accessors are bounds-checked *)

Lemma byteZ_range (b : byte) : 0 <= byteZ b < 256.
Proof.
  unfold byteZ. pose proof (Byte.to_N_bounded b) as H. lia.
Qed.

Lemma getUint8_Return (buffer : list byte) (i v : Z) :
  getUint8 buffer i = Return v ->
  0 <= i /\ i + 1 <= Z.of_nat (length buffer) /\ 0 <= v < 256
  /\ exists b, buffer !! Z.to_nat i = Some b /\ v = byteZ b.
Proof.
  unfold getUint8. intros H.
  destruct (0 <=? i) eqn:H0; [|discriminate].
  destruct (i + 1 <=? Z.of_nat (length buffer)) eqn:H1; [|discriminate].
  simpl in H. destruct (buffer !! Z.to_nat i) as [b|] eqn:Hb; [|discriminate].
  injection H as <-. repeat split; try lia; try apply byteZ_range. eauto.
Qed.

Lemma getUint16_Return (buffer : list byte) (i v : Z) :
  getUint16 buffer i = Return v ->
  0 <= i /\ i + 2 <= Z.of_nat (length buffer) /\ 0 <= v < 65536
  /\ exists hi lo, buffer !! Z.to_nat i = Some hi
       /\ buffer !! S (Z.to_nat i) = Some lo /\ v = byteZ hi * 256 + byteZ lo.
Proof.
  unfold getUint16. intros H.
  destruct (0 <=? i) eqn:H0; [|discriminate].
  destruct (i + 2 <=? Z.of_nat (length buffer)) eqn:H1; [|discriminate].
  simpl in H. destruct (buffer !! Z.to_nat i) as [hi|] eqn:Hhi; [|discriminate].
  destruct (buffer !! S (Z.to_nat i)) as [lo|] eqn:Hlo; [|discriminate].
  injection H as <-.
  pose proof (byteZ_range hi). pose proof (byteZ_range lo).
  repeat split; try lia. eauto.
Qed.

Lemma getUint8_in_bounds (buffer : list byte) (i : Z) :
  0 <= i -> i + 1 <= Z.of_nat (length buffer) ->
  exists v, getUint8 buffer i = Return v.
Proof.
  intros H0 H1. unfold getUint8.
  assert (Hlt : (Z.to_nat i < length buffer)%nat) by lia.
  apply lookup_lt_is_Some_2 in Hlt. destruct Hlt as [b Hb].
  rewrite Hb.
  destruct (Z.leb_spec 0 i); [|lia].
  destruct (Z.leb_spec (i + 1) (Z.of_nat (length buffer))); [|lia].
  simpl. eauto.
Qed.

Lemma getUint16_in_bounds (buffer : list byte) (i : Z) :
  0 <= i -> i + 2 <= Z.of_nat (length buffer) ->
  exists v, getUint16 buffer i = Return v.
Proof.
  intros H0 H1. unfold getUint16.
  assert (Hlt : (Z.to_nat i < length buffer)%nat) by lia.
  assert (Hlt' : (S (Z.to_nat i) < length buffer)%nat) by lia.
  apply lookup_lt_is_Some_2 in Hlt. destruct Hlt as [hi Hhi].
  apply lookup_lt_is_Some_2 in Hlt'. destruct Hlt' as [lo Hlo].
  rewrite Hhi, Hlo.
  destruct (Z.leb_spec 0 i); [|lia].
  destruct (Z.leb_spec (i + 2) (Z.of_nat (length buffer))); [|lia].
  simpl. eauto.
Qed.

Lemma getUint8_Throw (buffer : list byte) (i : Z) (e : exn) :
  getUint8 buffer i = Throw e ->
  e = RangeError /\ (i < 0 \/ Z.of_nat (length buffer) < i + 1).
Proof.
  intros H.
  destruct (Z_lt_le_dec i 0) as [Hneg|H0].
  - unfold getUint8 in H. destruct (0 <=? i) eqn:E0; [lia|].
    simpl in H. injection H as <-. auto.
  - destruct (Z_lt_le_dec (Z.of_nat (length buffer)) (i + 1)) as [Hout|H1].
    + unfold getUint8 in H.
      destruct (i + 1 <=? Z.of_nat (length buffer)) eqn:E1; [lia|].
      rewrite andb_false_r in H. injection H as <-. auto.
    + destruct (getUint8_in_bounds buffer i H0 H1) as [v Hv]. congruence.
Qed.

Lemma getUint16_Throw (buffer : list byte) (i : Z) (e : exn) :
  getUint16 buffer i = Throw e ->
  e = RangeError /\ (i < 0 \/ Z.of_nat (length buffer) < i + 2).
Proof.
  intros H.
  destruct (Z_lt_le_dec i 0) as [Hneg|H0].
  - unfold getUint16 in H. destruct (0 <=? i) eqn:E0; [lia|].
    simpl in H. injection H as <-. auto.
  - destruct (Z_lt_le_dec (Z.of_nat (length buffer)) (i + 2)) as [Hout|H1].
    + unfold getUint16 in H.
      destruct (i + 2 <=? Z.of_nat (length buffer)) eqn:E1; [lia|].
      rewrite andb_false_r in H. injection H as <-. auto.
    + destruct (getUint16_in_bounds buffer i H0 H1) as [v Hv]. congruence.
Qed.

(** A read that succeeds is not changed by bytes appended to the buffer. *)
Lemma getUint8_app (buffer extra : list byte) (i v : Z) :
  getUint8 buffer i = Return v -> getUint8 (buffer ++ extra) i = Return v.
Proof.
  intros H. destruct (getUint8_Return _ _ _ H) as (H0 & H1 & _ & b & Hb & ->).
  unfold getUint8. rewrite length_app, (lookup_app_l_Some _ _ _ _ Hb).
  destruct (Z.leb_spec 0 i); [|lia].
  destruct (Z.leb_spec (i + 1) (Z.of_nat (length buffer + length extra))); [|lia].
  reflexivity.
Qed.

Lemma getUint16_app (buffer extra : list byte) (i v : Z) :
  getUint16 buffer i = Return v -> getUint16 (buffer ++ extra) i = Return v.
Proof.
  intros H.
  destruct (getUint16_Return _ _ _ H) as (H0 & H1 & _ & hi & lo & Hhi & Hlo & ->).
  unfold getUint16.
  rewrite length_app, (lookup_app_l_Some _ _ _ _ Hhi), (lookup_app_l_Some _ _ _ _ Hlo).
  destruct (Z.leb_spec 0 i); [|lia].
  destruct (Z.leb_spec (i + 2) (Z.of_nat (length buffer + length extra))); [|lia].
  reflexivity.
Qed.

(** ** Hexadecimal and decimal rendering *)

Lemma toDigits_step (fuel : nat) (radix n : Z) (acc : string) :
  toDigits (S fuel) radix n acc
  = if n / radix =? 0 then String (digitChar (n mod radix)) acc
    else toDigits fuel radix (n / radix) (String (digitChar (n mod radix)) acc).
Proof. reflexivity. Qed.

(** Once the fuel covers the digits of [n], more fuel changes nothing. *)
Lemma toDigits_fuel (radix : Z) (f1 f2 : nat) (n : Z) (acc : string) :
  2 <= radix -> 0 <= n ->
  n < radix ^ Z.of_nat (S f1) -> n < radix ^ Z.of_nat (S f2) ->
  toDigits (S f1) radix n acc = toDigits (S f2) radix n acc.
Proof.
  intros Hr. revert f2 n acc.
  induction f1 as [|f1 IH]; intros f2 n acc Hn H1 H2.
  - rewrite !toDigits_step.
    assert (E : n / radix = 0).
    { apply Z.div_small. change (Z.of_nat 1) with 1 in H1.
      rewrite Z.pow_1_r in H1. lia. }
    rewrite E. reflexivity.
  - rewrite (toDigits_step (S f1)), (toDigits_step f2).
    destruct (Z.eqb_spec (n / radix) 0) as [E|E]; [reflexivity|].
    assert (Hq : 0 <= n / radix) by (apply Z.div_pos; lia).
    assert (Hq1 : n / radix < radix ^ Z.of_nat (S f1)).
    { apply Z.div_lt_upper_bound; [lia|].
      rewrite <- Z.pow_succ_r by lia. rewrite <- Nat2Z.inj_succ. exact H1. }
    destruct f2 as [|f2].
    + exfalso. apply E. apply Z.div_small.
      change (Z.of_nat 1) with 1 in H2. rewrite Z.pow_1_r in H2. lia.
    + apply IH; [exact Hq | exact Hq1 | ].
      apply Z.div_lt_upper_bound; [lia|].
      rewrite <- Z.pow_succ_r by lia. rewrite <- Nat2Z.inj_succ. exact H2.
Qed.

Lemma toString_fuel (radix : Z) (fuel : nat) (n : Z) :
  2 <= radix -> 0 <= n -> n < radix ^ Z.of_nat (S fuel) ->
  toString radix n = toDigits (S fuel) radix n "".
Proof.
  intros Hr Hn Hlt. unfold toString.
  apply toDigits_fuel; [exact Hr | exact Hn | | exact Hlt].
  rewrite Nat2Z.inj_succ, Z2Nat.id by apply Z.log2_nonneg.
  destruct (Z.eq_dec n 0) as [->|Hne].
  - apply Z.pow_pos_nonneg; [lia | simpl; lia].
  - apply Z.lt_le_trans with (2 ^ Z.succ (Z.log2 n)).
    + apply Z.log2_spec. lia.
    + apply Z.pow_le_mono_l. split; [lia | exact Hr].
Qed.

Lemma digitChar_hexDigit (d : Z) : 0 <= d < 16 -> digitChar d = hexDigit d.
Proof.
  intros Hd.
  assert (E : In d (map Z.of_nat (seq 0 16)))
    by (apply in_map_iff; exists (Z.to_nat d); split; [lia | apply in_seq; lia]).
  simpl in E. intuition (subst; reflexivity).
Qed.

Lemma unhexDigit_hexDigit (d : Z) : 0 <= d < 16 -> unhexDigit (hexDigit d) = d.
Proof.
  intros Hd.
  assert (E : In d (map Z.of_nat (seq 0 16)))
    by (apply in_map_iff; exists (Z.to_nat d); split; [lia | apply in_seq; lia]).
  simpl in E. intuition (subst; reflexivity).
Qed.

Lemma hex4_fixed (v : Z) : 0 <= v < 65536 -> hex4 v = fixed4 v.
Proof.
  intros Hv. unfold hex4, fixed4.
  rewrite (toString_fuel 16 3 v) by (try lia; change (16 ^ Z.of_nat 4) with 65536; lia).
  assert (D1 : v / 16 / 16 = v / 256)
    by (change 256 with (16 * 16); apply Z.div_div; lia).
  assert (D2 : v / 16 / 16 / 16 = v / 4096)
    by (rewrite D1; change 4096 with (256 * 16); apply Z.div_div; lia).
  assert (M0 : 0 <= v mod 16 < 16) by (apply Z.mod_pos_bound; lia).
  assert (M1 : 0 <= v / 16 mod 16 < 16) by (apply Z.mod_pos_bound; lia).
  assert (M2 : 0 <= v / 256 mod 16 < 16) by (apply Z.mod_pos_bound; lia).
  assert (M3 : 0 <= v / 4096 < 16)
    by (split; [apply Z.div_pos; lia | apply Z.div_lt_upper_bound; lia]).
  assert (M3' : v / 4096 mod 16 = v / 4096) by (apply Z.mod_small; exact M3).
  rewrite !toDigits_step, D2, D1, M3'.
  rewrite !digitChar_hexDigit by assumption.
  destruct (Z.eqb_spec (v / 16) 0) as [E1|E1].
  { assert (v < 16) by (apply Z.div_small_iff in E1; lia).
    rewrite (Z.div_small v 4096), (Z.div_small v 256) by lia.
    rewrite E1. reflexivity. }
  destruct (Z.eqb_spec (v / 256) 0) as [E2|E2].
  { assert (v < 256) by (apply Z.div_small_iff in E2; lia).
    rewrite (Z.div_small v 4096) by lia. rewrite E2. reflexivity. }
  destruct (Z.eqb_spec (v / 4096) 0) as [E3|E3].
  { rewrite E3. reflexivity. }
  destruct (v / 4096 / 16 =? 0); reflexivity.
Qed.

Lemma unhex_hex4 (v : Z) : 0 <= v < 65536 -> unhex 0 (hex4 v) = v.
Proof.
  intros Hv. rewrite (hex4_fixed v Hv). unfold fixed4.
  cbn [unhex].
  assert (M0 : 0 <= v mod 16 < 16) by (apply Z.mod_pos_bound; lia).
  assert (M1 : 0 <= v / 16 mod 16 < 16) by (apply Z.mod_pos_bound; lia).
  assert (M2 : 0 <= v / 256 mod 16 < 16) by (apply Z.mod_pos_bound; lia).
  assert (M3 : 0 <= v / 4096 < 16)
    by (split; [apply Z.div_pos; lia | apply Z.div_lt_upper_bound; lia]).
  rewrite !unhexDigit_hexDigit by assumption.
  clear M0 M1 M2 M3. Z.div_mod_to_equations. lia.
Qed.

Lemma hex4_inj (v w : Z) :
  0 <= v < 65536 -> 0 <= w < 65536 -> hex4 v = hex4 w -> v = w.
Proof.
  intros Hv Hw H.
  rewrite <- (unhex_hex4 v Hv), <- (unhex_hex4 w Hw), H. reflexivity.
Qed.

Lemma hex4_length (v : Z) : 0 <= v < 65536 -> String.length (hex4 v) = 4%nat.
Proof. intros Hv. rewrite (hex4_fixed v Hv). reflexivity. Qed.

(** [toString] only ever adds digits in front of its accumulator. *)
Lemma toDigits_length (fuel : nat) (radix n : Z) (acc : string) :
  (String.length acc < String.length (toDigits (S fuel) radix n acc))%nat.
Proof.
  revert n acc. induction fuel as [|fuel IH]; intros n acc.
  - rewrite toDigits_step. destruct (n / radix =? 0); simpl; lia.
  - rewrite toDigits_step. destruct (n / radix =? 0).
    + simpl. lia.
    + pose proof (IH (n / radix) (String (digitChar (n mod radix)) acc)) as L.
      cbn [String.length] in L. lia.
Qed.

Lemma padStart_long (width : nat) (c : ascii) (s : string) :
  (width <= String.length s)%nat -> padStart width c s = s.
Proof.
  intros H. unfold padStart.
  replace (width - String.length s)%nat with 0%nat by lia. reflexivity.
Qed.

Lemma count2_small_table :
  forallb (fun n => String.eqb (padStart 2 "0" (toString 10 (Z.of_nat n)))
                      (fixed2 (Z.of_nat n))) (seq 0 100) = true.
Proof. vm_compute. reflexivity. Qed.

Lemma count2_small {A : Type} (xs : list A) :
  (length xs <= 99)%nat -> count2 xs = fixed2 (Z.of_nat (length xs)).
Proof.
  intros H. pose proof count2_small_table as T.
  rewrite forallb_forall in T. specialize (T (length xs)).
  unfold count2. apply String.eqb_eq. apply T. apply in_seq. lia.
Qed.

Lemma toString10_large (n : Z) :
  100 <= n -> (3 <= String.length (toString 10 n))%nat.
Proof.
  intros Hn. unfold toString.
  assert (Hlog : 6 <= Z.log2 n).
  { change 6 with (Z.log2 64). apply Z.log2_le_mono. lia. }
  destruct (Z.to_nat (Z.log2 n)) as [|[|fuel]] eqn:E; [lia|lia|].
  assert (Q1 : 10 <= n / 10) by (apply Z.div_le_lower_bound; lia).
  assert (Q2 : 1 <= n / 10 / 10) by (apply Z.div_le_lower_bound; lia).
  rewrite toDigits_step.
  destruct (Z.eqb_spec (n / 10) 0) as [E0|_]; [lia|].
  rewrite toDigits_step.
  destruct (Z.eqb_spec (n / 10 / 10) 0) as [E1|_]; [lia|].
  pose proof (toDigits_length fuel 10 (n / 10 / 10)
    (String (digitChar (n / 10 mod 10)) (String (digitChar (n mod 10)) ""))) as L.
  cbn [String.length] in L. lia.
Qed.

Lemma count2_large {A : Type} (xs : list A) :
  (100 <= length xs)%nat ->
  count2 xs = toString 10 (Z.of_nat (length xs))
  /\ (3 <= String.length (count2 xs))%nat.
Proof.
  intros H.
  assert (L : (3 <= String.length (toString 10 (Z.of_nat (length xs))))%nat)
    by (apply toString10_large; lia).
  unfold count2. rewrite padStart_long by lia. split; [reflexivity | exact L].
Qed.

(** ** The two sorts *)

Lemma stringLe_compare (x y : string) : stringLe x y <-> String.compare x y <> Gt.
Proof.
  unfold stringLe, String.leb.
  destruct (String.compare x y); simpl; intuition congruence.
Qed.

Lemma compare_le_trans (x y z : string) :
  String.compare x y <> Gt -> String.compare y z <> Gt -> String.compare x z <> Gt.
Proof.
  revert y z. induction x as [|a x IH]; intros [|b y] [|c z]; simpl;
    try congruence.
  unfold Ascii.compare.
  destruct (N.compare_spec (N_of_ascii a) (N_of_ascii b)) as [Eab|Lab|Gab];
    destruct (N.compare_spec (N_of_ascii b) (N_of_ascii c)) as [Ebc|Lbc|Gbc];
    destruct (N.compare_spec (N_of_ascii a) (N_of_ascii c)) as [Eac|Lac|Gac];
    try congruence; try lia.
  apply IH.
Qed.

#[local] Instance stringLe_total : Total stringLe.
Proof.
  intros x y. unfold stringLe.
  destruct (String.leb_total x y) as [H|H]; rewrite H; simpl; auto.
Qed.

#[local] Instance stringLe_trans : Transitive stringLe.
Proof.
  intros x y z Hxy Hyz. apply stringLe_compare.
  apply stringLe_compare in Hxy, Hyz. eapply compare_le_trans; eassumption.
Qed.

#[local] Instance stringLe_antisym : AntiSymm (=) stringLe.
Proof.
  intros x y Hxy Hyx. unfold stringLe in *.
  apply String.leb_antisym; apply Is_true_true; assumption.
Qed.

Lemma sort_Permutation (xs : list string) : sort xs ≡ₚ xs.
Proof. apply merge_sort_Permutation. Qed.

Lemma sort_Sorted (xs : list string) : StronglySorted stringLe (sort xs).
Proof.
  unfold sort.
  apply (@StronglySorted_merge_sort string stringLe _ stringLe_trans stringLe_total).
Qed.

(** [sort xs] is the only ordered rearrangement of [xs]. *)
Lemma sort_unique (xs ys : list string) :
  ys ≡ₚ xs -> StronglySorted stringLe ys -> sort xs = ys.
Proof.
  intros Hp Hs.
  apply (StronglySorted_unique stringLe); [apply sort_Sorted | exact Hs | ].
  rewrite sort_Permutation. symmetry. exact Hp.
Qed.

#[local] Instance descending_total : Total descending.
Proof. intros a b. unfold descending. lia. Qed.

#[local] Instance descending_trans : Transitive descending.
Proof. intros a b c. unfold descending. lia. Qed.

Lemma fold_max_ge (rest : list Z) (x : Z) :
  x <= fold_left Z.max rest x
  /\ Forall (fun y => y <= fold_left Z.max rest x) rest
  /\ (fold_left Z.max rest x = x \/ In (fold_left Z.max rest x) rest).
Proof.
  revert x. induction rest as [|y rest IH]; intros x; simpl.
  - split; [lia | split; [constructor | left; reflexivity]].
  - destruct (IH (Z.max x y)) as (H1 & H2 & H3).
    split; [lia | split].
    + constructor; [lia | exact H2].
    + destruct H3 as [H3|H3]; [|right; right; exact H3].
      rewrite H3. destruct (Z.max_spec x y) as [[_ E]|[_ E]]; rewrite E; auto.
Qed.

Lemma sortWith_descending_head (xs : list Z) :
  sortWith (fun a b => b - a) xs !! 0%nat = maximum xs.
Proof.
  pose proof (@StronglySorted_merge_sort Z descending
                (fun a b => decide (b - a <= 0)) descending_trans descending_total xs)
    as Hs.
  pose proof (@merge_sort_Permutation Z descending
                (fun a b => decide (b - a <= 0)) xs) as Hp.
  unfold sortWith. fold descending.
  destruct (merge_sort descending xs) as [|m sorted] eqn:E.
  - apply Permutation_nil_l in Hp. subst xs. reflexivity.
  - destruct xs as [|x rest].
    { symmetry in Hp. apply Permutation_nil_l in Hp. discriminate. }
    simpl. f_equal.
    destruct (fold_max_ge rest x) as (H1 & H2 & H3).
    set (M := fold_left Z.max rest x) in *.
    apply StronglySorted_inv in Hs. destruct Hs as [_ Hm].
    assert (HM : In M (m :: sorted)).
    { apply (Permutation_in (l := x :: rest)); [symmetry; exact Hp|].
      destruct H3 as [->|H3]; [left; reflexivity | right; exact H3]. }
    assert (Hmx : In m (x :: rest)).
    { apply (Permutation_in (l := m :: sorted)); [exact Hp | left; reflexivity]. }
    assert (m <= M).
    { destruct Hmx as [<-|Hin]; [exact H1|].
      rewrite Forall_forall in H2. apply H2. apply list_elem_of_In. exact Hin. }
    destruct HM as [->|Hin]; [reflexivity|].
    rewrite Forall_forall in Hm. apply list_elem_of_In in Hin.
    specialize (Hm M Hin). unfold descending in Hm. lia.
Qed.

(** ** The loops over 16-bit values *)

Lemma collect16_step {A : Type} (f : Z -> A) (buffer : list byte) (base len : Z)
    (fuel : nat) (i : Z) (acc : list A) :
  collect16 f buffer base len (S fuel) i acc
  = if i <? len then
      let* v := getUint16 buffer (base + i) in
      collect16 f buffer base len fuel (i + 2)
        (if has GREASE_VALUES v then acc else acc ++ [f v])
    else Return acc.
Proof. reflexivity. Qed.

Lemma collect16_done {A : Type} (f : Z -> A) (buffer : list byte) (base len : Z)
    (fuel : nat) (i : Z) (acc : list A) :
  len <= i -> collect16 f buffer base len fuel i acc = Return acc.
Proof.
  intros H. destruct fuel; simpl; destruct (Z.ltb_spec i len); try lia; reflexivity.
Qed.

Lemma steps16_done (len : Z) : len <= 0 -> steps16 len = 0%nat.
Proof.
  intros H. unfold steps16.
  assert ((len + 1) / 2 <= 0) by (Z.div_mod_to_equations; lia). lia.
Qed.

Lemma steps16_more (len : Z) : 0 < len -> steps16 len = S (steps16 (len - 2)).
Proof.
  intros H. unfold steps16.
  assert (0 <= (len - 2 + 1) / 2) by (Z.div_mod_to_equations; lia).
  assert ((len + 1) / 2 = (len - 2 + 1) / 2 + 1) by (Z.div_mod_to_equations; lia).
  lia.
Qed.

(** What a loop that returns has collected: the values on the wire that are
    not GREASE values, in wire order, after what was there before. *)
Lemma collect16_Return {A : Type} (f : Z -> A) (buffer : list byte) (base len : Z)
    (fuel : nat) (i : Z) (acc l : list A) :
  collect16 f buffer base len fuel i acc = Return l ->
  l = acc ++ map f (List.filter notGrease
                      (wire16 buffer (base + i) (steps16 (len - i)))).
Proof.
  revert i acc. induction fuel as [|fuel IH]; intros i acc H;
    destruct (Z_lt_le_dec i len) as [Hlt|Hge].
  - simpl in H. destruct (Z.ltb_spec i len); [discriminate | lia].
  - rewrite collect16_done in H by exact Hge. injection H as <-.
    rewrite steps16_done by lia. simpl. rewrite app_nil_r. reflexivity.
  - rewrite collect16_step in H. destruct (Z.ltb_spec i len); [|lia].
    inv_bind H. apply IH in H. subst l.
    rewrite (steps16_more (len - i)) by lia.
    replace (len - i - 2) with (len - (i + 2)) by lia.
    cbn [wire16]. unfold word16 at 1. rewrite Hv.
    replace (base + i + 2) with (base + (i + 2)) by lia.
    cbn [List.filter]. unfold notGrease at 2.
    destruct (has GREASE_VALUES v); cbn [negb map]; [reflexivity|].
    rewrite <- app_assoc. reflexivity.
  - rewrite collect16_done in H by exact Hge. injection H as <-.
    rewrite steps16_done by lia. simpl. rewrite app_nil_r. reflexivity.
Qed.

(** With [len] units of fuel the loop never runs out, and an exception is
    always a read outside the buffer. *)
Lemma collect16_Throw {A : Type} (f : Z -> A) (buffer : list byte) (base len : Z)
    (fuel : nat) (i : Z) (acc : list A) (e : exn) :
  len - i <= Z.of_nat fuel ->
  collect16 f buffer base len fuel i acc = Throw e -> e = RangeError.
Proof.
  revert i acc. induction fuel as [|fuel IH]; intros i acc Hf H.
  - rewrite collect16_done in H by lia. discriminate.
  - rewrite collect16_step in H. destruct (Z.ltb_spec i len); [|discriminate].
    apply bind_Throw in H. destruct H as [H|(v & Hv & H)].
    + apply getUint16_Throw in H. tauto.
    + apply IH in H; [exact H | lia].
Qed.

Lemma collect16_app {A : Type} (f : Z -> A) (buffer extra : list byte)
    (base len : Z) (fuel : nat) (i : Z) (acc l : list A) :
  collect16 f buffer base len fuel i acc = Return l ->
  collect16 f (buffer ++ extra) base len fuel i acc = Return l.
Proof.
  revert i acc. induction fuel as [|fuel IH]; intros i acc H.
  - simpl in *. destruct (i <? len); [discriminate | exact H].
  - rewrite collect16_step in *. destruct (i <? len); [|exact H].
    inv_bind H. rewrite (getUint16_app _ extra _ _ Hv). simpl.
    apply IH. exact H.
Qed.

(** A loop that returns has read only inside the buffer. *)
Lemma collect16_bounds {A : Type} (f : Z -> A) (buffer : list byte) (base len : Z)
    (fuel : nat) (i : Z) (acc l : list A) :
  i < len -> 0 <= i -> i mod 2 = 0 ->
  collect16 f buffer base len fuel i acc = Return l ->
  base + len <= Z.of_nat (length buffer).
Proof.
  revert i acc. induction fuel as [|fuel IH]; intros i acc Hlt Hi Heven H.
  - simpl in H. destruct (Z.ltb_spec i len); [discriminate | lia].
  - rewrite collect16_step in H. destruct (Z.ltb_spec i len); [|lia].
    inv_bind H. apply getUint16_Return in Hv.
    destruct (Z_lt_le_dec (i + 2) len) as [Hmore|Hlast].
    + apply IH in H; [exact H | exact Hmore | lia | ].
      rewrite <- Z.add_mod_idemp_l, Heven by lia. reflexivity.
    + lia.
Qed.

Lemma word16_range (buffer : list byte) (offset : Z) :
  0 <= word16 buffer offset < 65536.
Proof.
  unfold word16. destruct (getUint16 buffer offset) as [v|e] eqn:E; [|lia].
  apply getUint16_Return in E. tauto.
Qed.

Lemma notGrease_spec (v : Z) : notGrease v = true <-> v ∉ GREASE_VALUES.
Proof.
  unfold notGrease, has. rewrite negb_true_iff, bool_decide_eq_false. tauto.
Qed.

Lemma wire16_filtered (buffer : list byte) (offset : Z) (n : nat) :
  Forall wireValue (List.filter notGrease (wire16 buffer offset n)).
Proof.
  revert offset. induction n as [|n IH]; intros offset; cbn [wire16 List.filter].
  - constructor.
  - destruct (notGrease (word16 buffer offset)) eqn:E; [|apply IH].
    constructor; [|apply IH].
    split; [apply word16_range | apply notGrease_spec; exact E].
Qed.

Lemma collect16_id_filtered (buffer : list byte) (base len : Z) (fuel : nat)
    (acc l : list Z) :
  Forall wireValue acc ->
  collect16 id buffer base len fuel 0 acc = Return l -> Forall wireValue l.
Proof.
  intros Hacc H. apply collect16_Return in H. subst l.
  apply Forall_app. split; [exact Hacc|].
  rewrite map_id. apply wire16_filtered.
Qed.

Lemma collect16_hex4_filtered (buffer : list byte) (base len : Z) (fuel : nat)
    (acc l : list string) :
  Forall wireHex acc ->
  collect16 hex4 buffer base len fuel 0 acc = Return l -> Forall wireHex l.
Proof.
  intros Hacc H. apply collect16_Return in H. subst l.
  apply Forall_app. split; [exact Hacc|].
  apply Forall_map. eapply Forall_impl; [apply wire16_filtered|].
  intros v Hv. exists v. split; [exact Hv | reflexivity].
Qed.

(** ** The extension loop *)

Lemma extensionsLoop_step (fuel : nat) (buffer : list byte)
    (extensionsEndIndex currentIndex : Z) (st : extensions) :
  extensionsLoop (S fuel) buffer extensionsEndIndex currentIndex st
  = if currentIndex <? extensionsEndIndex then
      let* extType := getUint16 buffer currentIndex in
      let* extLength := getUint16 buffer (currentIndex + 2) in
      let* st' :=
        if negb (has GREASE_VALUES extType)
        then extension buffer extType (currentIndex + 4) st
        else Return st in
      extensionsLoop fuel buffer extensionsEndIndex (currentIndex + 4 + extLength) st'
    else Return st.
Proof. reflexivity. Qed.

Lemma extensionsLoop_done (fuel : nat) (buffer : list byte)
    (extensionsEndIndex currentIndex : Z) (st : extensions) :
  extensionsEndIndex <= currentIndex ->
  extensionsLoop fuel buffer extensionsEndIndex currentIndex st = Return st.
Proof.
  intros H. destruct fuel; simpl;
    destruct (Z.ltb_spec currentIndex extensionsEndIndex); try lia; reflexivity.
Qed.

Lemma extension_filtered (buffer : list byte) (extType currentIndex : Z)
    (st st' : extensions) :
  wireValue extType -> filtered st ->
  extension buffer extType currentIndex st = Return st' -> filtered st'.
Proof.
  intros Ht (He & Hs & Hv) H. unfold extension in H. cbn [extensionsList sni alpn
    signatureAlgorithms supportedVersions] in H.
  assert (He' : Forall wireHex (extensionsList st ++ [hex4 extType])).
  { apply Forall_app. split; [exact He|]. constructor; [|constructor].
    exists extType. split; [exact Ht | reflexivity]. }
  destruct (extType =? 0).
  { injection H as <-. repeat split; assumption. }
  destruct (extType =? 16).
  { inv_bind H. injection H as <-. repeat split; assumption. }
  destruct (extType =? 43).
  { inv_bind H. inv_bind H. injection H as <-.
    repeat split; try assumption. cbn [supportedVersions].
    eapply collect16_id_filtered; [exact Hv | exact Hv1]. }
  destruct (extType =? 13).
  { inv_bind H. inv_bind H. injection H as <-.
    repeat split; try assumption. cbn [signatureAlgorithms].
    eapply collect16_hex4_filtered; [exact Hs | exact Hv1]. }
  injection H as <-. repeat split; assumption.
Qed.

Lemma extensionsLoop_filtered (fuel : nat) (buffer : list byte)
    (extensionsEndIndex currentIndex : Z) (st st' : extensions) :
  filtered st ->
  extensionsLoop fuel buffer extensionsEndIndex currentIndex st = Return st' ->
  filtered st'.
Proof.
  revert currentIndex st. induction fuel as [|fuel IH]; intros cur st Hst H.
  - simpl in H. destruct (cur <? extensionsEndIndex); [discriminate|].
    injection H as <-. exact Hst.
  - rewrite extensionsLoop_step in H.
    destruct (cur <? extensionsEndIndex); [|injection H as <-; exact Hst].
    inv_bind H. inv_bind H. inv_bind H. apply IH in H; [exact H|].
    destruct (has GREASE_VALUES v) eqn:G; cbn [negb] in Hv1.
    + injection Hv1 as <-. exact Hst.
    + eapply extension_filtered; [ | exact Hst | exact Hv1].
      apply getUint16_Return in Hv. split; [tauto|].
      apply notGrease_spec. unfold notGrease. rewrite G. reflexivity.
Qed.

(** ** Every exception is a read outside the buffer *)

(** Split [H : bind m k = Throw e]: the case where [m] throws is closed
    when [m] is an accessor or a 16-bit loop with enough fuel. *)
Ltac split_throw H :=
  let v := fresh "v" in
  let Hv := fresh "Hv" in
  apply bind_Throw in H; destruct H as [H|(v & Hv & H)];
  [ first [ apply getUint8_Throw in H; tauto
          | apply getUint16_Throw in H; tauto
          | apply collect16_Throw in H; [exact H | lia] ]
  | ].

Lemma alpnExtension_Throw (buffer : list byte) (currentIndex : Z) (a : string)
    (e : exn) :
  alpnExtension buffer currentIndex a = Throw e -> e = RangeError.
Proof.
  unfold alpnExtension. intros H.
  split_throw H.
  destruct (currentIndex + 2 <? currentIndex + 2 + v); [|discriminate].
  split_throw H.
  destruct (0 <? v0); [|discriminate].
  split_throw H. split_throw H.
  destruct (isPrintableAscii v1 && isPrintableAscii v2); discriminate.
Qed.

Lemma extension_Throw (buffer : list byte) (extType currentIndex : Z)
    (st : extensions) (e : exn) :
  extension buffer extType currentIndex st = Throw e -> e = RangeError.
Proof.
  unfold extension. intros H.
  destruct (extType =? 0); [discriminate|].
  destruct (extType =? 16).
  { apply bind_Throw in H. destruct H as [H|(v & _ & H)]; [|discriminate].
    eapply alpnExtension_Throw. exact H. }
  destruct (extType =? 43).
  { split_throw H. split_throw H. discriminate. }
  destruct (extType =? 13).
  { split_throw H. split_throw H. discriminate. }
  discriminate.
Qed.

Lemma extensionsLoop_Throw (fuel : nat) (buffer : list byte)
    (extensionsEndIndex currentIndex : Z) (st : extensions) (e : exn) :
  extensionsEndIndex - currentIndex <= Z.of_nat fuel ->
  extensionsLoop fuel buffer extensionsEndIndex currentIndex st = Throw e ->
  e = RangeError.
Proof.
  revert currentIndex st. induction fuel as [|fuel IH]; intros cur st Hf H.
  - rewrite extensionsLoop_done in H by lia. discriminate.
  - rewrite extensionsLoop_step in H.
    destruct (Z.ltb_spec cur extensionsEndIndex); [|discriminate].
    split_throw H. split_throw H.
    apply bind_Throw in H. destruct H as [H|(st' & _ & H)].
    + destruct (negb (has GREASE_VALUES v)); [|discriminate].
      eapply extension_Throw. exact H.
    + apply IH in H; [exact H|].
      apply getUint16_Return in Hv0. lia.
Qed.

Lemma parseClientHello_Throw (buffer : list byte) (e : exn) :
  parseClientHello buffer = Throw e -> e = RangeError.
Proof.
  unfold parseClientHello. intros H.
  split_throw H. split_throw H. split_throw H. split_throw H.
  split_throw H. split_throw H.
  apply bind_Throw in H. destruct H as [H|(st & _ & H)]; [|discriminate].
  apply extensionsLoop_Throw in H; [exact H | lia].
Qed.

(** ** A fingerprint does not depend on bytes after the buffer *)

Lemma alpnExtension_app (buffer extra : list byte) (currentIndex : Z)
    (a a' : string) :
  alpnExtension buffer currentIndex a = Return a' ->
  alpnExtension (buffer ++ extra) currentIndex a = Return a'.
Proof.
  unfold alpnExtension. intros H.
  inv_bind H. rewrite (getUint16_app _ extra _ _ Hv). cbn [bind].
  destruct (currentIndex + 2 <? currentIndex + 2 + v); [|exact H].
  inv_bind H. rewrite (getUint8_app _ extra _ _ Hv0). cbn [bind].
  destruct (0 <? v0); [|exact H].
  inv_bind H. rewrite (getUint8_app _ extra _ _ Hv1). cbn [bind].
  inv_bind H. rewrite (getUint8_app _ extra _ _ Hv2). cbn [bind].
  exact H.
Qed.

Lemma extension_app (buffer extra : list byte) (extType currentIndex : Z)
    (st st' : extensions) :
  extension buffer extType currentIndex st = Return st' ->
  extension (buffer ++ extra) extType currentIndex st = Return st'.
Proof.
  unfold extension. intros H.
  destruct (extType =? 0); [exact H|].
  destruct (extType =? 16).
  { inv_bind H. rewrite (alpnExtension_app _ extra _ _ _ Hv). exact H. }
  destruct (extType =? 43).
  { inv_bind H. rewrite (getUint8_app _ extra _ _ Hv). cbn [bind].
    inv_bind H. rewrite (collect16_app _ _ extra _ _ _ _ _ _ Hv0). exact H. }
  destruct (extType =? 13).
  { inv_bind H. rewrite (getUint16_app _ extra _ _ Hv). cbn [bind].
    inv_bind H. rewrite (collect16_app _ _ extra _ _ _ _ _ _ Hv0). exact H. }
  exact H.
Qed.

Lemma extensionsLoop_app (fuel : nat) (buffer extra : list byte)
    (extensionsEndIndex currentIndex : Z) (st st' : extensions) :
  extensionsLoop fuel buffer extensionsEndIndex currentIndex st = Return st' ->
  extensionsLoop fuel (buffer ++ extra) extensionsEndIndex currentIndex st
  = Return st'.
Proof.
  revert currentIndex st. induction fuel as [|fuel IH]; intros cur st H.
  - simpl in *. destruct (cur <? extensionsEndIndex); [discriminate | exact H].
  - rewrite extensionsLoop_step in *.
    destruct (cur <? extensionsEndIndex); [|exact H].
    inv_bind H. rewrite (getUint16_app _ extra _ _ Hv). cbn [bind].
    inv_bind H. rewrite (getUint16_app _ extra _ _ Hv0). cbn [bind].
    inv_bind H.
    destruct (negb (has GREASE_VALUES v)).
    + rewrite (extension_app _ extra _ _ _ _ Hv1). cbn [bind]. apply IH. exact H.
    + rewrite Hv1. cbn [bind]. apply IH. exact H.
Qed.

Lemma parseClientHello_app (buffer extra : list byte) (h : clientHello) :
  parseClientHello buffer = Return h ->
  parseClientHello (buffer ++ extra) = Return h.
Proof.
  unfold parseClientHello. intros H.
  inv_bind H. rewrite (getUint16_app _ extra _ _ Hv). cbn [bind].
  inv_bind H. rewrite (getUint8_app _ extra _ _ Hv0). cbn [bind].
  inv_bind H. rewrite (getUint16_app _ extra _ _ Hv1). cbn [bind].
  inv_bind H. rewrite (collect16_app _ _ extra _ _ _ _ _ _ Hv2). cbn [bind].
  inv_bind H. rewrite (getUint8_app _ extra _ _ Hv3). cbn [bind].
  inv_bind H. rewrite (getUint16_app _ extra _ _ Hv4). cbn [bind].
  inv_bind H. rewrite (extensionsLoop_app _ _ extra _ _ _ _ Hv5). exact H.
Qed.

(** ** The version table *)

Lemma TLS_MAPPER_table (v : Z) :
  0 <= v < 65536 ->
  orElse (TLS_MAPPER !! ("0x" +:+ hex4 v)) "00" = versionTable v.
Proof.
  intros Hv. unfold versionTable.
  destruct (Z.eqb_spec v 2) as [->|N1]; [vm_compute; reflexivity|].
  destruct (Z.eqb_spec v 768) as [->|N2]; [vm_compute; reflexivity|].
  destruct (Z.eqb_spec v 769) as [->|N3]; [vm_compute; reflexivity|].
  destruct (Z.eqb_spec v 770) as [->|N4]; [vm_compute; reflexivity|].
  destruct (Z.eqb_spec v 771) as [->|N5]; [vm_compute; reflexivity|].
  destruct (Z.eqb_spec v 772) as [->|N6]; [vm_compute; reflexivity|].
  assert (E : TLS_MAPPER !! ("0x" +:+ hex4 v) = None).
  { unfold TLS_MAPPER. apply not_elem_of_list_to_map_1.
    cbn [fmap list_fmap fst]. intros Hin.
    assert (K : forall w, 0 <= w < 65536 -> v <> w ->
                "0x" +:+ hex4 v <> "0x" +:+ hex4 w).
    { intros w Hw Hne Heq. apply Hne. apply hex4_inj; [exact Hv | exact Hw|].
      change (String "0" (String "x" (hex4 v)) = String "0" (String "x" (hex4 w)))
        in Heq.
      congruence. }
    repeat (apply elem_of_cons in Hin; destruct Hin as [Hin|Hin];
            [ first [ apply (K 2) in Hin | apply (K 768) in Hin
                    | apply (K 769) in Hin | apply (K 770) in Hin
                    | apply (K 771) in Hin | apply (K 772) in Hin ];
              [contradiction | lia | assumption] | ]).
    apply elem_of_nil in Hin. exact Hin. }
  rewrite E. reflexivity.
Qed.

(** ** What a successful parse has read *)

Lemma parseClientHello_Return (buffer : list byte) (h : clientHello) :
  parseClientHello buffer = Return h ->
  exists legacy sid cs comp extLen : Z,
    getUint16 buffer 4 = Return legacy
    /\ getUint8 buffer 38 = Return sid
    /\ getUint16 buffer (39 + sid) = Return cs
    /\ getUint8 buffer (41 + sid + cs) = Return comp
    /\ getUint16 buffer (42 + sid + cs + comp) = Return extLen
    /\ tlsMappedVersion h = versionTable legacy
    /\ cipherSuites h
       = map hex4 (List.filter notGrease (wire16 buffer (41 + sid) (steps16 cs)))
    /\ extensionsLoop (Z.to_nat extLen) buffer (44 + sid + cs + comp + extLen)
         (44 + sid + cs + comp) initialExtensions = Return (exts h).
Proof.
  unfold parseClientHello. intros H.
  do 7 (inv_bind H). injection H as <-.
  exists v, v0, v1, v3, v4. cbn [tlsMappedVersion cipherSuites exts].
  change (4 + 34) with 38 in *.
  replace (38 + (1 + v0)) with (39 + v0) in * by lia.
  replace (39 + v0 + 2) with (41 + v0) in * by lia.
  replace (41 + v0 + v1 + (1 + v3)) with (42 + v0 + v1 + v3) in * by lia.
  replace (42 + v0 + v1 + v3 + 2) with (44 + v0 + v1 + v3) in * by lia.
  repeat split; try assumption.
  - apply TLS_MAPPER_table. apply getUint16_Return in Hv. tauto.
  - apply collect16_Return in Hv2. cbn [app] in Hv2.
    rewrite Z.add_0_r, Z.sub_0_r in Hv2. exact Hv2.
Qed.

Lemma parseClientHello_filtered (buffer : list byte) (h : clientHello) :
  parseClientHello buffer = Return h ->
  Forall wireHex (cipherSuites h) /\ filtered (exts h).
Proof.
  intros H. apply parseClientHello_Return in H.
  destruct H as (legacy & sid & cs & comp & extLen & _ & _ & _ & _ & _ & _ & Hc & He).
  split.
  - rewrite Hc. apply Forall_map. eapply Forall_impl; [apply wire16_filtered|].
    intros v Hv. exists v. split; [exact Hv | reflexivity].
  - eapply extensionsLoop_filtered; [|exact He].
    repeat split; constructor.
Qed.

(** The mandatory fields of a ClientHello that parses lie inside the buffer. *)
Lemma parseClientHello_length (buffer : list byte) (h : clientHello) :
  parseClientHello buffer = Return h ->
  exists sid cs comp : Z,
    getUint8 buffer 38 = Return sid
    /\ getUint16 buffer (39 + sid) = Return cs
    /\ getUint8 buffer (41 + sid + cs) = Return comp
    /\ 44 + sid + cs + comp <= Z.of_nat (length buffer).
Proof.
  intros H. apply parseClientHello_Return in H.
  destruct H as (legacy & sid & cs & comp & extLen & _ & Hs & Hc & Hm & He & _).
  exists sid, cs, comp. repeat split; try assumption.
  apply getUint16_Return in He. lia.
Qed.

(** ** The effective version *)

Lemma maximum_In (xs : list Z) (m : Z) : maximum xs = Some m -> In m xs.
Proof.
  destruct xs as [|x rest]; [discriminate|]. simpl. intros [= <-].
  destruct (fold_max_ge rest x) as (_ & _ & [->|H]); auto.
Qed.

Lemma maximum_ge (xs : list Z) (m y : Z) : maximum xs = Some m -> In y xs -> y <= m.
Proof.
  destruct xs as [|x rest]; [discriminate|]. simpl. intros [= <-] Hy.
  destruct (fold_max_ge rest x) as (H1 & H2 & _).
  destruct Hy as [<-|Hy]; [exact H1|].
  rewrite Forall_forall in H2. apply H2. apply list_elem_of_In. exact Hy.
Qed.

Lemma highestVersion_Return (h : clientHello) :
  Forall wireValue (supportedVersions (exts h)) ->
  highestVersion h = Return (effectiveVersion h).
Proof.
  intros Hf. unfold highestVersion, effectiveVersion.
  rewrite sortWith_descending_head.
  destruct (supportedVersions (exts h)) as [|x rest] eqn:E; [reflexivity|].
  cbn [length]. destruct (Z.ltb_spec 0 (Z.of_nat (S (length rest)))); [|lia].
  destruct (maximum (x :: rest)) as [m|] eqn:M; [|discriminate].
  rewrite TLS_MAPPER_table; [reflexivity|].
  apply maximum_In in M. rewrite Forall_forall in Hf.
  apply list_elem_of_In in M. apply Hf in M. destruct M as [M _]. exact M.
Qed.

(** ** The shape of the fingerprint *)

Lemma getJA4Fingerprint_Return (buffer : list byte) (proto fp : string) :
  snd (getJA4Fingerprint buffer proto) = Return fp <->
  exists h, parseClientHello buffer = Return h /\ fp = fingerprint h proto.
Proof.
  unfold getJA4Fingerprint, tryBlock. split.
  - intros H. destruct (parseClientHello buffer) as [h|e] eqn:P; [|discriminate].
    destruct (parseClientHello_filtered _ _ P) as [_ (_ & _ & Hv)].
    cbn [bind] in H. rewrite (highestVersion_Return h Hv) in H.
    cbn [bind snd] in H. injection H as <-. exists h. split; reflexivity.
  - intros (h & P & ->). rewrite P.
    destruct (parseClientHello_filtered _ _ P) as [_ (_ & _ & Hv)].
    cbn [bind]. rewrite (highestVersion_Return h Hv). reflexivity.
Qed.

Lemma getJA4Fingerprint_Throw (buffer : list byte) (proto : string) (e : exn) :
  snd (getJA4Fingerprint buffer proto) = Throw e <->
  parseClientHello buffer = Throw e.
Proof.
  unfold getJA4Fingerprint, tryBlock.
  destruct (parseClientHello buffer) as [h|e'] eqn:P.
  - destruct (parseClientHello_filtered _ _ P) as [_ (_ & _ & Hv)].
    cbn [bind]. rewrite (highestVersion_Return h Hv). cbn [bind snd].
    split; discriminate.
  - cbn [bind snd]. split; intros [= ->]; reflexivity.
Qed.

(** ** The extension records and the ALPN code *)

Lemma extensionsLoop_records (fuel : nat) (buffer : list byte)
    (extensionsEndIndex currentIndex : Z) (st st' : extensions) :
  extensionsLoop fuel buffer extensionsEndIndex currentIndex st = Return st' ->
  exists records,
    extensionRecords fuel buffer extensionsEndIndex currentIndex = Return records
    /\ handleAll buffer records st = Return st'.
Proof.
  revert currentIndex st. induction fuel as [|fuel IH]; intros cur st H.
  - simpl in *. destruct (cur <? extensionsEndIndex); [discriminate|].
    exists []. split; [reflexivity | exact H].
  - rewrite extensionsLoop_step in H. cbn [extensionRecords].
    destruct (cur <? extensionsEndIndex); [|exists []; split; [reflexivity | exact H]].
    inv_bind H. inv_bind H. inv_bind H.
    destruct (IH _ _ H) as (rest & Hr & Hh).
    exists ((v, cur + 4) :: rest). rewrite Hv, Hv0. cbn [bind]. rewrite Hr.
    split; [reflexivity|]. cbn [handleAll bind]. rewrite Hv1. exact Hh.
Qed.

Lemma extension_alpn (buffer : list byte) (extType payload : Z)
    (st st' : extensions) :
  extension buffer extType payload st = Return st' ->
  if extType =? 0x0010
  then alpnExtension buffer payload (alpn st) = Return (alpn st')
  else alpn st' = alpn st.
Proof.
  unfold extension. intros H.
  destruct (Z.eqb_spec extType 0) as [->|_].
  { injection H as <-. reflexivity. }
  destruct (extType =? 16).
  { inv_bind H. injection H as <-. exact Hv. }
  destruct (extType =? 43).
  { inv_bind H. inv_bind H. injection H as <-. reflexivity. }
  destruct (extType =? 13).
  { inv_bind H. inv_bind H. injection H as <-. reflexivity. }
  injection H as <-. reflexivity.
Qed.

Lemma handleAll_alpn_absent (buffer : list byte) (records : list (Z * Z))
    (st st' : extensions) :
  List.filter isAlpn records = [] ->
  handleAll buffer records st = Return st' -> alpn st' = alpn st.
Proof.
  revert st. induction records as [|[t o] rest IH]; intros st Hf H.
  - injection H as <-. reflexivity.
  - cbn [List.filter] in Hf. unfold isAlpn at 1 in Hf. cbn [fst] in Hf.
    destruct (t =? 16) eqn:E; [discriminate|].
    cbn [handleAll] in H. inv_bind H. rewrite (IH _ Hf H).
    destruct (negb (has GREASE_VALUES t)).
    + apply extension_alpn in Hv. rewrite E in Hv. exact Hv.
    + injection Hv as <-. reflexivity.
Qed.

Lemma handleAll_alpn_once (buffer : list byte) (records : list (Z * Z))
    (payload : Z) (st st' : extensions) :
  List.filter isAlpn records = [(0x0010, payload)] ->
  handleAll buffer records st = Return st' ->
  alpnExtension buffer payload (alpn st) = Return (alpn st').
Proof.
  revert st. induction records as [|[t o] rest IH]; intros st Hf H.
  - discriminate.
  - cbn [List.filter] in Hf. unfold isAlpn at 1 in Hf. cbn [fst] in Hf.
    cbn [handleAll] in H. inv_bind H.
    destruct (Z.eqb_spec t 16) as [->|Hne].
    + injection Hf as -> Hf.
      rewrite (handleAll_alpn_absent _ _ _ _ Hf H).
      change (negb (has GREASE_VALUES 16)) with true in Hv.
      apply extension_alpn in Hv. exact Hv.
    + assert (E : alpn v = alpn st).
      { destruct (negb (has GREASE_VALUES t)).
        - apply extension_alpn in Hv.
          destruct (Z.eqb_spec t 16); [contradiction | exact Hv].
        - injection Hv as <-. reflexivity. }
      rewrite <- E. apply IH; assumption.
Qed.

Lemma extension_extensionsList (buffer : list byte) (extType payload : Z)
    (st st' : extensions) :
  extension buffer extType payload st = Return st' ->
  extensionsList st' = extensionsList st ++ [hex4 extType].
Proof.
  unfold extension. intros H.
  destruct (extType =? 0); [injection H as <-; reflexivity|].
  destruct (extType =? 16); [inv_bind H; injection H as <-; reflexivity|].
  destruct (extType =? 43);
    [inv_bind H; inv_bind H; injection H as <-; reflexivity|].
  destruct (extType =? 13);
    [inv_bind H; inv_bind H; injection H as <-; reflexivity|].
  injection H as <-. reflexivity.
Qed.

Lemma handleAll_extensionsList (buffer : list byte) (records : list (Z * Z))
    (st st' : extensions) :
  handleAll buffer records st = Return st' ->
  extensionsList st'
  = extensionsList st ++ map hex4 (List.filter notGrease (map fst records)).
Proof.
  revert st. induction records as [|[t o] rest IH]; intros st H.
  - injection H as <-. cbn. rewrite app_nil_r. reflexivity.
  - cbn [handleAll] in H. inv_bind H. rewrite (IH _ H).
    cbn [map fst List.filter]. unfold notGrease at 2.
    destruct (negb (has GREASE_VALUES t)).
    + rewrite (extension_extensionsList _ _ _ _ _ Hv), <- app_assoc. reflexivity.
    + injection Hv as <-. reflexivity.
Qed.

Lemma extension_signatureAlgorithms (buffer : list byte) (extType payload : Z)
    (st st' : extensions) :
  extension buffer extType payload st = Return st' ->
  signatureAlgorithms st'
  = if extType =? 0x000d
    then signatureAlgorithms st ++ signatureAlgorithmsAt buffer payload
    else signatureAlgorithms st.
Proof.
  unfold extension. intros H.
  destruct (Z.eqb_spec extType 0) as [->|_]; [injection H as <-; reflexivity|].
  destruct (Z.eqb_spec extType 16) as [->|_];
    [inv_bind H; injection H as <-; reflexivity|].
  destruct (Z.eqb_spec extType 43) as [->|_];
    [inv_bind H; inv_bind H; injection H as <-; reflexivity|].
  destruct (Z.eqb_spec extType 13) as [->|_]; [|injection H as <-; reflexivity].
  inv_bind H. inv_bind H. injection H as <-. cbn [signatureAlgorithms].
  apply collect16_Return in Hv0. rewrite Hv0.
  unfold signatureAlgorithmsAt, word16. rewrite Hv, Z.add_0_r, Z.sub_0_r.
  reflexivity.
Qed.

Lemma handleAll_signatureAlgorithms_absent (buffer : list byte)
    (records : list (Z * Z)) (st st' : extensions) :
  List.filter isSignatureAlgorithms records = [] ->
  handleAll buffer records st = Return st' ->
  signatureAlgorithms st' = signatureAlgorithms st.
Proof.
  revert st. induction records as [|[t o] rest IH]; intros st Hf H.
  - injection H as <-. reflexivity.
  - cbn [List.filter] in Hf. unfold isSignatureAlgorithms at 1 in Hf.
    cbn [fst] in Hf. destruct (t =? 13) eqn:E; [discriminate|].
    cbn [handleAll] in H. inv_bind H. rewrite (IH _ Hf H).
    destruct (negb (has GREASE_VALUES t)).
    + apply extension_signatureAlgorithms in Hv. rewrite E in Hv. exact Hv.
    + injection Hv as <-. reflexivity.
Qed.

Lemma handleAll_signatureAlgorithms_once (buffer : list byte)
    (records : list (Z * Z)) (payload : Z) (st st' : extensions) :
  List.filter isSignatureAlgorithms records = [(0x000d, payload)] ->
  handleAll buffer records st = Return st' ->
  signatureAlgorithms st'
  = signatureAlgorithms st ++ signatureAlgorithmsAt buffer payload.
Proof.
  revert st. induction records as [|[t o] rest IH]; intros st Hf H.
  - discriminate.
  - cbn [List.filter] in Hf. unfold isSignatureAlgorithms at 1 in Hf.
    cbn [fst] in Hf. cbn [handleAll] in H. inv_bind H.
    destruct (Z.eqb_spec t 13) as [->|Hne].
    + injection Hf as -> Hf.
      rewrite (handleAll_signatureAlgorithms_absent _ _ _ _ Hf H).
      change (negb (has GREASE_VALUES 13)) with true in Hv.
      apply extension_signatureAlgorithms in Hv. exact Hv.
    + assert (E : signatureAlgorithms v = signatureAlgorithms st).
      { destruct (negb (has GREASE_VALUES t)).
        - apply extension_signatureAlgorithms in Hv.
          destruct (Z.eqb_spec t 13); [contradiction | exact Hv].
        - injection Hv as <-. reflexivity. }
      rewrite <- E. apply IH; assumption.
Qed.

Lemma extension_supportedVersions (buffer : list byte) (extType payload : Z)
    (st st' : extensions) :
  extension buffer extType payload st = Return st' ->
  supportedVersions st'
  = if extType =? 0x002b
    then supportedVersions st ++ supportedVersionsAt buffer payload
    else supportedVersions st.
Proof.
  unfold extension. intros H.
  destruct (Z.eqb_spec extType 0) as [->|_]; [injection H as <-; reflexivity|].
  destruct (Z.eqb_spec extType 16) as [->|_];
    [inv_bind H; injection H as <-; reflexivity|].
  destruct (Z.eqb_spec extType 43) as [->|N].
  - inv_bind H. inv_bind H. injection H as <-. cbn [supportedVersions].
    apply collect16_Return in Hv0. rewrite Hv0, map_id.
    unfold supportedVersionsAt, byteAt. rewrite Hv, Z.add_0_r, Z.sub_0_r.
    reflexivity.
  - destruct (Z.eqb_spec extType 13) as [->|_];
      [inv_bind H; inv_bind H; injection H as <-; reflexivity|].
    injection H as <-. reflexivity.
Qed.

Lemma handleAll_supportedVersions_absent (buffer : list byte)
    (records : list (Z * Z)) (st st' : extensions) :
  List.filter isSupportedVersions records = [] ->
  handleAll buffer records st = Return st' ->
  supportedVersions st' = supportedVersions st.
Proof.
  revert st. induction records as [|[t o] rest IH]; intros st Hf H.
  - injection H as <-. reflexivity.
  - cbn [List.filter] in Hf. unfold isSupportedVersions at 1 in Hf.
    cbn [fst] in Hf. destruct (t =? 43) eqn:E; [discriminate|].
    cbn [handleAll] in H. inv_bind H. rewrite (IH _ Hf H).
    destruct (negb (has GREASE_VALUES t)).
    + apply extension_supportedVersions in Hv. rewrite E in Hv. exact Hv.
    + injection Hv as <-. reflexivity.
Qed.

Lemma handleAll_supportedVersions_once (buffer : list byte)
    (records : list (Z * Z)) (payload : Z) (st st' : extensions) :
  List.filter isSupportedVersions records = [(0x002b, payload)] ->
  handleAll buffer records st = Return st' ->
  supportedVersions st'
  = supportedVersions st ++ supportedVersionsAt buffer payload.
Proof.
  revert st. induction records as [|[t o] rest IH]; intros st Hf H.
  - discriminate.
  - cbn [List.filter] in Hf. unfold isSupportedVersions at 1 in Hf.
    cbn [fst] in Hf. cbn [handleAll] in H. inv_bind H.
    destruct (Z.eqb_spec t 43) as [->|Hne].
    + injection Hf as -> Hf.
      rewrite (handleAll_supportedVersions_absent _ _ _ _ Hf H).
      change (negb (has GREASE_VALUES 43)) with true in Hv.
      apply extension_supportedVersions in Hv. exact Hv.
    + assert (E : supportedVersions v = supportedVersions st).
      { destruct (negb (has GREASE_VALUES t)).
        - apply extension_supportedVersions in Hv.
          destruct (Z.eqb_spec t 43); [contradiction | exact Hv].
        - injection Hv as <-. reflexivity. }
      rewrite <- E. apply IH; assumption.
Qed.

Lemma toString16_digit (d : Z) :
  0 <= d < 16 -> toString 16 d = String (hexDigit d) "".
Proof.
  intros Hd.
  assert (E : In d (map Z.of_nat (seq 0 16)))
    by (apply in_map_iff; exists (Z.to_nat d); split; [lia | apply in_seq; lia]).
  simpl in E. intuition (subst; reflexivity).
Qed.

Lemma nibbles (first last : Z) :
  0 <= first < 256 -> 0 <= last < 256 ->
  toString 16 (Z.land (Z.shiftr first 4) 0x0F) +:+ toString 16 (Z.land last 0x0F)
  = String (hexDigit (first / 16)) (String (hexDigit (last mod 16)) "").
Proof.
  intros Hf Hl.
  change 0x0F with (Z.ones 4). rewrite !Z.land_ones by lia.
  rewrite Z.shiftr_div_pow2 by lia. change (2 ^ 4) with 16.
  assert (Hq : 0 <= first / 16 < 16)
    by (split; [apply Z.div_pos; lia | apply Z.div_lt_upper_bound; lia]).
  rewrite (Z.mod_small (first / 16)) by exact Hq.
  rewrite !toString16_digit by (try exact Hq; apply Z.mod_pos_bound; lia).
  reflexivity.
Qed.

Lemma last_cons_default {A : Type} (x d : A) (rest : list A) :
  List.last rest x = List.last (x :: rest) d.
Proof.
  destruct rest as [|y rest]; [reflexivity|].
  cbn [List.last]. revert y. induction rest as [|z rest IH]; intros y.
  - reflexivity.
  - cbn [List.last] in *. apply IH.
Qed.

Lemma bytesAt_first_last (buffer : list byte) (offset : Z) (n : nat) :
  exists rest,
    bytesAt buffer offset (S n) = byteAt buffer offset :: rest
    /\ List.last rest (byteAt buffer offset) = byteAt buffer (offset + Z.of_nat n).
Proof.
  unfold bytesAt.
  set (f := fun k => byteAt buffer (offset + Z.of_nat k)).
  assert (E0 : f 0%nat = byteAt buffer offset) by (unfold f; f_equal; lia).
  exists (map f (seq 1 n)). rewrite <- E0. split; [reflexivity|].
  rewrite (last_cons_default _ 0).
  change (f 0%nat :: map f (seq 1 n)) with (map f (seq 0 (S n))).
  rewrite seq_S, map_app. cbn [map Nat.add]. rewrite last_last. reflexivity.
Qed.

(** The ALPN branch computes the rule of the spec on the first protocol,
    and keeps the former code when there is no first protocol or it is
    empty. *)
Lemma alpnExtension_keep_or_code (buffer : list byte) (payload : Z)
    (former a : string) :
  alpnExtension buffer payload former = Return a ->
  a = keepOrCode former (firstProtocol buffer payload).
Proof.
  unfold alpnExtension, firstProtocol. intros H.
  inv_bind H. unfold word16. rewrite Hv.
  apply getUint16_Return in Hv. destruct Hv as (_ & _ & Hrange & _).
  destruct (Z.ltb_spec (payload + 2) (payload + 2 + v)) as [Hpos|Hzero].
  2: { injection H as <-. destruct (Z.eqb_spec v 0); [reflexivity | lia]. }
  destruct (Z.eqb_spec v 0); [lia|].
  inv_bind H. unfold byteAt at 1. rewrite Hv.
  destruct (Z.ltb_spec 0 v0) as [Hlen|Hlen].
  2: { injection H as <-. apply getUint8_Return in Hv.
       replace v0 with 0 by lia. reflexivity. }
  inv_bind H. inv_bind H.
  assert (Ef : byteAt buffer (payload + 3) = v1).
  { unfold byteAt. replace (payload + 3) with (payload + 2 + 1) by lia.
    rewrite Hv0. reflexivity. }
  assert (El : byteAt buffer (payload + 3 + Z.of_nat (Z.to_nat (v0 - 1))) = v2).
  { unfold byteAt.
    replace (payload + 3 + Z.of_nat (Z.to_nat (v0 - 1)))
      with (payload + 2 + 1 + v0 - 1) by lia.
    rewrite Hv1. reflexivity. }
  replace (Z.to_nat v0) with (S (Z.to_nat (v0 - 1))) by lia.
  destruct (bytesAt_first_last buffer (payload + 3) (Z.to_nat (v0 - 1)))
    as (rest & -> & Hlast).
  cbn [keepOrCode alpnCode]. rewrite Hlast, El, Ef.
  apply getUint8_Return in Hv0, Hv1.
  unfold isPrintableAscii in H.
  destruct (32 <=? v1), (v1 <=? 126), (32 <=? v2), (v2 <=? 126);
    cbn [andb] in H |- *; injection H as <-;
    first [reflexivity | apply nibbles; tauto].
Qed.

Lemma alpnExtension_alpnCode (buffer : list byte) (payload : Z) (a : string) :
  alpnExtension buffer payload "00" = Return a ->
  a = alpnCode (firstProtocol buffer payload).
Proof.
  intros H. apply alpnExtension_keep_or_code in H. subst a.
  destruct (firstProtocol buffer payload) as [[|first rest]|]; reflexivity.
Qed.

(** Whatever the number of ALPN records, the code after the loop is that of
    the last one whose first protocol is not empty. *)
Lemma handleAll_alpn (buffer : list byte) (records : list (Z * Z))
    (st st' : extensions) :
  handleAll buffer records st = Return st' ->
  alpn st' = fold_left (alpnStep buffer) records (alpn st).
Proof.
  revert st. induction records as [|[t o] rest IH]; intros st H.
  - injection H as <-. reflexivity.
  - cbn [handleAll] in H. inv_bind H. rewrite (IH _ H). cbn [fold_left].
    f_equal. unfold alpnStep, isAlpn. cbn [fst snd].
    destruct (Z.eqb_spec t 16) as [->|Hne].
    + change (negb (has GREASE_VALUES 16)) with true in Hv.
      apply extension_alpn in Hv. cbn in Hv.
      apply alpnExtension_keep_or_code in Hv. exact Hv.
    + destruct (negb (has GREASE_VALUES t)).
      * apply extension_alpn in Hv.
        destruct (Z.eqb_spec t 16); [contradiction | exact Hv].
      * injection Hv as <-. reflexivity.
Qed.

(** ** Strings *)

Lemma append_assoc (s1 s2 s3 : string) : (s1 +:+ s2) +:+ s3 = s1 +:+ s2 +:+ s3.
Proof.
  induction s1 as [|c s1 IH]; [reflexivity|].
  change (String c ((s1 +:+ s2) +:+ s3) = String c (s1 +:+ s2 +:+ s3)).
  f_equal. exact IH.
Qed.

Lemma substring_0_0 (s : string) : String.substring 0 0 s = "".
Proof. destruct s; reflexivity. Qed.

Lemma ptype_cases (proto : string) : ptype proto = "q" \/ ptype proto = "t".
Proof. unfold ptype. destruct (String.eqb proto "quic"); auto. Qed.

Lemma versionTable_cases (v : Z) :
  In (versionTable v) ["s2"; "s3"; "10"; "11"; "12"; "13"; "00"].
Proof.
  unfold versionTable.
  repeat match goal with |- context [if ?b then _ else _] => destruct b end;
    simpl; tauto.
Qed.

Lemma notSniAlpn_spec (ext : string) :
  notSniAlpn ext = true <-> ext <> "0000" /\ ext <> "0010".
Proof.
  unfold notSniAlpn. rewrite andb_true_iff, !negb_true_iff.
  split; intros [H1 H2]; split.
  - intros ->. discriminate.
  - intros ->. discriminate.
  - apply String.eqb_neq. exact H1.
  - apply String.eqb_neq. exact H2.
Qed.

(** ** The concrete handshakes, evaluated *)

Example browserHello_parse :
  parseClientHello browserHello
  = Return (ClientHello "12" ["1301"; "1302"; "1303"]
              (Extensions ["0000"; "0010"; "002b"; "000d"] "d" "h2"
                 ["0403"; "0804"] [0x0304; 0x0303])).
Proof. vm_compute. reflexivity. Qed.

Example browserHello_fingerprint :
  getJA4Fingerprint browserHello "tcp"
  = ([ LogDebug "JA4: t13d0304h2_55b375c5d22e_ef5f37ab036a";
       LogDebug "JA4_r: t13d0304h2_1301,1302,1303_000d,002b_0403,0804" ],
     Return "t13d0304h2_55b375c5d22e_ef5f37ab036a").
Proof. vm_compute. reflexivity. Qed.

Example browserHello_records :
  extensionBlock browserHello = Return [(0, 57); (16, 61); (43, 70); (13, 79)].
Proof. vm_compute. reflexivity. Qed.

Example emptyHello_fingerprint :
  snd (getJA4Fingerprint emptyHello "quic")
  = Return "q00i000000_e3b0c44298fc_e3b0c44298fc".
Proof. vm_compute. reflexivity. Qed.

Example short_buffer_throws :
  getJA4Fingerprint (repeat x00 43) "tcp"
  = ([LogError "Error in getJA4Fingerprint: " RangeError], Throw RangeError).
Proof. vm_compute. reflexivity. Qed.

Example sort_is_lexicographic : sort [hex4 0x0301; hex4 0x00ff] = ["00ff"; "0301"].
Proof. vm_compute. reflexivity. Qed.

(** * The claims *)

Lemma getJA4Fingerprint_app (buffer extra : list byte) (proto fp : string) :
  snd (getJA4Fingerprint buffer proto) = Return fp ->
  snd (getJA4Fingerprint (buffer ++ extra) proto) = Return fp.
Proof.
  rewrite !getJA4Fingerprint_Return. intros (h & P & ->).
  exists h. split; [apply parseClientHello_app; exact P | reflexivity].
Qed.

Lemma getJA4Fingerprint_total (buffer : list byte) (proto : string) :
  getJA4Fingerprint buffer proto
  = ([LogError "Error in getJA4Fingerprint: " RangeError], Throw RangeError)
  \/ exists fp, snd (getJA4Fingerprint buffer proto) = Return fp.
Proof.
  destruct (snd (getJA4Fingerprint buffer proto)) as [fp|e] eqn:E.
  - right. exists fp. reflexivity.
  - left. pose proof E as E'. apply getJA4Fingerprint_Throw in E'.
    apply parseClientHello_Throw in E'. subst e.
    unfold getJA4Fingerprint in *.
    destruct (tryBlock buffer proto) as [[log ja4]|e]; [discriminate|].
    cbn [snd] in E. injection E as ->. reflexivity.
Qed.

(** C1, as the code has it. The length fields are not compared with the
    remaining buffer; what is checked is each read, by the [DataView]
    accessor, against the whole buffer. So for every buffer the parser
    either throws [RangeError], logged and thrown again, or returns a
    fingerprint, and then: the session id, the cipher suites, the
    compression methods and the extensions length field lie inside the
    buffer, and the fingerprint is the same whatever bytes are appended to
    the buffer, that is, no byte past the end was read. *)
Theorem C1_reads_are_bounds_checked (buffer : list byte) (proto : string) :
  getJA4Fingerprint buffer proto
  = ([LogError "Error in getJA4Fingerprint: " RangeError], Throw RangeError)
  \/ exists fp,
       snd (getJA4Fingerprint buffer proto) = Return fp
       /\ (exists sid cs comp : Z,
             getUint8 buffer 38 = Return sid
             /\ getUint16 buffer (39 + sid) = Return cs
             /\ getUint8 buffer (41 + sid + cs) = Return comp
             /\ 44 + sid + cs + comp <= Z.of_nat (length buffer))
       /\ forall extra,
            snd (getJA4Fingerprint (buffer ++ extra) proto) = Return fp.
Proof.
  destruct (getJA4Fingerprint_total buffer proto) as [H|(fp & H)];
    [left; exact H | right].
  exists fp. split; [exact H | split].
  - apply getJA4Fingerprint_Return in H. destruct H as (h & P & _).
    eapply parseClientHello_length. exact P.
  - intros extra. apply getJA4Fingerprint_app. exact H.
Qed.

(** C1 fails as stated: the only extension of [overlongExtension] declares
    65535 bytes of payload, the buffer ends right after the record header,
    and a fingerprint is returned. *)
Lemma C1_counterexample :
  Z.of_nat (length overlongExtension) = 48
  /\ extensionBlock overlongExtension = Return [(0x0015, 48)]
  /\ getUint16 overlongExtension 46 = Return 65535
  /\ Z.of_nat (length overlongExtension) < 48 + 65535
  /\ snd (getJA4Fingerprint overlongExtension "tcp")
     = Return "t00i000100_e3b0c44298fc_4298e3b3ed58".
Proof. vm_compute. repeat split; reflexivity. Qed.

(** A buffer of fewer than 44 bytes never yields a fingerprint. *)
Corollary short_buffer (buffer : list byte) (proto : string) :
  (length buffer < 44)%nat ->
  snd (getJA4Fingerprint buffer proto) = Throw RangeError.
Proof.
  intros Hlen.
  destruct (getJA4Fingerprint_total buffer proto) as [H|(fp & H)];
    [rewrite H; reflexivity|].
  apply getJA4Fingerprint_Return in H. destruct H as (h & P & _).
  apply parseClientHello_length in P.
  destruct P as (sid & cs & comp & Hs & Hc & Hm & Hl).
  apply getUint8_Return in Hs, Hm. apply getUint16_Return in Hc. lia.
Qed.

Lemma parseClientHello_records (buffer : list byte) (h : clientHello) :
  parseClientHello buffer = Return h ->
  exists records,
    extensionBlock buffer = Return records
    /\ handleAll buffer records initialExtensions = Return (exts h).
Proof.
  intros P. apply parseClientHello_Return in P.
  destruct P as (legacy & sid & cs & comp & extLen & _ & Hs & Hc & Hm & He & _ & _ & Hl).
  apply extensionsLoop_records in Hl. destruct Hl as (records & Hr & Hh).
  exists records. split; [|exact Hh].
  unfold extensionBlock. rewrite Hs. cbn [bind]. rewrite Hc. cbn [bind].
  rewrite Hm. cbn [bind]. rewrite He. cbn [bind]. exact Hr.
Qed.

Lemma fingerprint_flat (h : clientHello) (proto : string) :
  fingerprint h proto
  = ptype proto +:+ effectiveVersion h +:+ sni (exts h) +:+ numCiphers h
    +:+ numExtensions h +:+ alpn (exts h)
    +:+ "_" +:+ ja4CipherHash h +:+ "_" +:+ ja4ExtensionHash h.
Proof. unfold fingerprint, ja4Base. rewrite !append_assoc. reflexivity. Qed.

Lemma version_substring (p code rest : string) :
  p = "q" \/ p = "t" ->
  In code ["s2"; "s3"; "10"; "11"; "12"; "13"; "00"] ->
  String.substring 1 2 (p +:+ code +:+ rest) = code.
Proof.
  intros Hp Hc. simpl in Hc.
  destruct Hp as [-> | ->];
    repeat (destruct Hc as [<-|Hc];
            [destruct rest; reflexivity|]);
    contradiction.
Qed.

Lemma maximum_pair (versions : list Z) :
  versions ≡ₚ [0x0303; 0x0304] -> maximum versions = Some 0x0304.
Proof.
  intros Hp.
  destruct (maximum versions) as [m|] eqn:M.
  - f_equal.
    assert (Hm : In m [771; 772])
      by (apply (Permutation_in (l := versions)); [exact Hp | eapply maximum_In; exact M]).
    assert (Hge : 772 <= m).
    { eapply maximum_ge; [exact M|].
      apply (Permutation_in (l := [771; 772])); [symmetry; exact Hp | simpl; auto]. }
    simpl in Hm. lia.
  - destruct versions; [|discriminate].
    apply Permutation_nil_l in Hp. discriminate.
Qed.

(** C2. The version code, characters 1 and 2 of the fingerprint, is the
    table entry of the largest supported version when the GREASE-filtered
    list of supported versions is not empty, and of the legacy version
    otherwise, ["00"] when the table has no entry; with supported versions
    0x0303 and 0x0304 it is ["13"], whatever the legacy version. The list
    of supported versions is empty without a record of type 0x002b, and
    with one it holds its values in wire order, GREASE values removed. *)
Theorem C2_version_code (buffer : list byte) (proto fp : string) :
  snd (getJA4Fingerprint buffer proto) = Return fp ->
  exists h legacy records code,
    parseClientHello buffer = Return h
    /\ getUint16 buffer 4 = Return legacy
    /\ extensionBlock buffer = Return records
    /\ (List.filter isSupportedVersions records = [] ->
        supportedVersions (exts h) = [])
    /\ (forall payload,
          List.filter isSupportedVersions records = [(0x002b, payload)] ->
          supportedVersions (exts h) = supportedVersionsAt buffer payload)
    /\ code = match maximum (supportedVersions (exts h)) with
              | Some highest => versionTable highest
              | None => versionTable legacy
              end
    /\ String.substring 1 2 fp = code
    /\ fp = ptype proto +:+ code +:+ sni (exts h) +:+ numCiphers h
            +:+ numExtensions h +:+ alpn (exts h)
            +:+ "_" +:+ ja4CipherHash h +:+ "_" +:+ ja4ExtensionHash h
    /\ (supportedVersions (exts h) ≡ₚ [0x0303; 0x0304] -> code = "13").
Proof.
  intros H. apply getJA4Fingerprint_Return in H. destruct H as (h & P & ->).
  destruct (parseClientHello_Return _ _ P)
    as (legacy & sid & cs & comp & extLen & Hl & _ & _ & _ & _ & Ht & _).
  destruct (parseClientHello_records _ _ P) as (records & Hr & Hh).
  exists h, legacy, records, (effectiveVersion h).
  assert (E : effectiveVersion h
              = match maximum (supportedVersions (exts h)) with
                | Some highest => versionTable highest
                | None => versionTable legacy
                end).
  { unfold effectiveVersion. rewrite Ht. reflexivity. }
  split; [exact P|]. split; [exact Hl|]. split; [exact Hr|].
  split; [intros Hf; apply (handleAll_supportedVersions_absent _ _ _ _ Hf Hh)|].
  split; [intros payload Hf;
          apply (handleAll_supportedVersions_once _ _ _ _ _ Hf Hh)|].
  split; [exact E|]. split; [|split].
  - rewrite fingerprint_flat. apply version_substring; [apply ptype_cases|].
    rewrite E. destruct (maximum _); apply versionTable_cases.
  - apply fingerprint_flat.
  - intros Hp. rewrite E, (maximum_pair _ Hp). reflexivity.
Qed.

Lemma C2_witness :
  snd (getJA4Fingerprint browserHello "tcp")
  = Return "t13d0304h2_55b375c5d22e_ef5f37ab036a"
  /\ exists h legacy records code,
       parseClientHello browserHello = Return h
       /\ getUint16 browserHello 4 = Return legacy
       /\ extensionBlock browserHello = Return records
       /\ (List.filter isSupportedVersions records = [] ->
           supportedVersions (exts h) = [])
       /\ (forall payload,
             List.filter isSupportedVersions records = [(0x002b, payload)] ->
             supportedVersions (exts h) = supportedVersionsAt browserHello payload)
       /\ code = match maximum (supportedVersions (exts h)) with
                 | Some highest => versionTable highest
                 | None => versionTable legacy
                 end
       /\ String.substring 1 2 "t13d0304h2_55b375c5d22e_ef5f37ab036a" = code
       /\ "t13d0304h2_55b375c5d22e_ef5f37ab036a"
          = ptype "tcp" +:+ code +:+ sni (exts h) +:+ numCiphers h
            +:+ numExtensions h +:+ alpn (exts h)
            +:+ "_" +:+ ja4CipherHash h +:+ "_" +:+ ja4ExtensionHash h
       /\ (supportedVersions (exts h) ≡ₚ [0x0303; 0x0304] -> code = "13").
Proof.
  split; [vm_compute; reflexivity|].
  apply (C2_version_code browserHello "tcp"). vm_compute. reflexivity.
Defined.

(** A ClientHello whose legacy version is TLS 1.2 and whose supported
    versions are a GREASE value, 0x0304 and 0x0303. *)
Example supported_versions_override :
  supportedVersionsAt
    ([ x06; x3a; x3a; x03; x04; x03; x03 ] : list byte) 0 = [0x0304; 0x0303]
  /\ maximum [0x0304; 0x0303] = Some 0x0304
  /\ versionTable 0x0304 = "13".
Proof. vm_compute. repeat split; reflexivity. Qed.

(** C3. Without an ALPN extension the code is ["00"]; with one, it is the
    rule of the spec applied to the first protocol of its list: ["00"] when
    the list is empty or the protocol has length 0, the first and last
    bytes as characters when both are printable ASCII, and otherwise the
    high nibble of the first byte and the low nibble of the last, in
    hexadecimal. Protocol [h2] gives ["h2"]. With any number of ALPN
    extensions the code is that of the last one whose first protocol is not
    empty. *)
Theorem C3_alpn_code (buffer : list byte) (h : clientHello) :
  parseClientHello buffer = Return h ->
  exists records,
    extensionBlock buffer = Return records
    /\ (List.filter isAlpn records = [] -> alpn (exts h) = "00")
    /\ (forall payload,
          List.filter isAlpn records = [(0x0010, payload)] ->
          alpn (exts h) = alpnCode (firstProtocol buffer payload))
    /\ alpn (exts h) = fold_left (alpnStep buffer) records "00"
    /\ alpnCode None = "00"
    /\ alpnCode (Some []) = "00"
    /\ alpnCode (Some [0x68; 0x32]) = "h2".
Proof.
  intros P. destruct (parseClientHello_records _ _ P) as (records & Hr & Hh).
  exists records. split; [exact Hr|].
  split; [|split; [|split; [|repeat split]]].
  - intros Hf. apply (handleAll_alpn_absent _ _ _ _ Hf Hh).
  - intros payload Hf.
    apply alpnExtension_alpnCode.
    apply (handleAll_alpn_once _ _ _ _ _ Hf Hh).
  - apply (handleAll_alpn _ _ _ _ Hh).
Qed.

Lemma C3_witness :
  parseClientHello browserHello
  = Return (ClientHello "12" ["1301"; "1302"; "1303"]
              (Extensions ["0000"; "0010"; "002b"; "000d"] "d" "h2"
                 ["0403"; "0804"] [0x0304; 0x0303]))
  /\ exists records,
       extensionBlock browserHello = Return records
       /\ (List.filter isAlpn records = [] -> "h2" = "00")
       /\ (forall payload,
             List.filter isAlpn records = [(0x0010, payload)] ->
             "h2" = alpnCode (firstProtocol browserHello payload))
       /\ "h2" = fold_left (alpnStep browserHello) records "00"
       /\ alpnCode None = "00"
       /\ alpnCode (Some []) = "00"
       /\ alpnCode (Some [0x68; 0x32]) = "h2".
Proof.
  split; [vm_compute; reflexivity|].
  apply (C3_alpn_code browserHello
           (ClientHello "12" ["1301"; "1302"; "1303"]
              (Extensions ["0000"; "0010"; "002b"; "000d"] "d" "h2"
                 ["0403"; "0804"] [0x0304; 0x0303]))).
  vm_compute. reflexivity.
Defined.

Example browserHello_alpn :
  List.filter isAlpn [(0, 57); (16, 61); (43, 70); (13, 79)] = [(16, 61)]
  /\ firstProtocol browserHello 61 = Some [0x68; 0x32].
Proof. vm_compute. split; reflexivity. Qed.

Example twoAlpnHello_alpn :
  extensionBlock twoAlpnHello = Return [(16, 48); (16, 57)]
  /\ firstProtocol twoAlpnHello 48 = Some [0x68; 0x32]
  /\ firstProtocol twoAlpnHello 57 = None
  /\ parseClientHello twoAlpnHello
     = Return (ClientHello "00" [] (Extensions ["0010"; "0010"] "i" "h2" [] [])).
Proof. vm_compute. repeat split; reflexivity. Qed.

(** A protocol identifier that starts with a byte outside printable ASCII. *)
Example alpnCode_nibbles : alpnCode (Some [0x01; 0x68; 0xAB]) = "0b".
Proof. reflexivity. Qed.

Lemma map_hex4_fixed4 (values : list Z) :
  Forall wireValue values -> map hex4 values = map fixed4 values.
Proof.
  induction 1 as [|v values [Hv _] _ IH]; [reflexivity|].
  cbn [map]. rewrite IH, (hex4_fixed v Hv). reflexivity.
Qed.

Lemma extensionRecords_range (fuel : nat) (buffer : list byte)
    (extensionsEndIndex currentIndex : Z) (records : list (Z * Z)) :
  extensionRecords fuel buffer extensionsEndIndex currentIndex = Return records ->
  Forall (fun v => 0 <= v < 65536) (map fst records).
Proof.
  revert currentIndex records. induction fuel as [|fuel IH]; intros cur records H.
  - simpl in H. destruct (cur <? extensionsEndIndex); [discriminate|].
    injection H as <-. constructor.
  - cbn [extensionRecords] in H.
    destruct (cur <? extensionsEndIndex); [|injection H as <-; constructor].
    inv_bind H. inv_bind H. inv_bind H. injection H as <-.
    cbn [map fst]. constructor; [|eapply IH; exact Hv1].
    apply getUint16_Return in Hv. tauto.
Qed.

Lemma filter_notGrease_wireValue (values : list Z) :
  Forall (fun v => 0 <= v < 65536) values ->
  Forall wireValue (List.filter notGrease values).
Proof.
  induction 1 as [|v values Hv _ IH]; cbn [List.filter]; [constructor|].
  destruct (notGrease v) eqn:E; [|exact IH].
  constructor; [|exact IH]. split; [exact Hv | apply notGrease_spec; exact E].
Qed.

(** The extension types a successful parse has collected are those of the
    records on the wire, GREASE values removed, four digits each. *)
Lemma parseClientHello_extensionsList (buffer : list byte) (h : clientHello)
    (records : list (Z * Z)) :
  parseClientHello buffer = Return h ->
  extensionBlock buffer = Return records ->
  extensionsList (exts h) = map fixed4 (List.filter notGrease (map fst records)).
Proof.
  intros P Hr. destruct (parseClientHello_records _ _ P) as (records' & Hr' & Hh).
  rewrite Hr in Hr'. injection Hr' as <-.
  rewrite (handleAll_extensionsList _ _ _ _ Hh). cbn [initialExtensions extensionsList app].
  apply map_hex4_fixed4. apply filter_notGrease_wireValue.
  unfold extensionBlock in Hr. do 4 (inv_bind Hr).
  eapply extensionRecords_range. exact Hr.
Qed.

Lemma extensionHashInput_spec (h : clientHello) :
  extensionHashInput h
  = extensionInput (hashExtensions h) (signatureAlgorithms (exts h)).
Proof.
  unfold extensionHashInput, extensionInput.
  destruct (signatureAlgorithms (exts h)); reflexivity.
Qed.

(** C4. The third component is the truncated hash of: the extension types
    of the records on the wire (GREASE values removed, four hexadecimal
    digits each) without ["0000"] and ["0010"], duplicates kept, in
    lexicographic order, joined by commas; followed, exactly when there are
    signature algorithms, by ["_"] and the signature algorithms joined by
    commas in wire order. *)
Theorem C4_extension_hash_input (buffer : list byte) (proto fp : string) :
  snd (getJA4Fingerprint buffer proto) = Return fp ->
  exists h records sorted,
    parseClientHello buffer = Return h
    /\ extensionBlock buffer = Return records
    /\ extensionsList (exts h)
       = map fixed4 (List.filter notGrease (map fst records))
    /\ (List.filter isSignatureAlgorithms records = [] ->
        signatureAlgorithms (exts h) = [])
    /\ (forall payload,
          List.filter isSignatureAlgorithms records = [(0x000d, payload)] ->
          signatureAlgorithms (exts h) = signatureAlgorithmsAt buffer payload)
    /\ sorted ≡ₚ List.filter notSniAlpn (extensionsList (exts h))
    /\ (forall ext, notSniAlpn ext = true <-> ext <> "0000" /\ ext <> "0010")
    /\ StronglySorted stringLe sorted
    /\ fp = ja4Base h proto (effectiveVersion h) +:+ "_" +:+ ja4CipherHash h
            +:+ "_"
            +:+ truncatedHash
                  (extensionInput sorted (signatureAlgorithms (exts h))).
Proof.
  intros H. apply getJA4Fingerprint_Return in H. destruct H as (h & P & ->).
  destruct (parseClientHello_records _ _ P) as (records & Hr & Hh).
  exists h, records, (hashExtensions h).
  split; [exact P|]. split; [exact Hr|].
  split; [apply (parseClientHello_extensionsList _ _ _ P Hr)|].
  split; [intros Hf; apply (handleAll_signatureAlgorithms_absent _ _ _ _ Hf Hh)|].
  split; [intros payload Hf;
          apply (handleAll_signatureAlgorithms_once _ _ _ _ _ Hf Hh)|].
  split; [apply sort_Permutation|].
  split; [intros ext; apply notSniAlpn_spec|].
  split; [apply sort_Sorted|].
  unfold fingerprint, ja4ExtensionHash. rewrite extensionHashInput_spec.
  reflexivity.
Qed.

Lemma C4_witness :
  snd (getJA4Fingerprint browserHello "tcp")
  = Return "t13d0304h2_55b375c5d22e_ef5f37ab036a"
  /\ exists h records sorted,
       parseClientHello browserHello = Return h
       /\ extensionBlock browserHello = Return records
       /\ extensionsList (exts h)
          = map fixed4 (List.filter notGrease (map fst records))
       /\ (List.filter isSignatureAlgorithms records = [] ->
           signatureAlgorithms (exts h) = [])
       /\ (forall payload,
             List.filter isSignatureAlgorithms records = [(0x000d, payload)] ->
             signatureAlgorithms (exts h) = signatureAlgorithmsAt browserHello payload)
       /\ sorted ≡ₚ List.filter notSniAlpn (extensionsList (exts h))
       /\ (forall ext, notSniAlpn ext = true <-> ext <> "0000" /\ ext <> "0010")
       /\ StronglySorted stringLe sorted
       /\ "t13d0304h2_55b375c5d22e_ef5f37ab036a"
          = ja4Base h "tcp" (effectiveVersion h) +:+ "_" +:+ ja4CipherHash h
            +:+ "_"
            +:+ truncatedHash
                  (extensionInput sorted (signatureAlgorithms (exts h))).
Proof.
  split; [vm_compute; reflexivity|].
  apply (C4_extension_hash_input browserHello "tcp"). vm_compute. reflexivity.
Defined.

Example browserHello_extension_input :
  extensionInput ["000d"; "002b"] ["0403"; "0804"] = "000d,002b_0403,0804"
  /\ truncatedHash "000d,002b_0403,0804" = "ef5f37ab036a".
Proof. vm_compute. split; reflexivity. Qed.

(** C5. The second component is the truncated hash of the cipher suites on
    the wire, GREASE values removed, each as four lowercase hexadecimal
    digits, in lexicographic order of these strings, joined by commas;
    ["00ff"] sorts before ["0301"]. *)
Theorem C5_cipher_hash_input (buffer : list byte) (proto fp : string) :
  snd (getJA4Fingerprint buffer proto) = Return fp ->
  exists h sid cs sorted,
    parseClientHello buffer = Return h
    /\ getUint8 buffer 38 = Return sid
    /\ getUint16 buffer (39 + sid) = Return cs
    /\ cipherSuites h
       = map fixed4 (List.filter notGrease (wire16 buffer (41 + sid) (steps16 cs)))
    /\ sorted ≡ₚ cipherSuites h
    /\ StronglySorted stringLe sorted
    /\ fp = ja4Base h proto (effectiveVersion h)
            +:+ "_" +:+ truncatedHash (join "," sorted)
            +:+ "_" +:+ ja4ExtensionHash h
    /\ sort [hex4 0x0301; hex4 0x00ff] = ["00ff"; "0301"].
Proof.
  intros H. apply getJA4Fingerprint_Return in H. destruct H as (h & P & ->).
  destruct (parseClientHello_Return _ _ P)
    as (legacy & sid & cs & comp & extLen & _ & Hs & Hc & _ & _ & _ & Hl & _).
  exists h, sid, cs, (sort (cipherSuites h)).
  split; [exact P|]. split; [exact Hs|]. split; [exact Hc|].
  split; [rewrite Hl; apply map_hex4_fixed4; apply wire16_filtered|].
  split; [apply sort_Permutation|].
  split; [apply sort_Sorted|].
  split; [reflexivity | vm_compute; reflexivity].
Qed.

Lemma C5_witness :
  snd (getJA4Fingerprint browserHello "tcp")
  = Return "t13d0304h2_55b375c5d22e_ef5f37ab036a"
  /\ exists h sid cs sorted,
       parseClientHello browserHello = Return h
       /\ getUint8 browserHello 38 = Return sid
       /\ getUint16 browserHello (39 + sid) = Return cs
       /\ cipherSuites h
          = map fixed4 (List.filter notGrease
                          (wire16 browserHello (41 + sid) (steps16 cs)))
       /\ sorted ≡ₚ cipherSuites h
       /\ StronglySorted stringLe sorted
       /\ "t13d0304h2_55b375c5d22e_ef5f37ab036a"
          = ja4Base h "tcp" (effectiveVersion h)
            +:+ "_" +:+ truncatedHash (join "," sorted)
            +:+ "_" +:+ ja4ExtensionHash h
       /\ sort [hex4 0x0301; hex4 0x00ff] = ["00ff"; "0301"].
Proof.
  split; [vm_compute; reflexivity|].
  apply (C5_cipher_hash_input browserHello "tcp"). vm_compute. reflexivity.
Defined.

Lemma greaseList_spec (g : Z) : In g greaseList -> g ∈ GREASE_VALUES /\ 0 <= g < 65536.
Proof.
  intros H. split.
  - unfold GREASE_VALUES. apply elem_of_list_to_set. apply list_elem_of_In. exact H.
  - simpl in H. intuition lia.
Qed.

Lemma wireHex_not_grease (g : Z) (l : list string) :
  In g greaseList -> Forall wireHex l -> ~ In (fixed4 g) l.
Proof.
  intros Hg Hl Hin. apply greaseList_spec in Hg. destruct Hg as [Hg Hr].
  rewrite Forall_forall in Hl. apply list_elem_of_In in Hin.
  destruct (Hl _ Hin) as (v & [Hv Hn] & E).
  rewrite <- (hex4_fixed g Hr) in E. apply hex4_inj in E; [|exact Hr|exact Hv].
  subst v. contradiction.
Qed.

(** C6. After a successful parse no GREASE value is left: its four-digit
    rendering is in none of the cipher-suite, extension-type and
    signature-algorithm lists, and the value is not in the list of
    supported versions. *)
Theorem C6_grease_filtered (buffer : list byte) (h : clientHello) (g : Z) :
  parseClientHello buffer = Return h ->
  In g [ 0x0a0a; 0x1a1a; 0x2a2a; 0x3a3a; 0x4a4a; 0x5a5a; 0x6a6a; 0x7a7a;
         0x8a8a; 0x9a9a; 0xaaaa; 0xbaba; 0xcaca; 0xdada; 0xeaea; 0xfafa ] ->
  ~ In (fixed4 g) (cipherSuites h)
  /\ ~ In (fixed4 g) (extensionsList (exts h))
  /\ ~ In (fixed4 g) (signatureAlgorithms (exts h))
  /\ ~ In g (supportedVersions (exts h)).
Proof.
  intros P Hg.
  destruct (parseClientHello_filtered _ _ P) as (Hc & He & Hs & Hv).
  repeat split; try (apply wireHex_not_grease; assumption).
  intros Hin. apply greaseList_spec in Hg. destruct Hg as [Hg _].
  rewrite Forall_forall in Hv. apply list_elem_of_In in Hin.
  destruct (Hv _ Hin) as [_ Hn]. contradiction.
Qed.

Lemma C6_witness :
  parseClientHello browserHello
  = Return (ClientHello "12" ["1301"; "1302"; "1303"]
              (Extensions ["0000"; "0010"; "002b"; "000d"] "d" "h2"
                 ["0403"; "0804"] [0x0304; 0x0303]))
  /\ getUint16 browserHello 41 = Return 0x1a1a
  /\ In 0x1a1a greaseList
  /\ ~ In (fixed4 0x1a1a) ["1301"; "1302"; "1303"]
  /\ ~ In (fixed4 0x1a1a) ["0000"; "0010"; "002b"; "000d"]
  /\ ~ In (fixed4 0x1a1a) ["0403"; "0804"]
  /\ ~ In 0x1a1a [0x0304; 0x0303].
Proof.
  assert (P : parseClientHello browserHello
              = Return (ClientHello "12" ["1301"; "1302"; "1303"]
                          (Extensions ["0000"; "0010"; "002b"; "000d"] "d" "h2"
                             ["0403"; "0804"] [0x0304; 0x0303])))
    by (vm_compute; reflexivity).
  assert (G : In 0x1a1a greaseList) by (simpl; tauto).
  split; [exact P|]. split; [vm_compute; reflexivity|]. split; [exact G|].
  apply (C6_grease_filtered browserHello _ 0x1a1a P G).
Defined.

Lemma count2_rendered {A : Type} (xs : list A) : rendered xs (count2 xs).
Proof.
  split; intros H.
  - rewrite (count2_small xs H). split; reflexivity.
  - apply count2_large. exact H.
Qed.

(** C7, as the code has it. The two counts in the first component are the
    numbers of cipher suites and of extension records on the wire that are
    not GREASE values (SNI and ALPN records included), each padded with a
    zero to two decimal digits: exactly two digits up to 99, and the
    unpadded number, three digits or more, from 100 on. *)
Theorem C7_counts (buffer : list byte) (proto fp : string) :
  snd (getJA4Fingerprint buffer proto) = Return fp ->
  exists h sid cs records cc ee,
    parseClientHello buffer = Return h
    /\ getUint8 buffer 38 = Return sid
    /\ getUint16 buffer (39 + sid) = Return cs
    /\ extensionBlock buffer = Return records
    /\ cipherSuites h
       = map fixed4 (List.filter notGrease (wire16 buffer (41 + sid) (steps16 cs)))
    /\ extensionsList (exts h)
       = map fixed4 (List.filter notGrease (map fst records))
    /\ rendered (cipherSuites h) cc
    /\ rendered (extensionsList (exts h)) ee
    /\ fp = ptype proto +:+ effectiveVersion h +:+ sni (exts h) +:+ cc +:+ ee
            +:+ alpn (exts h)
            +:+ "_" +:+ ja4CipherHash h +:+ "_" +:+ ja4ExtensionHash h.
Proof.
  intros H. apply getJA4Fingerprint_Return in H. destruct H as (h & P & ->).
  destruct (parseClientHello_Return _ _ P)
    as (legacy & sid & cs & comp & extLen & _ & Hs & Hc & _ & _ & _ & Hl & _).
  destruct (parseClientHello_records _ _ P) as (records & Hr & _).
  exists h, sid, cs, records, (numCiphers h), (numExtensions h).
  split; [exact P|]. split; [exact Hs|]. split; [exact Hc|]. split; [exact Hr|].
  split; [rewrite Hl; apply map_hex4_fixed4; apply wire16_filtered|].
  split; [apply (parseClientHello_extensionsList _ _ _ P Hr)|].
  split; [apply count2_rendered|]. split; [apply count2_rendered|].
  apply fingerprint_flat.
Qed.

Lemma C7_witness :
  snd (getJA4Fingerprint browserHello "tcp")
  = Return "t13d0304h2_55b375c5d22e_ef5f37ab036a"
  /\ exists h sid cs records cc ee,
       parseClientHello browserHello = Return h
       /\ getUint8 browserHello 38 = Return sid
       /\ getUint16 browserHello (39 + sid) = Return cs
       /\ extensionBlock browserHello = Return records
       /\ cipherSuites h
          = map fixed4 (List.filter notGrease
                          (wire16 browserHello (41 + sid) (steps16 cs)))
       /\ extensionsList (exts h)
          = map fixed4 (List.filter notGrease (map fst records))
       /\ rendered (cipherSuites h) cc
       /\ rendered (extensionsList (exts h)) ee
       /\ "t13d0304h2_55b375c5d22e_ef5f37ab036a"
          = ptype "tcp" +:+ effectiveVersion h +:+ sni (exts h) +:+ cc +:+ ee
            +:+ alpn (exts h)
            +:+ "_" +:+ ja4CipherHash h +:+ "_" +:+ ja4ExtensionHash h.
Proof.
  split; [vm_compute; reflexivity|].
  apply (C7_counts browserHello "tcp"). vm_compute. reflexivity.
Defined.

(** C7 fails as stated: with one hundred cipher suites the count takes
    three digits. *)
Lemma C7_counterexample :
  exists h,
    parseClientHello hundredCiphers = Return h
    /\ length (cipherSuites h) = 100%nat
    /\ numCiphers h = "100"
    /\ String.length (numCiphers h) <> 2%nat
    /\ snd (getJA4Fingerprint hundredCiphers "tcp")
       = Return "t00i1000000_046e6d3d3438_e3b0c44298fc".
Proof.
  eexists. split; [vm_compute; reflexivity|].
  vm_compute. repeat split; try reflexivity. discriminate.
Qed.

(** [onClientRequest] on a non-empty ClientHello variable. *)
Lemma onClientRequest_nonempty (atob : string -> result string)
    (request : gmap string string) (client_hello : string) :
  request !! "PMUSER_TLS_CLIENT_HELLO" = Some client_hello ->
  client_hello <> "" ->
  onClientRequest atob request
  = match base64toUint8Array atob client_hello with
    | Throw error => (request, [], Throw error)
    | Return buffer =>
        match getJA4Fingerprint buffer
                (if truthy (request !! "PMUSER_QUIC_VERSION") then "quic" else "tcp")
        with
        | (log, Return fp) =>
            (<["PMUSER_JA4_FINGERPRINT" := fp]> request, log, Return (Some fp))
        | (log, Throw error) =>
            (request, log ++ [LogError "Error calculating JA4: " error], Return None)
        end
    end.
Proof.
  intros Hvar Hne. unfold onClientRequest. rewrite Hvar.
  assert (T : truthy (Some client_hello) = true)
    by (destruct client_hello; [contradiction | reflexivity]).
  rewrite T. reflexivity.
Qed.

Lemma getJA4Fingerprint_Throw_log (buffer : list byte) (proto : string) (e : exn) :
  snd (getJA4Fingerprint buffer proto) = Throw e ->
  getJA4Fingerprint buffer proto
  = ([LogError "Error in getJA4Fingerprint: " e], Throw e).
Proof.
  unfold getJA4Fingerprint.
  destruct (tryBlock buffer proto) as [[log ja4]|e']; cbn [snd]; [discriminate|].
  intros [= ->]. reflexivity.
Qed.

Lemma requestWith_hello (client_hello : string) :
  requestWith client_hello !! "PMUSER_TLS_CLIENT_HELLO" = Some client_hello.
Proof. apply lookup_singleton_eq. Qed.

Lemma requestWith_quic (client_hello : string) :
  requestWith client_hello !! "PMUSER_QUIC_VERSION" = None.
Proof. apply lookup_singleton_ne. discriminate. Qed.

Lemma requestWith_fingerprint (client_hello : string) :
  requestWith client_hello !! "PMUSER_JA4_FINGERPRINT" = None.
Proof. apply lookup_singleton_ne. discriminate. Qed.

(** C8, as the code has it. With a non-empty ClientHello variable: an
    exception of the decoder leaves [onClientRequest] as it is, towards the
    caller, and no variable has been written; an exception of
    [getJA4Fingerprint] is caught and logged, [onClientRequest] returns
    [undefined] and the request's variables are unchanged; on success the
    fingerprint is stored in [PMUSER_JA4_FINGERPRINT] and returned. *)
Theorem C8_stage_failures (atob : string -> result string)
    (request : gmap string string) (client_hello : string) :
  request !! "PMUSER_TLS_CLIENT_HELLO" = Some client_hello ->
  client_hello <> "" ->
  let proto :=
    if truthy (request !! "PMUSER_QUIC_VERSION") then "quic" else "tcp" in
  (forall error,
     base64toUint8Array atob client_hello = Throw error ->
     onClientRequest atob request = (request, [], Throw error))
  /\ (forall buffer error,
        base64toUint8Array atob client_hello = Return buffer ->
        snd (getJA4Fingerprint buffer proto) = Throw error ->
        onClientRequest atob request
        = (request,
           [ LogError "Error in getJA4Fingerprint: " error;
             LogError "Error calculating JA4: " error ],
           Return None))
  /\ (forall buffer fp,
        base64toUint8Array atob client_hello = Return buffer ->
        snd (getJA4Fingerprint buffer proto) = Return fp ->
        snd (onClientRequest atob request) = Return (Some fp)
        /\ fst (fst (onClientRequest atob request))
           = <["PMUSER_JA4_FINGERPRINT" := fp]> request).
Proof.
  intros Hvar Hne proto.
  rewrite (onClientRequest_nonempty atob request client_hello Hvar Hne).
  fold proto. split; [|split].
  - intros error ->. reflexivity.
  - intros buffer error -> Ht.
    rewrite (getJA4Fingerprint_Throw_log _ _ _ Ht). reflexivity.
  - intros buffer fp -> Hr.
    destruct (getJA4Fingerprint buffer proto) as [log r]. cbn [snd] in Hr.
    subst r. split; reflexivity.
Qed.

Lemma C8_witness :
  requestWith "AAAA" !! "PMUSER_TLS_CLIENT_HELLO" = Some "AAAA"
  /\ "AAAA" <> ""
  /\ (forall error,
        base64toUint8Array atobBase64 "AAAA" = Throw error ->
        onClientRequest atobBase64 (requestWith "AAAA")
        = (requestWith "AAAA", [], Throw error))
  /\ (forall buffer error,
        base64toUint8Array atobBase64 "AAAA" = Return buffer ->
        snd (getJA4Fingerprint buffer
               (if truthy (requestWith "AAAA" !! "PMUSER_QUIC_VERSION")
                then "quic" else "tcp")) = Throw error ->
        onClientRequest atobBase64 (requestWith "AAAA")
        = (requestWith "AAAA",
           [ LogError "Error in getJA4Fingerprint: " error;
             LogError "Error calculating JA4: " error ],
           Return None))
  /\ (forall buffer fp,
        base64toUint8Array atobBase64 "AAAA" = Return buffer ->
        snd (getJA4Fingerprint buffer
               (if truthy (requestWith "AAAA" !! "PMUSER_QUIC_VERSION")
                then "quic" else "tcp")) = Return fp ->
        snd (onClientRequest atobBase64 (requestWith "AAAA")) = Return (Some fp)
        /\ fst (fst (onClientRequest atobBase64 (requestWith "AAAA")))
           = <["PMUSER_JA4_FINGERPRINT" := fp]> (requestWith "AAAA")).
Proof.
  assert (H1 : requestWith "AAAA" !! "PMUSER_TLS_CLIENT_HELLO" = Some "AAAA")
    by (vm_compute; reflexivity).
  assert (H2 : "AAAA" <> "") by discriminate.
  split; [exact H1 | split; [exact H2|]].
  apply (C8_stage_failures atobBase64 (requestWith "AAAA") "AAAA" H1 H2).
Defined.

(** C8 fails as stated: the three bytes decoded from ["AAAA"] make the
    parser throw [RangeError], and [onClientRequest] returns [undefined]
    instead of passing the exception on. *)
Lemma C8_counterexample :
  base64toUint8Array atobBase64 "AAAA" = Return [x00; x00; x00]
  /\ snd (getJA4Fingerprint [x00; x00; x00] "tcp") = Throw RangeError
  /\ onClientRequest atobBase64 (requestWith "AAAA")
     = (requestWith "AAAA",
        [ LogError "Error in getJA4Fingerprint: " RangeError;
          LogError "Error calculating JA4: " RangeError ],
        Return None).
Proof.
  assert (E1 : base64toUint8Array atobBase64 "AAAA" = Return [x00; x00; x00])
    by (vm_compute; reflexivity).
  assert (E2 : getJA4Fingerprint [x00; x00; x00] "tcp"
               = ([LogError "Error in getJA4Fingerprint: " RangeError],
                  Throw RangeError))
    by (vm_compute; reflexivity).
  split; [exact E1 | split; [rewrite E2; reflexivity|]].
  rewrite (onClientRequest_nonempty atobBase64 (requestWith "AAAA") "AAAA"
             (requestWith_hello "AAAA") ltac:(discriminate)).
  rewrite E1, requestWith_quic. cbn [truthy]. rewrite E2. reflexivity.
Qed.

Example decode_failure_propagates :
  onClientRequest atobBase64 (requestWith "***")
  = (requestWith "***", [], Throw InvalidCharacterError).
Proof.
  rewrite (onClientRequest_nonempty atobBase64 (requestWith "***") "***"
             (requestWith_hello "***") ltac:(discriminate)).
  reflexivity.
Qed.

(** The handshake of [browserHello] in base64, over TCP: the fingerprint is
    returned and stored. *)
Example browserHello_request :
  base64toUint8Array atobBase64 browserHelloBase64 = Return browserHello
  /\ snd (onClientRequest atobBase64 (requestWith browserHelloBase64))
     = Return (Some "t13d0304h2_55b375c5d22e_ef5f37ab036a")
  /\ fst (fst (onClientRequest atobBase64 (requestWith browserHelloBase64)))
       !! "PMUSER_JA4_FINGERPRINT"
     = Some "t13d0304h2_55b375c5d22e_ef5f37ab036a".
Proof.
  assert (E1 : base64toUint8Array atobBase64 browserHelloBase64
               = Return browserHello)
    by (vm_compute; reflexivity).
  split; [exact E1|].
  rewrite (onClientRequest_nonempty atobBase64 (requestWith browserHelloBase64)
             browserHelloBase64 (requestWith_hello browserHelloBase64)
             ltac:(discriminate)).
  rewrite E1, requestWith_quic. cbn [truthy].
  rewrite browserHello_fingerprint. cbn [fst snd].
  split; [reflexivity | apply lookup_insert_eq].
Qed.

(** C9. When the ClientHello variable is unset or empty, [onClientRequest]
    returns [undefined] without an exception, writes no variable, and its
    outcome is the same whatever the decoder would do: neither the decoder
    nor the parser runs. *)
Theorem C9_no_data (atob : string -> result string) (request : gmap string string) :
  request !! "PMUSER_TLS_CLIENT_HELLO" = None
  \/ request !! "PMUSER_TLS_CLIENT_HELLO" = Some "" ->
  onClientRequest atob request = (request, [LogInfo "No ClientHello"], Return None).
Proof.
  intros [H|H]; unfold onClientRequest; rewrite H; reflexivity.
Qed.

Lemma C9_witness :
  (requestWith "" !! "PMUSER_TLS_CLIENT_HELLO" = None
   \/ requestWith "" !! "PMUSER_TLS_CLIENT_HELLO" = Some "")
  /\ onClientRequest (fun _ => Throw InvalidCharacterError) (requestWith "")
     = (requestWith "", [LogInfo "No ClientHello"], Return None).
Proof.
  assert (H : requestWith "" !! "PMUSER_TLS_CLIENT_HELLO" = None
              \/ requestWith "" !! "PMUSER_TLS_CLIENT_HELLO" = Some "")
    by (right; vm_compute; reflexivity).
  split; [exact H|].
  apply (C9_no_data (fun _ => Throw InvalidCharacterError) (requestWith "") H).
Defined.

Example no_variable_at_all (atob : string -> result string) :
  onClientRequest atob ∅ = (∅, [LogInfo "No ClientHello"], Return None).
Proof. reflexivity. Qed.

(** C10. With no cipher suite left after the GREASE filter the second
    component is the truncated hash of the empty string, ["e3b0c44298fc"],
    and so is the third with no extension left after removing SNI and ALPN
    and no signature algorithm; neither is ["000000000000"]. *)
Theorem C10_empty_lists (buffer : list byte) (proto fp : string) :
  snd (getJA4Fingerprint buffer proto) = Return fp ->
  exists h b c,
    parseClientHello buffer = Return h
    /\ fp = ja4Base h proto (effectiveVersion h) +:+ "_" +:+ b +:+ "_" +:+ c
    /\ (cipherSuites h = [] -> b = "e3b0c44298fc")
    /\ (List.filter notSniAlpn (extensionsList (exts h)) = [] ->
        signatureAlgorithms (exts h) = [] -> c = "e3b0c44298fc")
    /\ truncatedHash "" = "e3b0c44298fc"
    /\ "e3b0c44298fc" <> "000000000000".
Proof.
  intros H. apply getJA4Fingerprint_Return in H. destruct H as (h & P & ->).
  exists h, (ja4CipherHash h), (ja4ExtensionHash h).
  split; [exact P|]. split; [reflexivity|].
  split; [|split; [|split; [vm_compute; reflexivity | discriminate]]].
  - intros E. unfold ja4CipherHash, cipherSuitesString. rewrite E.
    vm_compute. reflexivity.
  - intros E1 E2. unfold ja4ExtensionHash, extensionHashInput, hashExtensions.
    rewrite E1, E2. vm_compute. reflexivity.
Qed.

Lemma C10_witness :
  snd (getJA4Fingerprint emptyHello "quic")
  = Return "q00i000000_e3b0c44298fc_e3b0c44298fc"
  /\ exists h b c,
       parseClientHello emptyHello = Return h
       /\ "q00i000000_e3b0c44298fc_e3b0c44298fc"
          = ja4Base h "quic" (effectiveVersion h) +:+ "_" +:+ b +:+ "_" +:+ c
       /\ (cipherSuites h = [] -> b = "e3b0c44298fc")
       /\ (List.filter notSniAlpn (extensionsList (exts h)) = [] ->
           signatureAlgorithms (exts h) = [] -> c = "e3b0c44298fc")
       /\ truncatedHash "" = "e3b0c44298fc"
       /\ "e3b0c44298fc" <> "000000000000".
Proof.
  split; [vm_compute; reflexivity|].
  apply (C10_empty_lists emptyHello "quic"). vm_compute. reflexivity.
Defined.

Example emptyHello_parse :
  parseClientHello emptyHello
  = Return (ClientHello "00" [] (Extensions [] "i" "00" [] [])).
Proof. vm_compute. reflexivity. Qed.

(** * Further properties *)

(** ** [truncatedHash] *)

Lemma hexDigit_isLowerHex (d : Z) : 0 <= d < 16 -> isLowerHex (hexDigit d) = true.
Proof.
  intros Hd.
  assert (E : In d (map Z.of_nat (seq 0 16)))
    by (apply in_map_iff; exists (Z.to_nat d); split; [lia | apply in_seq; lia]).
  simpl in E. intuition (subst; reflexivity).
Qed.

Lemma byte_fixed (b : Z) :
  0 <= b < 256 -> padStart 2 "0" (toString 16 b) = fixedByte b.
Proof.
  intros Hb. unfold fixedByte.
  rewrite (toString_fuel 16 1 b) by (try lia; change (16 ^ Z.of_nat 2) with 256; lia).
  assert (M0 : 0 <= b mod 16 < 16) by (apply Z.mod_pos_bound; lia).
  assert (M1 : 0 <= b / 16 < 16)
    by (split; [apply Z.div_pos; lia | apply Z.div_lt_upper_bound; lia]).
  rewrite !toDigits_step, (Z.mod_small (b / 16)) by exact M1.
  rewrite !digitChar_hexDigit by assumption.
  destruct (Z.eqb_spec (b / 16) 0) as [E|E].
  - rewrite E. reflexivity.
  - destruct (b / 16 / 16 =? 0); reflexivity.
Qed.

Lemma fixedByte_lowerHex (b : Z) : 0 <= b < 256 -> lowerHex (fixedByte b) = true.
Proof.
  intros Hb. unfold lowerHex, fixedByte. cbn [list_ascii_of_string forallb].
  rewrite !hexDigit_isLowerHex; [reflexivity | apply Z.mod_pos_bound; lia | ].
  split; [apply Z.div_pos; lia | apply Z.div_lt_upper_bound; lia].
Qed.

Lemma compress_length (h block : list Z) :
  length h = 8%nat -> length (SHA256.compress h block) = 8%nat.
Proof.
  intros H. unfold SHA256.compress. rewrite length_zip_with, H. reflexivity.
Qed.

Lemma fold_compress_length (blocks : list (list Z)) (h : list Z) :
  length h = 8%nat -> length (fold_left SHA256.compress blocks h) = 8%nat.
Proof.
  revert h. induction blocks as [|b blocks IH]; intros h H; [exact H|].
  cbn [fold_left]. apply IH. apply compress_length. exact H.
Qed.

Lemma H0_length : length SHA256.H0 = 8%nat.
Proof. vm_compute. reflexivity. Qed.

Lemma bigEndian_range (width : nat) (x : Z) :
  Forall (fun b => 0 <= b < 256) (SHA256.bigEndian width x).
Proof.
  unfold SHA256.bigEndian. apply Forall_map. apply Forall_forall.
  intros i _. apply Z.mod_pos_bound. lia.
Qed.

(** A digest is 32 bytes. *)
Lemma digest_bytes (msg : list Z) :
  length (SHA256.digest msg) = 32%nat
  /\ Forall (fun b => 0 <= b < 256) (SHA256.digest msg).
Proof.
  unfold SHA256.digest.
  set (ws := SHA256.wordsOf (SHA256.pad msg)).
  pose proof (fold_compress_length (SHA256.chunks 16 (length ws) ws) SHA256.H0 H0_length)
    as L.
  set (h := fold_left SHA256.compress (SHA256.chunks 16 (length ws) ws) SHA256.H0) in *.
  clearbody h. clear ws.
  do 8 (destruct h as [|? h]; [discriminate|]). destruct h; [|discriminate].
  split; [reflexivity|].
  cbn [map concat]. repeat (apply Forall_app; split); try apply bigEndian_range.
  constructor.
Qed.

Lemma join_empty_cons (x : string) (rest : list string) :
  join "" (x :: rest) = x +:+ join "" rest.
Proof.
  destruct rest as [|y rest]; cbn [join].
  - induction x as [|c x IH]; [reflexivity|].
    change (String c x = String c (x +:+ "")). f_equal. exact IH.
  - reflexivity.
Qed.

Lemma append_String (c : ascii) (s t : string) :
  String c s +:+ t = String c (s +:+ t).
Proof. reflexivity. Qed.

Lemma append_empty (t : string) : "" +:+ t = t.
Proof. reflexivity. Qed.

Lemma substring_12 (c1 c2 c3 c4 c5 c6 c7 c8 c9 c10 c11 c12 : ascii) (t : string) :
  String.substring 0 12
    (String c1 (String c2 (String c3 (String c4 (String c5 (String c6
      (String c7 (String c8 (String c9 (String c10 (String c11 (String c12 t))))))))))))
  = String c1 (String c2 (String c3 (String c4 (String c5 (String c6
      (String c7 (String c8 (String c9 (String c10 (String c11 (String c12 ""))))))))))).
Proof. destruct t; reflexivity. Qed.

Lemma truncatedHash_digits (data : string) :
  exists b0 b1 b2 b3 b4 b5 : Z,
    (0 <= b0 < 256) /\ (0 <= b1 < 256) /\ (0 <= b2 < 256)
    /\ (0 <= b3 < 256) /\ (0 <= b4 < 256) /\ (0 <= b5 < 256)
    /\ truncatedHash data
       = fixedByte b0 +:+ fixedByte b1 +:+ fixedByte b2
         +:+ fixedByte b3 +:+ fixedByte b4 +:+ fixedByte b5.
Proof.
  unfold truncatedHash. destruct (digest_bytes (encode data)) as [L F].
  destruct (SHA256.digest (encode data)) as [|b0 [|b1 [|b2 [|b3 [|b4 [|b5 rest]]]]]];
    try discriminate.
  exists b0, b1, b2, b3, b4, b5.
  repeat (apply Forall_cons in F; destruct F as [? F]).
  repeat (split; [assumption|]).
  cbn [map]. rewrite !join_empty_cons.
  rewrite !byte_fixed by assumption.
  unfold fixedByte. repeat first [rewrite append_String | rewrite append_empty].
  apply substring_12.
Qed.

Lemma truncatedHash_shape (data : string) :
  String.length (truncatedHash data) = 12%nat
  /\ lowerHex (truncatedHash data) = true.
Proof.
  destruct (truncatedHash_digits data)
    as (b0 & b1 & b2 & b3 & b4 & b5 & H0 & H1 & H2 & H3 & H4 & H5 & ->).
  split; [unfold fixedByte;
          repeat first [rewrite append_String | rewrite append_empty];
          reflexivity|].
  unfold lowerHex, fixedByte.
  repeat first [rewrite append_String | rewrite append_empty].
  cbn [list_ascii_of_string forallb].
  rewrite !hexDigit_isLowerHex;
    first [reflexivity | apply Z.mod_pos_bound; lia
          | split; [apply Z.div_pos; lia | apply Z.div_lt_upper_bound; lia]].
Qed.

(** X1. The truncated hash of any string is twelve lowercase hexadecimal
    digits. *)
Theorem X1_truncatedHash_format (data : string) :
  String.length (truncatedHash data) = 12%nat
  /\ lowerHex (truncatedHash data) = true.
Proof. apply truncatedHash_shape. Qed.

(** ** The shape of a fingerprint *)

Lemma length_append (s t : string) :
  String.length (s +:+ t) = (String.length s + String.length t)%nat.
Proof.
  induction s as [|c s IH]; [reflexivity|].
  rewrite append_String. cbn [String.length]. rewrite IH. reflexivity.
Qed.

Lemma get_append_right (s t : string) (n : nat) :
  String.get (String.length s + n) (s +:+ t) = String.get n t.
Proof.
  induction s as [|c s IH]; [reflexivity|].
  rewrite append_String. cbn [String.length Nat.add String.get]. exact IH.
Qed.

Lemma alpnCode_length (first : Z) (rest : list Z) :
  String.length (alpnCode (Some (first :: rest))) = 2%nat.
Proof.
  cbn [alpnCode].
  destruct ((32 <=? first) && (first <=? 126) && (32 <=? List.last rest first)
            && (List.last rest first <=? 126)); reflexivity.
Qed.

Lemma alpnStep_length (buffer : list byte) (former : string) (record : Z * Z) :
  String.length former = 2%nat ->
  String.length (alpnStep buffer former record) = 2%nat.
Proof.
  intros H. unfold alpnStep, keepOrCode. destruct (isAlpn record); [|exact H].
  destruct (firstProtocol buffer (snd record)) as [[|first rest]|]; try exact H.
  apply alpnCode_length.
Qed.

Lemma fold_alpnStep_length (buffer : list byte) (records : list (Z * Z))
    (former : string) :
  String.length former = 2%nat ->
  String.length (fold_left (alpnStep buffer) records former) = 2%nat.
Proof.
  revert former. induction records as [|r records IH]; intros former H; [exact H|].
  cbn [fold_left]. apply IH. apply alpnStep_length. exact H.
Qed.

Lemma extension_sni (buffer : list byte) (extType payload : Z)
    (st st' : extensions) :
  extension buffer extType payload st = Return st' ->
  sni st' = if extType =? 0x0000 then "d" else sni st.
Proof.
  unfold extension. intros H.
  destruct (extType =? 0); [injection H as <-; reflexivity|].
  destruct (extType =? 16); [inv_bind H; injection H as <-; reflexivity|].
  destruct (extType =? 43);
    [inv_bind H; inv_bind H; injection H as <-; reflexivity|].
  destruct (extType =? 13);
    [inv_bind H; inv_bind H; injection H as <-; reflexivity|].
  injection H as <-. reflexivity.
Qed.

Lemma handleAll_sni (buffer : list byte) (records : list (Z * Z))
    (st st' : extensions) :
  handleAll buffer records st = Return st' ->
  sni st' = if existsb isSni records then "d" else sni st.
Proof.
  revert st. induction records as [|[t o] rest IH]; intros st H.
  - injection H as <-. reflexivity.
  - cbn [handleAll] in H. inv_bind H. rewrite (IH _ H).
    cbn [existsb]. unfold isSni at 2. cbn [fst].
    destruct (existsb isSni rest); [rewrite orb_true_r; reflexivity|].
    rewrite orb_false_r.
    destruct (Z.eqb_spec t 0) as [->|Hne].
    + change (negb (has GREASE_VALUES 0)) with true in Hv.
      apply extension_sni in Hv. exact Hv.
    + destruct (negb (has GREASE_VALUES t)).
      * apply extension_sni in Hv.
        destruct (Z.eqb_spec t 0); [contradiction | exact Hv].
      * injection Hv as <-. reflexivity.
Qed.

Lemma parseClientHello_sni (buffer : list byte) (h : clientHello)
    (records : list (Z * Z)) :
  parseClientHello buffer = Return h ->
  extensionBlock buffer = Return records ->
  sni (exts h) = if existsb isSni records then "d" else "i".
Proof.
  intros P Hr. destruct (parseClientHello_records _ _ P) as (records' & Hr' & Hh).
  rewrite Hr in Hr'. injection Hr' as <-.
  apply (handleAll_sni _ _ _ _ Hh).
Qed.

Lemma parseClientHello_alpn_length (buffer : list byte) (h : clientHello) :
  parseClientHello buffer = Return h -> String.length (alpn (exts h)) = 2%nat.
Proof.
  intros P. destruct (parseClientHello_records _ _ P) as (records & _ & Hh).
  rewrite (handleAll_alpn _ _ _ _ Hh). apply fold_alpnStep_length. reflexivity.
Qed.

Lemma versionTable_length (v : Z) : String.length (versionTable v) = 2%nat.
Proof.
  pose proof (versionTable_cases v) as H. simpl in H.
  intuition (match goal with E : _ = versionTable v |- _ => rewrite <- E end;
             reflexivity).
Qed.

Lemma effectiveVersion_table (buffer : list byte) (h : clientHello) :
  parseClientHello buffer = Return h ->
  In (effectiveVersion h) ["s2"; "s3"; "10"; "11"; "12"; "13"; "00"].
Proof.
  intros P.
  destruct (parseClientHello_Return _ _ P)
    as (legacy & sid & cs & comp & extLen & _ & _ & _ & _ & _ & Ht & _).
  unfold effectiveVersion. rewrite Ht.
  destruct (maximum _); apply versionTable_cases.
Qed.

Lemma count2_length {A : Type} (xs : list A) :
  (2 <= String.length (count2 xs))%nat
  /\ ((length xs <= 99)%nat -> String.length (count2 xs) = 2%nat).
Proof.
  destruct (count2_rendered xs) as [Hs Hl].
  destruct (Nat.le_gt_cases (length xs) 99) as [H|H].
  - destruct (Hs H) as [_ E]. split; [lia | intros _; exact E].
  - destruct (Hl H) as [_ E]. split; [lia | intros H'; lia].
Qed.

(** The first component of a fingerprint. *)
Lemma ja4Base_length (buffer : list byte) (h : clientHello) (proto : string) :
  parseClientHello buffer = Return h ->
  String.length (ja4Base h proto (effectiveVersion h))
  = (6 + String.length (numCiphers h) + String.length (numExtensions h))%nat.
Proof.
  intros P. unfold ja4Base. rewrite !length_append.
  rewrite (parseClientHello_alpn_length _ _ P).
  assert (Hp : String.length (ptype proto) = 1%nat)
    by (destruct (ptype_cases proto) as [-> | ->]; reflexivity).
  assert (Hv : String.length (effectiveVersion h) = 2%nat).
  { pose proof (effectiveVersion_table _ _ P) as H. simpl in H.
    intuition (match goal with E : _ = effectiveVersion h |- _ => rewrite <- E end;
               reflexivity). }
  assert (Hs : String.length (sni (exts h)) = 1%nat).
  { destruct (parseClientHello_records _ _ P) as (records & Hr & _).
    rewrite (parseClientHello_sni _ _ _ P Hr).
    destruct (existsb isSni records); reflexivity. }
  rewrite Hp, Hv, Hs. lia.
Qed.

(** X2. A fingerprint is [a_b_c] where [b] and [c] are twelve lowercase
    hexadecimal digits each and [a] has at least ten characters; with at
    most 99 cipher suites and 99 extensions [a] has exactly ten, the
    fingerprint 36, and the underscores are at positions 10 and 23. *)
Theorem X2_fingerprint_format (buffer : list byte) (proto fp : string) :
  snd (getJA4Fingerprint buffer proto) = Return fp ->
  exists h a b c,
    parseClientHello buffer = Return h
    /\ fp = a +:+ "_" +:+ b +:+ "_" +:+ c
    /\ String.length b = 12%nat /\ lowerHex b = true
    /\ String.length c = 12%nat /\ lowerHex c = true
    /\ (10 <= String.length a)%nat
    /\ String.length fp = (String.length a + 26)%nat
    /\ String.get (String.length a) fp = Some "_"%char
    /\ String.get (String.length a + 13) fp = Some "_"%char
    /\ ((length (cipherSuites h) <= 99)%nat ->
        (length (extensionsList (exts h)) <= 99)%nat ->
        String.length a = 10%nat /\ String.length fp = 36%nat).
Proof.
  intros H. apply getJA4Fingerprint_Return in H. destruct H as (h & P & ->).
  exists h, (ja4Base h proto (effectiveVersion h)), (ja4CipherHash h),
    (ja4ExtensionHash h).
  destruct (truncatedHash_shape (cipherSuitesString h)) as [Lb Hb].
  destruct (truncatedHash_shape (extensionHashInput h)) as [Lc Hc].
  pose proof (ja4Base_length _ _ proto P) as La.
  destruct (count2_length (cipherSuites h)) as [C1 C2].
  destruct (count2_length (extensionsList (exts h))) as [E1 E2].
  fold (numCiphers h) in C1, C2. fold (numExtensions h) in E1, E2.
  assert (Lf : String.length (fingerprint h proto)
               = (String.length (ja4Base h proto (effectiveVersion h)) + 26)%nat).
  { unfold fingerprint. rewrite !length_append.
    fold (ja4CipherHash h) in Lb. fold (ja4ExtensionHash h) in Lc.
    rewrite Lb, Lc. reflexivity. }
  split; [exact P|]. split; [reflexivity|].
  split; [exact Lb|]. split; [exact Hb|]. split; [exact Lc|]. split; [exact Hc|].
  split; [lia|]. split; [exact Lf|].
  split; [|split].
  - unfold fingerprint.
    rewrite <- (Nat.add_0_r (String.length (ja4Base h proto (effectiveVersion h)))).
    rewrite get_append_right. reflexivity.
  - unfold fingerprint. rewrite get_append_right.
    change 13%nat with (String.length ("_" +:+ "e3b0c44298fc") + 0)%nat.
    unfold ja4CipherHash in *.
    destruct (truncatedHash_digits (cipherSuitesString h))
      as (b0 & b1 & b2 & b3 & b4 & b5 & _ & _ & _ & _ & _ & _ & ->).
    unfold fixedByte. repeat first [rewrite append_String | rewrite append_empty].
    reflexivity.
  - intros Hc99 He99. specialize (C2 Hc99). specialize (E2 He99).
    split; [lia|]. rewrite Lf. lia.
Qed.

Lemma X2_witness :
  snd (getJA4Fingerprint browserHello "tcp")
  = Return "t13d0304h2_55b375c5d22e_ef5f37ab036a"
  /\ exists h a b c,
       parseClientHello browserHello = Return h
       /\ "t13d0304h2_55b375c5d22e_ef5f37ab036a" = a +:+ "_" +:+ b +:+ "_" +:+ c
       /\ String.length b = 12%nat /\ lowerHex b = true
       /\ String.length c = 12%nat /\ lowerHex c = true
       /\ (10 <= String.length a)%nat
       /\ String.length "t13d0304h2_55b375c5d22e_ef5f37ab036a"
          = (String.length a + 26)%nat
       /\ String.get (String.length a) "t13d0304h2_55b375c5d22e_ef5f37ab036a"
          = Some "_"%char
       /\ String.get (String.length a + 13) "t13d0304h2_55b375c5d22e_ef5f37ab036a"
          = Some "_"%char
       /\ ((length (cipherSuites h) <= 99)%nat ->
           (length (extensionsList (exts h)) <= 99)%nat ->
           String.length a = 10%nat
           /\ String.length "t13d0304h2_55b375c5d22e_ef5f37ab036a" = 36%nat).
Proof.
  split; [vm_compute; reflexivity|].
  apply (X2_fingerprint_format browserHello "tcp"). vm_compute. reflexivity.
Defined.

Lemma sni_substring (p code s rest : string) :
  p = "q" \/ p = "t" ->
  In code ["s2"; "s3"; "10"; "11"; "12"; "13"; "00"] ->
  s = "d" \/ s = "i" ->
  String.substring 3 1 (p +:+ code +:+ s +:+ rest) = s.
Proof.
  intros Hp Hc Hs. simpl in Hc.
  destruct Hp as [-> | ->]; destruct Hs as [-> | ->];
    repeat (destruct Hc as [<-|Hc]; [destruct rest; reflexivity|]);
    contradiction.
Qed.

(** X4. The fourth character of a fingerprint is [d] when a record of type
    0x0000 is among the extension records, whatever its payload, and [i]
    otherwise. *)
Theorem X4_sni_flag (buffer : list byte) (proto fp : string) :
  snd (getJA4Fingerprint buffer proto) = Return fp ->
  exists records,
    extensionBlock buffer = Return records
    /\ String.substring 3 1 fp = if existsb isSni records then "d" else "i".
Proof.
  intros H. apply getJA4Fingerprint_Return in H. destruct H as (h & P & ->).
  destruct (parseClientHello_records _ _ P) as (records & Hr & _).
  exists records. split; [exact Hr|].
  rewrite <- (parseClientHello_sni _ _ _ P Hr), fingerprint_flat.
  apply sni_substring.
  - apply ptype_cases.
  - apply (effectiveVersion_table _ _ P).
  - rewrite (parseClientHello_sni _ _ _ P Hr).
    destruct (existsb isSni records); auto.
Qed.

Lemma X4_witness :
  snd (getJA4Fingerprint browserHello "tcp")
  = Return "t13d0304h2_55b375c5d22e_ef5f37ab036a"
  /\ exists records,
       extensionBlock browserHello = Return records
       /\ String.substring 3 1 "t13d0304h2_55b375c5d22e_ef5f37ab036a"
          = if existsb isSni records then "d" else "i".
Proof.
  split; [vm_compute; reflexivity|].
  apply (X4_sni_flag browserHello "tcp"). vm_compute. reflexivity.
Defined.

(** X5. The protocol argument decides the first character and nothing
    else: it is [q] for exactly ["quic"] and [t] for any other string, and
    the rest of the fingerprint is the same for every protocol. *)
Theorem X5_protocol_letter (buffer : list byte) (proto fp : string) :
  snd (getJA4Fingerprint buffer proto) = Return fp ->
  exists rest,
    fp = (if String.eqb proto "quic" then "q" else "t") +:+ rest
    /\ forall proto',
         snd (getJA4Fingerprint buffer proto')
         = Return ((if String.eqb proto' "quic" then "q" else "t") +:+ rest).
Proof.
  intros H. apply getJA4Fingerprint_Return in H. destruct H as (h & P & ->).
  exists (effectiveVersion h +:+ sni (exts h) +:+ numCiphers h
          +:+ numExtensions h +:+ alpn (exts h)
          +:+ "_" +:+ ja4CipherHash h +:+ "_" +:+ ja4ExtensionHash h).
  split; [apply fingerprint_flat|].
  intros proto'. apply getJA4Fingerprint_Return. exists h.
  split; [exact P | symmetry; apply fingerprint_flat].
Qed.

Lemma X5_witness :
  snd (getJA4Fingerprint browserHello "QUIC")
  = Return "t13d0304h2_55b375c5d22e_ef5f37ab036a"
  /\ exists rest,
       "t13d0304h2_55b375c5d22e_ef5f37ab036a"
       = (if String.eqb "QUIC" "quic" then "q" else "t") +:+ rest
       /\ forall proto',
            snd (getJA4Fingerprint browserHello proto')
            = Return ((if String.eqb proto' "quic" then "q" else "t") +:+ rest).
Proof.
  split; [vm_compute; reflexivity|].
  apply (X5_protocol_letter browserHello "QUIC"). vm_compute. reflexivity.
Defined.

(** ** The bytes the parser never reads *)

Lemma bind_same {A B : Type} (m1 m2 : result A) (k1 k2 : A -> result B) :
  m1 = m2 -> (forall a, m1 = Return a -> k1 a = k2 a) -> bind m1 k1 = bind m2 k2.
Proof.
  intros <- H. destruct m1 as [a|e]; [apply H; reflexivity | reflexivity].
Qed.

Lemma getUint8_agree (P : Z -> Prop) (b1 b2 : list byte) (i : Z) :
  agree P b1 b2 -> (0 <= i -> P i) -> getUint8 b1 i = getUint8 b2 i.
Proof.
  intros (L & H) Hi. unfold getUint8. rewrite <- L.
  destruct (Z.leb_spec 0 i) as [H0|]; [|reflexivity].
  rewrite (H (Z.to_nat i)) by (rewrite Z2Nat.id by lia; auto). reflexivity.
Qed.

Lemma getUint16_agree (P : Z -> Prop) (b1 b2 : list byte) (i : Z) :
  agree P b1 b2 -> (0 <= i -> P i /\ P (i + 1)) ->
  getUint16 b1 i = getUint16 b2 i.
Proof.
  intros (L & H) Hi. unfold getUint16. rewrite <- L.
  destruct (Z.leb_spec 0 i) as [H0|]; [|reflexivity].
  destruct (Hi H0) as [P0 P1].
  rewrite (H (Z.to_nat i)) by (rewrite Z2Nat.id by lia; exact P0).
  rewrite (H (S (Z.to_nat i)))
    by (rewrite Nat2Z.inj_succ, Z2Nat.id by lia; exact P1).
  reflexivity.
Qed.

Lemma collect16_agree {A : Type} (P : Z -> Prop) (f : Z -> A) (b1 b2 : list byte)
    (base len : Z) (fuel : nat) (i : Z) (acc : list A) :
  agree P b1 b2 -> (forall j, base <= j <= base + len -> P j) -> 0 <= i ->
  collect16 f b1 base len fuel i acc = collect16 f b2 base len fuel i acc.
Proof.
  intros S Hp. revert i acc. induction fuel as [|fuel IH]; intros i acc Hi.
  - reflexivity.
  - rewrite !collect16_step. destruct (Z.ltb_spec i len); [|reflexivity].
    apply bind_same.
    + apply getUint16_agree with P; [exact S|].
      intros _. split; apply Hp; lia.
    + intros v _. apply IH. lia.
Qed.

Lemma alpnExtension_agree (P : Z -> Prop) (b1 b2 : list byte) (currentIndex : Z)
    (a : string) :
  agree P b1 b2 -> (forall j, currentIndex <= j -> P j) ->
  alpnExtension b1 currentIndex a = alpnExtension b2 currentIndex a.
Proof.
  intros S Hp. unfold alpnExtension.
  apply bind_same;
    [apply getUint16_agree with P; [exact S | intros _; split; apply Hp; lia]|].
  intros listLen _.
  destruct (currentIndex + 2 <? currentIndex + 2 + listLen); [|reflexivity].
  apply bind_same;
    [apply getUint8_agree with P; [exact S | intros _; apply Hp; lia]|].
  intros protocolLength _.
  destruct (Z.ltb_spec 0 protocolLength); [|reflexivity].
  apply bind_same;
    [apply getUint8_agree with P; [exact S | intros _; apply Hp; lia]|].
  intros firstChar _.
  apply bind_same;
    [apply getUint8_agree with P; [exact S | intros _; apply Hp; lia]|].
  intros lastChar _. reflexivity.
Qed.

Lemma extension_agree (P : Z -> Prop) (b1 b2 : list byte) (extType currentIndex : Z)
    (st : extensions) :
  agree P b1 b2 -> (forall j, currentIndex <= j -> P j) ->
  extension b1 extType currentIndex st = extension b2 extType currentIndex st.
Proof.
  intros S Hp. unfold extension.
  destruct (extType =? 0); [reflexivity|].
  destruct (extType =? 16).
  { apply bind_same; [apply alpnExtension_agree with P; assumption | reflexivity]. }
  destruct (extType =? 43).
  { apply bind_same;
      [apply getUint8_agree with P; [exact S | intros _; apply Hp; lia]|].
    intros n _.
    apply bind_same; [|reflexivity].
    apply collect16_agree with P; [exact S | intros j Hj; apply Hp; lia | lia]. }
  destruct (extType =? 13).
  { apply bind_same;
      [apply getUint16_agree with P; [exact S | intros _; split; apply Hp; lia]|].
    intros n _.
    apply bind_same; [|reflexivity].
    apply collect16_agree with P; [exact S | intros j Hj; apply Hp; lia | lia]. }
  reflexivity.
Qed.

Lemma extensionsLoop_agree (P : Z -> Prop) (fuel : nat) (b1 b2 : list byte)
    (extensionsEndIndex currentIndex : Z) (st : extensions) :
  agree P b1 b2 -> (forall j, currentIndex <= j -> P j) ->
  extensionsLoop fuel b1 extensionsEndIndex currentIndex st
  = extensionsLoop fuel b2 extensionsEndIndex currentIndex st.
Proof.
  intros S. revert currentIndex st.
  induction fuel as [|fuel IH]; intros cur st Hp; [reflexivity|].
  rewrite !extensionsLoop_step. destruct (cur <? extensionsEndIndex); [|reflexivity].
  apply bind_same;
    [apply getUint16_agree with P; [exact S | intros _; split; apply Hp; lia]|].
  intros extType _.
  apply bind_same;
    [apply getUint16_agree with P; [exact S | intros _; split; apply Hp; lia]|].
  intros extLength Hl. apply getUint16_Return in Hl.
  apply bind_same.
  - destruct (negb (has GREASE_VALUES extType)); [|reflexivity].
    apply extension_agree with P; [exact S | intros j Hj; apply Hp; lia].
  - intros st' _. apply IH. intros j Hj. apply Hp. lia.
Qed.

Lemma byteAt_Return (buffer : list byte) (i v : Z) :
  getUint8 buffer i = Return v -> byteAt buffer i = v.
Proof. unfold byteAt. intros ->. reflexivity. Qed.

Lemma word16_Return (buffer : list byte) (i v : Z) :
  getUint16 buffer i = Return v -> word16 buffer i = v.
Proof. unfold word16. intros ->. reflexivity. Qed.

Lemma byteAt_nonneg (buffer : list byte) (i : Z) : 0 <= byteAt buffer i.
Proof.
  unfold byteAt. destruct (getUint8 buffer i) as [v|e] eqn:E; [|lia].
  apply getUint8_Return in E. lia.
Qed.

(** The positions that are not [unread], by the three length fields. *)
Lemma unread_false (buffer : list byte) (sid cs comp i : Z) :
  byteAt buffer 38 = sid -> word16 buffer (39 + sid) = cs ->
  byteAt buffer (41 + sid + cs) = comp ->
  i = 4 \/ i = 5 \/ i = 38 \/ 39 + sid <= i < 42 + sid + cs
  \/ 42 + sid + cs + comp <= i ->
  unread buffer i = false.
Proof.
  intros Hs Hc Hm Hi. unfold unread. rewrite Hs, Hc, Hm.
  assert (0 <= sid) by (subst sid; apply byteAt_nonneg).
  assert (0 <= cs) by (subst cs; apply word16_range).
  assert (0 <= comp) by (subst comp; apply byteAt_nonneg).
  destruct (Z.ltb_spec i 4), (Z.leb_spec 6 i), (Z.ltb_spec i 38),
    (Z.leb_spec 39 i), (Z.ltb_spec i (39 + sid)),
    (Z.leb_spec (42 + sid + cs) i), (Z.ltb_spec i (42 + sid + cs + comp));
    cbn; try reflexivity; lia.
Qed.

Lemma parseClientHello_same (b1 b2 : list byte) :
  readSame b1 b2 -> parseClientHello b1 = parseClientHello b2.
Proof.
  intros S.
  assert (A : agree (fun i => unread b1 i = false) b1 b2) by exact S.
  pose proof (unread_false b1 _ _ _ 4 eq_refl eq_refl eq_refl) as U4.
  pose proof (unread_false b1 _ _ _ 5 eq_refl eq_refl eq_refl) as U5.
  pose proof (unread_false b1 _ _ _ 38 eq_refl eq_refl eq_refl) as U38.
  unfold parseClientHello.
  apply bind_same.
  { apply getUint16_agree with (1 := A). intros _. split; [apply U4 | apply U5]; lia. }
  intros legacy _.
  apply bind_same.
  { apply getUint8_agree with (1 := A). intros _. apply U38. lia. }
  intros sid Hs. pose proof (byteAt_Return _ _ _ Hs) as Bs.
  change (4 + 34) with 38 in Bs. apply getUint8_Return in Hs.
  assert (U : forall cs comp i,
             word16 b1 (39 + sid) = cs -> byteAt b1 (41 + sid + cs) = comp ->
             39 + sid <= i < 42 + sid + cs \/ 42 + sid + cs + comp <= i ->
             unread b1 i = false).
  { intros cs comp i Hc Hm Hi. apply (unread_false b1 sid cs comp i Bs Hc Hm). tauto. }
  apply bind_same.
  { apply getUint16_agree with (1 := A). intros _.
    pose proof (word16_range b1 (39 + sid)).
    split; apply (U _ _ _ eq_refl eq_refl); lia. }
  intros cs Hc. pose proof (word16_Return _ _ _ Hc) as Bc.
  replace (4 + 34 + (1 + sid)) with (39 + sid) in Bc by lia.
  apply getUint16_Return in Hc.
  apply bind_same.
  { apply collect16_agree with (1 := A); [|lia].
    intros j Hj. apply (U _ _ _ Bc eq_refl). lia. }
  intros ciphers _.
  apply bind_same.
  { apply getUint8_agree with (1 := A). intros _. apply (U _ _ _ Bc eq_refl). lia. }
  intros comp Hm. pose proof (byteAt_Return _ _ _ Hm) as Bm.
  replace (4 + 34 + (1 + sid) + 2 + cs) with (41 + sid + cs) in Bm by lia.
  apply getUint8_Return in Hm.
  apply bind_same.
  { apply getUint16_agree with (1 := A). intros _.
    split; apply (U _ _ _ Bc Bm); lia. }
  intros extLen _.
  apply bind_same; [|reflexivity].
  apply extensionsLoop_agree with (1 := A).
  intros j Hj. apply (U _ _ _ Bc Bm). lia.
Qed.

Lemma readSameb_spec (b1 b2 : list byte) : readSameb b1 b2 = true -> readSame b1 b2.
Proof.
  unfold readSameb, readSame. intros H.
  apply andb_true_iff in H. destruct H as [L H].
  apply Nat.eqb_eq in L. split; [exact L|]. intros i Hi.
  destruct (Nat.lt_ge_cases i (length b1)) as [Hlt|Hge].
  - rewrite forallb_forall in H. specialize (H i).
    rewrite Hi in H. cbn [orb] in H.
    assert (E : sameByte (b1 !! i) (b2 !! i) = true) by (apply H, in_seq; lia).
    destruct (b1 !! i) as [x|], (b2 !! i) as [y|]; try discriminate E;
      [|reflexivity].
    apply Byte.byte_dec_bl in E. rewrite E. reflexivity.
  - rewrite !lookup_ge_None_2 by lia. reflexivity.
Qed.

(** X3. The handshake header, the client random, the session id and the
    compression methods are never read: two buffers of one length that
    differ only there have the same outcome, log included. *)
Theorem X3_unread_bytes (b1 b2 : list byte) (proto : string) :
  readSame b1 b2 ->
  getJA4Fingerprint b1 proto = getJA4Fingerprint b2 proto.
Proof.
  intros S. unfold getJA4Fingerprint, tryBlock.
  rewrite (parseClientHello_same _ _ S). reflexivity.
Qed.

Lemma X3_witness :
  readSame browserHello
    ([x02; xff; xff; xff; x03; x03] ++ repeat xa5 32
     ++ [ x00; x00; x08; x1a; x1a; x13; x01; x13; x02; x13; x03; x01; x2a ]
     ++ drop 51 browserHello)
  /\ getJA4Fingerprint browserHello "tcp"
     = getJA4Fingerprint
         ([x02; xff; xff; xff; x03; x03] ++ repeat xa5 32
          ++ [ x00; x00; x08; x1a; x1a; x13; x01; x13; x02; x13; x03; x01; x2a ]
          ++ drop 51 browserHello)
         "tcp".
Proof.
  assert (S : readSame browserHello
                ([x02; xff; xff; xff; x03; x03] ++ repeat xa5 32
                 ++ [ x00; x00; x08; x1a; x1a; x13; x01; x13; x02; x13; x03;
                      x01; x2a ]
                 ++ drop 51 browserHello))
    by (apply readSameb_spec; vm_compute; reflexivity).
  split; [exact S|].
  apply (X3_unread_bytes _ _ "tcp" S).
Defined.

(** ** What the two hashes depend on *)

Lemma sort_Permutation_eq (xs ys : list string) : xs ≡ₚ ys -> sort xs = sort ys.
Proof.
  intros H. apply sort_unique; [|apply sort_Sorted].
  rewrite sort_Permutation. symmetry. exact H.
Qed.

(** X6. The cipher-suite count and hash do not depend on the order of the
    cipher suites. *)
Theorem X6_cipher_order (h1 h2 : clientHello) :
  cipherSuites h1 ≡ₚ cipherSuites h2 ->
  numCiphers h1 = numCiphers h2 /\ ja4CipherHash h1 = ja4CipherHash h2.
Proof.
  intros H. split.
  - unfold numCiphers, count2. rewrite (Permutation_length H). reflexivity.
  - unfold ja4CipherHash, cipherSuitesString.
    rewrite (sort_Permutation_eq _ _ H). reflexivity.
Qed.

Lemma X6_witness :
  cipherSuites (ClientHello "12" ["1301"; "c02b"; "009e"] initialExtensions)
  ≡ₚ cipherSuites (ClientHello "12" ["009e"; "1301"; "c02b"] initialExtensions)
  /\ numCiphers (ClientHello "12" ["1301"; "c02b"; "009e"] initialExtensions)
     = numCiphers (ClientHello "12" ["009e"; "1301"; "c02b"] initialExtensions)
  /\ ja4CipherHash (ClientHello "12" ["1301"; "c02b"; "009e"] initialExtensions)
     = ja4CipherHash (ClientHello "12" ["009e"; "1301"; "c02b"] initialExtensions).
Proof.
  assert (P : cipherSuites (ClientHello "12" ["1301"; "c02b"; "009e"] initialExtensions)
              ≡ₚ cipherSuites
                   (ClientHello "12" ["009e"; "1301"; "c02b"] initialExtensions))
    by (cbn [cipherSuites];
        eapply perm_trans; [apply perm_skip, perm_swap | apply perm_swap]).
  split; [exact P|].
  apply (X6_cipher_order _ _ P).
Defined.

(** X7. The extension hash depends only on which extension types other
    than SNI and ALPN occur, how often, and on the sequence of signature
    algorithms: neither the order of the extensions nor the presence of
    SNI or ALPN changes it. *)
Theorem X7_extension_order (h1 h2 : clientHello) :
  List.filter notSniAlpn (extensionsList (exts h1))
  ≡ₚ List.filter notSniAlpn (extensionsList (exts h2)) ->
  signatureAlgorithms (exts h1) = signatureAlgorithms (exts h2) ->
  extensionHashInput h1 = extensionHashInput h2
  /\ ja4ExtensionHash h1 = ja4ExtensionHash h2.
Proof.
  intros H S.
  assert (E : extensionHashInput h1 = extensionHashInput h2).
  { unfold extensionHashInput, hashExtensions.
    rewrite (sort_Permutation_eq _ _ H), S. reflexivity. }
  split; [exact E|]. unfold ja4ExtensionHash. rewrite E. reflexivity.
Qed.

Lemma X7_witness :
  List.filter notSniAlpn
    (extensionsList
       (exts (ClientHello "12" []
                (Extensions ["0000"; "0010"; "002b"; "000d"] "d" "h2" ["0403"] []))))
  ≡ₚ List.filter notSniAlpn
       (extensionsList
          (exts (ClientHello "12" []
                   (Extensions ["000d"; "002b"] "i" "00" ["0403"] []))))
  /\ extensionHashInput
       (ClientHello "12" []
          (Extensions ["0000"; "0010"; "002b"; "000d"] "d" "h2" ["0403"] []))
     = extensionHashInput
         (ClientHello "12" [] (Extensions ["000d"; "002b"] "i" "00" ["0403"] []))
  /\ ja4ExtensionHash
       (ClientHello "12" []
          (Extensions ["0000"; "0010"; "002b"; "000d"] "d" "h2" ["0403"] []))
     = ja4ExtensionHash
         (ClientHello "12" [] (Extensions ["000d"; "002b"] "i" "00" ["0403"] [])).
Proof.
  assert (P : List.filter notSniAlpn
                (extensionsList
                   (exts (ClientHello "12" []
                            (Extensions ["0000"; "0010"; "002b"; "000d"] "d" "h2"
                               ["0403"] []))))
              ≡ₚ List.filter notSniAlpn
                   (extensionsList
                      (exts (ClientHello "12" []
                               (Extensions ["000d"; "002b"] "i" "00" ["0403"] [])))))
    by (vm_compute; apply perm_swap).
  split; [exact P|].
  apply (X7_extension_order _ _ P). reflexivity.
Defined.

(** The order of the signature algorithms, on the contrary, is kept. *)
Example signature_algorithm_order_matters :
  extensionInput ["000d"] ["0403"; "0804"] <> extensionInput ["000d"] ["0804"; "0403"].
Proof. vm_compute. discriminate. Qed.

(** ** Repeated extensions *)

Lemma handleAll_signatureAlgorithms (buffer : list byte) (records : list (Z * Z))
    (st st' : extensions) :
  handleAll buffer records st = Return st' ->
  signatureAlgorithms st'
  = signatureAlgorithms st ++ allSignatureAlgorithms buffer records.
Proof.
  unfold allSignatureAlgorithms.
  revert st. induction records as [|[t o] rest IH]; intros st H.
  - injection H as <-. cbn. rewrite app_nil_r. reflexivity.
  - cbn [handleAll] in H. inv_bind H. rewrite (IH _ H).
    cbn [List.filter]. unfold isSignatureAlgorithms at 2. cbn [fst].
    destruct (Z.eqb_spec t 13) as [->|Hne].
    + change (negb (has GREASE_VALUES 13)) with true in Hv.
      apply extension_signatureAlgorithms in Hv. cbn in Hv. rewrite Hv.
      cbn [map concat snd]. rewrite <- app_assoc. reflexivity.
    + f_equal. destruct (negb (has GREASE_VALUES t)).
      * apply extension_signatureAlgorithms in Hv.
        destruct (Z.eqb_spec t 13); [contradiction | exact Hv].
      * injection Hv as <-. reflexivity.
Qed.

Lemma handleAll_supportedVersions (buffer : list byte) (records : list (Z * Z))
    (st st' : extensions) :
  handleAll buffer records st = Return st' ->
  supportedVersions st'
  = supportedVersions st ++ allSupportedVersions buffer records.
Proof.
  unfold allSupportedVersions.
  revert st. induction records as [|[t o] rest IH]; intros st H.
  - injection H as <-. cbn. rewrite app_nil_r. reflexivity.
  - cbn [handleAll] in H. inv_bind H. rewrite (IH _ H).
    cbn [List.filter]. unfold isSupportedVersions at 2. cbn [fst].
    destruct (Z.eqb_spec t 43) as [->|Hne].
    + change (negb (has GREASE_VALUES 43)) with true in Hv.
      apply extension_supportedVersions in Hv. cbn in Hv. rewrite Hv.
      cbn [map concat snd]. rewrite <- app_assoc. reflexivity.
    + f_equal. destruct (negb (has GREASE_VALUES t)).
      * apply extension_supportedVersions in Hv.
        destruct (Z.eqb_spec t 43); [contradiction | exact Hv].
      * injection Hv as <-. reflexivity.
Qed.

(** X8. Extensions that occur more than once add up: the signature
    algorithms and the supported versions the encoder gets are those of all
    the records of their type, one payload after the other in wire order,
    GREASE values removed. *)
Theorem X8_repeated_extensions (buffer : list byte) (h : clientHello) :
  parseClientHello buffer = Return h ->
  exists records,
    extensionBlock buffer = Return records
    /\ signatureAlgorithms (exts h) = allSignatureAlgorithms buffer records
    /\ supportedVersions (exts h) = allSupportedVersions buffer records.
Proof.
  intros P. destruct (parseClientHello_records _ _ P) as (records & Hr & Hh).
  exists records. split; [exact Hr|]. split.
  - apply (handleAll_signatureAlgorithms _ _ _ _ Hh).
  - apply (handleAll_supportedVersions _ _ _ _ Hh).
Qed.

Lemma X8_witness :
  parseClientHello repeatedExtensions
  = Return (ClientHello "00" []
              (Extensions ["000d"; "000d"; "002b"; "002b"] "i" "00"
                 ["0403"; "0804"] [0x0303; 0x0304]))
  /\ exists records,
       extensionBlock repeatedExtensions = Return records
       /\ signatureAlgorithms
            (exts (ClientHello "00" []
                     (Extensions ["000d"; "000d"; "002b"; "002b"] "i" "00"
                        ["0403"; "0804"] [0x0303; 0x0304])))
          = allSignatureAlgorithms repeatedExtensions records
       /\ supportedVersions
            (exts (ClientHello "00" []
                     (Extensions ["000d"; "000d"; "002b"; "002b"] "i" "00"
                        ["0403"; "0804"] [0x0303; 0x0304])))
          = allSupportedVersions repeatedExtensions records.
Proof.
  assert (P : parseClientHello repeatedExtensions
              = Return (ClientHello "00" []
                          (Extensions ["000d"; "000d"; "002b"; "002b"] "i" "00"
                             ["0403"; "0804"] [0x0303; 0x0304])))
    by (vm_compute; reflexivity).
  split; [exact P|].
  apply (X8_repeated_extensions repeatedExtensions _ P).
Defined.

Example repeatedExtensions_fingerprint :
  snd (getJA4Fingerprint repeatedExtensions "tcp")
  = Return (fingerprint
              (ClientHello "00" []
                 (Extensions ["000d"; "000d"; "002b"; "002b"] "i" "00"
                    ["0403"; "0804"] [0x0303; 0x0304])) "tcp")
  /\ String.substring 0 10
       (fingerprint
          (ClientHello "00" []
             (Extensions ["000d"; "000d"; "002b"; "002b"] "i" "00"
                ["0403"; "0804"] [0x0303; 0x0304])) "tcp")
     = "t13i000400".
Proof. vm_compute. split; reflexivity. Qed.

(** ** How large the counts can get *)

Lemma wire16_length (buffer : list byte) (offset : Z) (n : nat) :
  length (wire16 buffer offset n) = n.
Proof.
  revert offset. induction n as [|n IH]; intros offset; cbn [wire16 length];
    [reflexivity | rewrite IH; reflexivity].
Qed.

Lemma filter_length_le {A : Type} (f : A -> bool) (xs : list A) :
  (length (List.filter f xs) <= length xs)%nat.
Proof.
  induction xs as [|x xs IH]; cbn [List.filter length]; [lia|].
  destruct (f x); cbn [length]; lia.
Qed.

Lemma extensionRecords_length (fuel : nat) (buffer : list byte)
    (extensionsEndIndex currentIndex : Z) (records : list (Z * Z)) :
  extensionRecords fuel buffer extensionsEndIndex currentIndex = Return records ->
  4 * Z.of_nat (length records) <= Z.max 0 (extensionsEndIndex - currentIndex + 3)
  /\ 4 * Z.of_nat (length records)
     <= Z.max 0 (Z.of_nat (length buffer) - currentIndex).
Proof.
  revert currentIndex records. induction fuel as [|fuel IH]; intros cur records H.
  - simpl in H. destruct (cur <? extensionsEndIndex); [discriminate|].
    injection H as <-. cbn [length]. lia.
  - cbn [extensionRecords] in H.
    destruct (Z.ltb_spec cur extensionsEndIndex);
      [|injection H as <-; cbn [length]; lia].
    inv_bind H. inv_bind H. inv_bind H. injection H as <-.
    apply getUint16_Return in Hv0. apply IH in Hv1.
    cbn [length]. lia.
Qed.

Lemma toDigits_length_le (fuel : nat) (radix n : Z) (acc : string) :
  (String.length (toDigits fuel radix n acc) <= fuel + String.length acc)%nat.
Proof.
  revert n acc. induction fuel as [|fuel IH]; intros n acc; [simpl; lia|].
  rewrite toDigits_step. destruct (n / radix =? 0).
  - cbn [String.length]. lia.
  - etransitivity; [apply IH|]. cbn [String.length]. lia.
Qed.

Lemma count2_length_le {A : Type} (xs : list A) :
  Z.of_nat (length xs) < 100000 -> (String.length (count2 xs) <= 5)%nat.
Proof.
  intros H. destruct (Nat.le_gt_cases (length xs) 99) as [Hs|Hl].
  - rewrite (count2_small xs Hs). cbn. lia.
  - destruct (count2_large xs Hl) as [-> _].
    rewrite (toString_fuel 10 4) by (try lia; change (10 ^ Z.of_nat 5) with 100000; lia).
    etransitivity; [apply toDigits_length_le|]. cbn. lia.
Qed.

Lemma parseClientHello_counts (buffer : list byte) (h : clientHello) :
  parseClientHello buffer = Return h ->
  2 * Z.of_nat (length (cipherSuites h))
  + 4 * Z.of_nat (length (extensionsList (exts h))) + 43
  <= Z.of_nat (length buffer)
  /\ Z.of_nat (length (cipherSuites h)) <= 32768
  /\ Z.of_nat (length (extensionsList (exts h))) <= 16384.
Proof.
  intros P.
  destruct (parseClientHello_records _ _ P) as (records & Hr & _).
  pose proof (parseClientHello_extensionsList _ _ _ P Hr) as He.
  apply parseClientHello_Return in P.
  destruct P as (legacy & sid & cs & comp & extLen & _ & Hs & Hc & Hm & Hx & _ & Hl & _).
  assert (Lc : 2 * Z.of_nat (length (cipherSuites h)) <= cs + 1).
  { rewrite Hl, length_map.
    pose proof (filter_length_le notGrease (wire16 buffer (41 + sid) (steps16 cs))) as F.
    rewrite wire16_length in F. unfold steps16 in *.
    apply getUint16_Return in Hc.
    assert (Z.of_nat (Z.to_nat ((cs + 1) / 2)) = (cs + 1) / 2)
      by (apply Z2Nat.id, Z.div_pos; lia).
    assert (2 * ((cs + 1) / 2) <= cs + 1) by (apply Z.mul_div_le; lia).
    lia. }
  assert (Le : (length (extensionsList (exts h)) <= length records)%nat).
  { rewrite He, length_map.
    etransitivity; [apply filter_length_le|]. rewrite length_map. lia. }
  unfold extensionBlock in Hr. rewrite Hs in Hr. cbn [bind] in Hr.
  rewrite Hc in Hr. cbn [bind] in Hr. rewrite Hm in Hr. cbn [bind] in Hr.
  rewrite Hx in Hr. cbn [bind] in Hr.
  apply extensionRecords_length in Hr.
  apply getUint8_Return in Hs, Hm. apply getUint16_Return in Hc, Hx.
  lia.
Qed.

(** X9. The two counts are bounded by the buffer: every cipher suite
    counted takes two bytes of it and every extension counted four, after
    43 bytes of fixed fields. There are never more than 32768 cipher suites
    or 16384 extensions, so that a fingerprint has at most 42 characters. *)
Theorem X9_counts_bounded (buffer : list byte) (proto fp : string) :
  snd (getJA4Fingerprint buffer proto) = Return fp ->
  exists h,
    parseClientHello buffer = Return h
    /\ 2 * Z.of_nat (length (cipherSuites h))
       + 4 * Z.of_nat (length (extensionsList (exts h))) + 43
       <= Z.of_nat (length buffer)
    /\ Z.of_nat (length (cipherSuites h)) <= 32768
    /\ Z.of_nat (length (extensionsList (exts h))) <= 16384
    /\ (String.length fp <= 42)%nat.
Proof.
  intros H. apply getJA4Fingerprint_Return in H. destruct H as (h & P & ->).
  exists h. split; [exact P|].
  destruct (parseClientHello_counts _ _ P) as (B & C & E).
  split; [exact B|]. split; [exact C|]. split; [exact E|].
  unfold fingerprint. rewrite !length_append, (ja4Base_length _ _ _ P).
  destruct (truncatedHash_shape (cipherSuitesString h)) as [Lc _].
  destruct (truncatedHash_shape (extensionHashInput h)) as [Le _].
  unfold ja4CipherHash, ja4ExtensionHash. rewrite Lc, Le.
  pose proof (count2_length_le (cipherSuites h) ltac:(lia)).
  pose proof (count2_length_le (extensionsList (exts h)) ltac:(lia)).
  unfold numCiphers, numExtensions. cbn [String.length]. lia.
Qed.

Lemma X9_witness :
  snd (getJA4Fingerprint hundredCiphers "tcp")
  = Return "t00i1000000_046e6d3d3438_e3b0c44298fc"
  /\ exists h,
       parseClientHello hundredCiphers = Return h
       /\ 2 * Z.of_nat (length (cipherSuites h))
          + 4 * Z.of_nat (length (extensionsList (exts h))) + 43
          <= Z.of_nat (length hundredCiphers)
       /\ Z.of_nat (length (cipherSuites h)) <= 32768
       /\ Z.of_nat (length (extensionsList (exts h))) <= 16384
       /\ (String.length "t00i1000000_046e6d3d3438_e3b0c44298fc" <= 42)%nat.
Proof.
  split; [vm_compute; reflexivity|].
  apply (X9_counts_bounded hundredCiphers "tcp"). vm_compute. reflexivity.
Defined.

(** ** The request handler as a whole *)

Lemma truthy_Some (x : option string) :
  truthy x = true <-> exists s, x = Some s /\ s <> "".
Proof.
  destruct x as [[|c s]|]; cbn [truthy]; split;
    try discriminate; try (intros (s' & [= <-] & H); congruence);
    try (intros (s' & [=] & _)).
  intros _. exists (String c s). split; [reflexivity | discriminate].
Qed.

Lemma base64toUint8Array_Throw (atob : string -> result string) (s : string)
    (e : exn) :
  base64toUint8Array atob s = Throw e <-> atob s = Throw e.
Proof.
  unfold base64toUint8Array. destruct (atob s) as [b|e']; cbn [bind];
    split; intros H; try discriminate H; injection H as ->; reflexivity.
Qed.

(** The four ways through [onClientRequest]. *)
Lemma onClientRequest_cases (atob : string -> result string)
    (request : gmap string string) :
  let proto :=
    if truthy (request !! "PMUSER_QUIC_VERSION") then "quic" else "tcp" in
  (truthy (request !! "PMUSER_TLS_CLIENT_HELLO") = false
   /\ onClientRequest atob request
      = (request, [LogInfo "No ClientHello"], Return None))
  \/ (exists ch e,
        request !! "PMUSER_TLS_CLIENT_HELLO" = Some ch /\ ch <> ""
        /\ atob ch = Throw e
        /\ onClientRequest atob request = (request, [], Throw e))
  \/ (exists ch buffer log e,
        request !! "PMUSER_TLS_CLIENT_HELLO" = Some ch /\ ch <> ""
        /\ base64toUint8Array atob ch = Return buffer
        /\ getJA4Fingerprint buffer proto = (log, Throw e)
        /\ onClientRequest atob request
           = (request, log ++ [LogError "Error calculating JA4: " e], Return None))
  \/ (exists ch buffer log fp,
        request !! "PMUSER_TLS_CLIENT_HELLO" = Some ch /\ ch <> ""
        /\ base64toUint8Array atob ch = Return buffer
        /\ getJA4Fingerprint buffer proto = (log, Return fp)
        /\ onClientRequest atob request
           = (<["PMUSER_JA4_FINGERPRINT" := fp]> request, log, Return (Some fp))).
Proof.
  intros proto.
  destruct (truthy (request !! "PMUSER_TLS_CLIENT_HELLO")) eqn:T.
  - right. apply truthy_Some in T. destruct T as (ch & Hch & Hne).
    rewrite (onClientRequest_nonempty atob request ch Hch Hne). fold proto.
    destruct (base64toUint8Array atob ch) as [buffer|e] eqn:D.
    + right. destruct (getJA4Fingerprint buffer proto) as [log [fp|e]] eqn:G.
      * right. exists ch, buffer, log, fp. auto.
      * left. exists ch, buffer, log, e. auto.
    + left. exists ch, e. apply base64toUint8Array_Throw in D. auto.
  - left. split; [reflexivity|]. unfold onClientRequest. rewrite T. reflexivity.
Qed.

(** X10. [onClientRequest] writes no variable but
    [PMUSER_JA4_FINGERPRINT], whatever the decoder does: every other
    variable keeps its value, and unless a fingerprint is returned the
    variables are exactly as before; a fingerprint returned is the value
    stored. *)
Theorem X10_only_the_fingerprint_is_written (atob : string -> result string)
    (request : gmap string string) :
  (forall k, k <> "PMUSER_JA4_FINGERPRINT" ->
     fst (fst (onClientRequest atob request)) !! k = request !! k)
  /\ match snd (onClientRequest atob request) with
     | Return (Some fp) =>
         fst (fst (onClientRequest atob request)) !! "PMUSER_JA4_FINGERPRINT"
         = Some fp
     | _ => fst (fst (onClientRequest atob request)) = request
     end.
Proof.
  destruct (onClientRequest_cases atob request)
    as [(_ & ->) | [(ch & e & _ & _ & _ & ->)
       | [(ch & buffer & log & e & _ & _ & _ & _ & ->)
         | (ch & buffer & log & fp & _ & _ & _ & _ & ->)]]];
    cbn [fst snd]; split; try reflexivity.
  - intros k Hk. apply lookup_insert_ne. congruence.
  - apply lookup_insert_eq.
Qed.

(** X11. The only exception that leaves [onClientRequest] is one thrown by
    the decoder on a non-empty ClientHello variable; in particular a
    [RangeError] of the parser never does. *)
Theorem X11_only_the_decoder_throws (atob : string -> result string)
    (request : gmap string string) (e : exn) :
  snd (onClientRequest atob request) = Throw e ->
  exists ch,
    request !! "PMUSER_TLS_CLIENT_HELLO" = Some ch /\ ch <> ""
    /\ atob ch = Throw e
    /\ onClientRequest atob request = (request, [], Throw e).
Proof.
  intros H.
  destruct (onClientRequest_cases atob request)
    as [(_ & E) | [(ch & e' & Hch & Hne & Ha & E)
       | [(ch & buffer & log & e' & _ & _ & _ & _ & E)
         | (ch & buffer & log & fp & _ & _ & _ & _ & E)]]];
    rewrite E in H; cbn [snd] in H; try discriminate H.
  injection H as <-. exists ch. rewrite E. auto.
Qed.

Lemma X11_witness :
  snd (onClientRequest atobBase64 (requestWith "***")) = Throw InvalidCharacterError
  /\ exists ch,
       requestWith "***" !! "PMUSER_TLS_CLIENT_HELLO" = Some ch /\ ch <> ""
       /\ atobBase64 ch = Throw InvalidCharacterError
       /\ onClientRequest atobBase64 (requestWith "***")
          = (requestWith "***", [], Throw InvalidCharacterError).
Proof.
  assert (H : snd (onClientRequest atobBase64 (requestWith "***"))
              = Throw InvalidCharacterError)
    by (rewrite (onClientRequest_nonempty atobBase64 (requestWith "***") "***"
                   (requestWith_hello "***") ltac:(discriminate));
        reflexivity).
  split; [exact H|].
  apply (X11_only_the_decoder_throws atobBase64 (requestWith "***") _ H).
Defined.

Lemma onClientRequest_inputs (atob : string -> result string)
    (r1 r2 : gmap string string) :
  r1 !! "PMUSER_TLS_CLIENT_HELLO" = r2 !! "PMUSER_TLS_CLIENT_HELLO" ->
  truthy (r1 !! "PMUSER_QUIC_VERSION") = truthy (r2 !! "PMUSER_QUIC_VERSION") ->
  snd (fst (onClientRequest atob r1)) = snd (fst (onClientRequest atob r2))
  /\ snd (onClientRequest atob r1) = snd (onClientRequest atob r2)
  /\ forall fp, snd (onClientRequest atob r1) = Return (Some fp) ->
       fst (fst (onClientRequest atob r1)) = <["PMUSER_JA4_FINGERPRINT" := fp]> r1.
Proof.
  intros Hh Hq. unfold onClientRequest. rewrite Hh, Hq.
  destruct (negb (truthy (r2 !! "PMUSER_TLS_CLIENT_HELLO")));
    [cbn [fst snd]; split; [|split]; [reflexivity | reflexivity | discriminate]|].
  destruct (base64toUint8Array atob (default "" (r2 !! "PMUSER_TLS_CLIENT_HELLO")))
    as [buffer|e];
    [|cbn [fst snd]; split; [|split]; [reflexivity | reflexivity | discriminate]].
  destruct (getJA4Fingerprint buffer
              (if truthy (r2 !! "PMUSER_QUIC_VERSION") then "quic" else "tcp"))
    as [log [fp|e]]; cbn [fst snd]; split; try split; try reflexivity;
    try discriminate.
  intros fp' [= <-]. reflexivity.
Qed.

(** X12. The outcome depends on the request through two things only: the
    ClientHello variable, and whether the QUIC variable is a non-empty
    string. Its value, any other variable and a fingerprint stored before
    change neither the log nor the result, so that handling a request a
    second time gives the same log, result and variables. *)
Theorem X12_inputs_of_the_handler (atob : string -> result string)
    (r1 r2 : gmap string string) :
  r1 !! "PMUSER_TLS_CLIENT_HELLO" = r2 !! "PMUSER_TLS_CLIENT_HELLO" ->
  truthy (r1 !! "PMUSER_QUIC_VERSION") = truthy (r2 !! "PMUSER_QUIC_VERSION") ->
  snd (fst (onClientRequest atob r1)) = snd (fst (onClientRequest atob r2))
  /\ snd (onClientRequest atob r1) = snd (onClientRequest atob r2)
  /\ onClientRequest atob (fst (fst (onClientRequest atob r1)))
     = onClientRequest atob r1.
Proof.
  intros Hh Hq.
  destruct (onClientRequest_inputs atob r1 r2 Hh Hq) as (L & R & _).
  split; [exact L|]. split; [exact R|].
  destruct (onClientRequest_cases atob r1)
    as [(_ & E) | [(ch & e & _ & _ & _ & E)
       | [(ch & buffer & log & e & _ & _ & _ & _ & E)
         | (ch & buffer & log & fp & _ & _ & _ & _ & E)]]];
    rewrite E; cbn [fst]; try exact E.
  destruct (onClientRequest_inputs atob
              (<["PMUSER_JA4_FINGERPRINT" := fp]> r1) r1) as (L' & R' & W').
  { apply lookup_insert_ne. discriminate. }
  { rewrite lookup_insert_ne by discriminate. reflexivity. }
  rewrite E in L', R'. cbn [fst snd] in L', R'.
  specialize (W' fp R'). rewrite insert_insert_eq in W'.
  destruct (onClientRequest atob (<["PMUSER_JA4_FINGERPRINT" := fp]> r1))
    as [[vars log'] res]. cbn [fst snd] in L', R', W'. subst. reflexivity.
Qed.

Lemma X12_witness :
  requestWith browserHelloBase64 !! "PMUSER_TLS_CLIENT_HELLO"
  = <["PMUSER_QUIC_VERSION" := ""]>
      (<["PMUSER_JA4_FINGERPRINT" := "stale"]> (requestWith browserHelloBase64))
    !! "PMUSER_TLS_CLIENT_HELLO"
  /\ truthy (requestWith browserHelloBase64 !! "PMUSER_QUIC_VERSION")
     = truthy (<["PMUSER_QUIC_VERSION" := ""]>
                 (<["PMUSER_JA4_FINGERPRINT" := "stale"]>
                    (requestWith browserHelloBase64))
               !! "PMUSER_QUIC_VERSION")
  /\ snd (fst (onClientRequest atobBase64 (requestWith browserHelloBase64)))
     = snd (fst (onClientRequest atobBase64
                   (<["PMUSER_QUIC_VERSION" := ""]>
                      (<["PMUSER_JA4_FINGERPRINT" := "stale"]>
                         (requestWith browserHelloBase64)))))
  /\ snd (onClientRequest atobBase64 (requestWith browserHelloBase64))
     = snd (onClientRequest atobBase64
              (<["PMUSER_QUIC_VERSION" := ""]>
                 (<["PMUSER_JA4_FINGERPRINT" := "stale"]>
                    (requestWith browserHelloBase64))))
  /\ onClientRequest atobBase64
       (fst (fst (onClientRequest atobBase64 (requestWith browserHelloBase64))))
     = onClientRequest atobBase64 (requestWith browserHelloBase64).
Proof.
  assert (H1 : requestWith browserHelloBase64 !! "PMUSER_TLS_CLIENT_HELLO"
               = <["PMUSER_QUIC_VERSION" := ""]>
                   (<["PMUSER_JA4_FINGERPRINT" := "stale"]>
                      (requestWith browserHelloBase64))
                 !! "PMUSER_TLS_CLIENT_HELLO")
    by (rewrite !lookup_insert_ne by discriminate; reflexivity).
  assert (H2 : truthy (requestWith browserHelloBase64 !! "PMUSER_QUIC_VERSION")
               = truthy (<["PMUSER_QUIC_VERSION" := ""]>
                           (<["PMUSER_JA4_FINGERPRINT" := "stale"]>
                              (requestWith browserHelloBase64))
                         !! "PMUSER_QUIC_VERSION"))
    by (rewrite lookup_insert_eq, requestWith_quic; reflexivity).
  split; [exact H1|]. split; [exact H2|].
  apply (X12_inputs_of_the_handler atobBase64 _ _ H1 H2).
Defined.

(** X13. A fingerprint returned by [onClientRequest] is the one of the
    decoded ClientHello, with [q] in front when the QUIC variable is a
    non-empty string and [t] otherwise: an empty QUIC variable counts as
    absent, and what the variable holds has no influence. *)
Theorem X13_quic_variable (atob : string -> result string)
    (request : gmap string string) (fp : string) :
  snd (onClientRequest atob request) = Return (Some fp) ->
  exists ch buffer h rest,
    request !! "PMUSER_TLS_CLIENT_HELLO" = Some ch
    /\ base64toUint8Array atob ch = Return buffer
    /\ parseClientHello buffer = Return h
    /\ fingerprint h "tcp" = "t" +:+ rest
    /\ fingerprint h "quic" = "q" +:+ rest
    /\ fp = (if truthy (request !! "PMUSER_QUIC_VERSION") then "q" else "t")
            +:+ rest.
Proof.
  intros H.
  destruct (onClientRequest_cases atob request)
    as [(_ & E) | [(ch & e & _ & _ & _ & E)
       | [(ch & buffer & log & e & _ & _ & _ & _ & E)
         | (ch & buffer & log & fp' & Hch & _ & D & G & E)]]];
    rewrite E in H; cbn [snd] in H; try discriminate H.
  injection H as <-.
  assert (G' : snd (getJA4Fingerprint buffer
                      (if truthy (request !! "PMUSER_QUIC_VERSION")
                       then "quic" else "tcp")) = Return fp')
    by (rewrite G; reflexivity).
  apply getJA4Fingerprint_Return in G'. destruct G' as (h & P & ->).
  exists ch, buffer, h,
    (effectiveVersion h +:+ sni (exts h) +:+ numCiphers h
     +:+ numExtensions h +:+ alpn (exts h)
     +:+ "_" +:+ ja4CipherHash h +:+ "_" +:+ ja4ExtensionHash h).
  split; [exact Hch|]. split; [exact D|]. split; [exact P|].
  split; [apply fingerprint_flat|]. split; [apply fingerprint_flat|].
  rewrite fingerprint_flat.
  destruct (truthy (request !! "PMUSER_QUIC_VERSION")); reflexivity.
Qed.

Lemma X13_witness :
  snd (onClientRequest atobBase64
         (<["PMUSER_QUIC_VERSION" := "1"]> (requestWith browserHelloBase64)))
  = Return (Some "q13d0304h2_55b375c5d22e_ef5f37ab036a")
  /\ exists ch buffer h rest,
       <["PMUSER_QUIC_VERSION" := "1"]> (requestWith browserHelloBase64)
         !! "PMUSER_TLS_CLIENT_HELLO" = Some ch
       /\ base64toUint8Array atobBase64 ch = Return buffer
       /\ parseClientHello buffer = Return h
       /\ fingerprint h "tcp" = "t" +:+ rest
       /\ fingerprint h "quic" = "q" +:+ rest
       /\ "q13d0304h2_55b375c5d22e_ef5f37ab036a"
          = (if truthy (<["PMUSER_QUIC_VERSION" := "1"]>
                          (requestWith browserHelloBase64)
                        !! "PMUSER_QUIC_VERSION")
             then "q" else "t") +:+ rest.
Proof.
  assert (E1 : base64toUint8Array atobBase64 browserHelloBase64
               = Return browserHello)
    by (vm_compute; reflexivity).
  assert (E2 : getJA4Fingerprint browserHello "quic"
               = ([ LogDebug "JA4: q13d0304h2_55b375c5d22e_ef5f37ab036a";
                    LogDebug "JA4_r: q13d0304h2_1301,1302,1303_000d,002b_0403,0804" ],
                  Return "q13d0304h2_55b375c5d22e_ef5f37ab036a"))
    by (vm_compute; reflexivity).
  assert (H : snd (onClientRequest atobBase64
                     (<["PMUSER_QUIC_VERSION" := "1"]>
                        (requestWith browserHelloBase64)))
              = Return (Some "q13d0304h2_55b375c5d22e_ef5f37ab036a")).
  { rewrite (onClientRequest_nonempty atobBase64 _ browserHelloBase64);
      [| rewrite lookup_insert_ne by discriminate; apply requestWith_hello
       | discriminate].
    rewrite E1, lookup_insert_eq. cbn [truthy]. rewrite E2. reflexivity. }
  split; [exact H|].
  apply (X13_quic_variable atobBase64 _ _ H).
Defined.

(** ** Rendering of 16-bit values, and the shortest buffer *)

Lemma fixed4_lowerHex (v : Z) : 0 <= v < 65536 -> lowerHex (fixed4 v) = true.
Proof.
  intros Hv.
  assert (M0 : 0 <= v mod 16 < 16) by (apply Z.mod_pos_bound; lia).
  assert (M1 : 0 <= v / 16 mod 16 < 16) by (apply Z.mod_pos_bound; lia).
  assert (M2 : 0 <= v / 256 mod 16 < 16) by (apply Z.mod_pos_bound; lia).
  assert (M3 : 0 <= v / 4096 < 16)
    by (split; [apply Z.div_pos; lia | apply Z.div_lt_upper_bound; lia]).
  unfold lowerHex, fixed4. cbn [list_ascii_of_string forallb].
  rewrite !hexDigit_isLowerHex by assumption. reflexivity.
Qed.

(** X14. A 16-bit value is rendered as exactly four lowercase hexadecimal
    digits, and different values are rendered differently. *)
Theorem X14_hex4_faithful (v w : Z) :
  0 <= v < 65536 -> 0 <= w < 65536 ->
  String.length (hex4 v) = 4%nat
  /\ lowerHex (hex4 v) = true
  /\ (hex4 v = hex4 w -> v = w).
Proof.
  intros Hv Hw. split; [apply hex4_length; exact Hv|]. split.
  - rewrite (hex4_fixed v Hv). apply fixed4_lowerHex. exact Hv.
  - intros E. rewrite <- (unhex_hex4 v Hv), <- (unhex_hex4 w Hw), E. reflexivity.
Qed.

Lemma X14_witness :
  0 <= 255 < 65536 /\ 0 <= 10 < 65536
  /\ String.length (hex4 255) = 4%nat
  /\ lowerHex (hex4 255) = true
  /\ (hex4 255 = hex4 10 -> 255 = 10).
Proof.
  split; [lia|]. split; [lia|].
  apply (X14_hex4_faithful 255 10); lia.
Defined.

(** X15. A buffer of fewer than 44 bytes has no fingerprint: the parser
    throws [RangeError], which is logged once and thrown again. 44 bytes
    can be enough. *)
Theorem X15_shortest_buffer (buffer : list byte) (proto : string) :
  (length buffer < 44)%nat ->
  getJA4Fingerprint buffer proto
  = ([LogError "Error in getJA4Fingerprint: " RangeError], Throw RangeError)
  /\ exists fp, snd (getJA4Fingerprint (repeat x00 44) proto) = Return fp.
Proof.
  intros Hlen. split.
  - destruct (getJA4Fingerprint_total buffer proto) as [H|(fp & H)]; [exact H|].
    apply getJA4Fingerprint_Return in H. destruct H as (h & P & _).
    apply parseClientHello_length in P.
    destruct P as (sid & cs & comp & Hs & Hc & Hm & Hl).
    apply getUint8_Return in Hs, Hm. apply getUint16_Return in Hc. lia.
  - assert (P : parseClientHello (repeat x00 44)
                = Return (ClientHello "00" [] initialExtensions))
      by (vm_compute; reflexivity).
    eexists. apply getJA4Fingerprint_Return. eexists. split; [exact P | reflexivity].
Qed.

Lemma X15_witness :
  (length (repeat x00 43) < 44)%nat
  /\ getJA4Fingerprint (repeat x00 43) "tcp"
     = ([LogError "Error in getJA4Fingerprint: " RangeError], Throw RangeError)
  /\ exists fp, snd (getJA4Fingerprint (repeat x00 44) "tcp") = Return fp.
Proof.
  assert (H : (length (repeat x00 43) < 44)%nat) by (vm_compute; lia).
  split; [exact H|].
  apply (X15_shortest_buffer (repeat x00 43) "tcp" H).
Defined.
